(** * conveyor: a shallow embedding of the print dispatch engine

    The development follows the Python sources module by module:

    - [Py], [Os]      the builtins and [os]/[os.path] calls the sources make
    - [Address]       conveyor/address.py         (client transport addresses)
    - [Task]          conveyor/task.py            (task state machine, from the specification)
    - [Detector]      conveyor/printer/s3g.py     (S3gDetectorThread)
    - [Driver]        conveyor/printer/s3g.py     (S3gDriver stream print)
    - [Domain]        conveyor/domain.py          (jobs and slicer settings, from the specification)
    - [RecipeManager] conveyor/recipe.py          (recipe dispatch)
    - [Recipe]        conveyor/recipe.py          (processor selection, pipelines, cleanup)
    - [Run]           the state and exception monad of the task bodies
    - [RecipeTask]    conveyor/recipe.py          (post-process and verify task bodies)
    - [MiracleGrue]   conveyor/toolpath/miraclegrue.py

    Python exceptions are modelled by sum types ([inl e] is "raise e"),
    dictionaries by [gmap], sets by [gset], lists by [list]; clock readings
    are rationals. *)

From Stdlib Require Import ZArith QArith Lqa String Ascii List Lia.
From stdpp Require Import base gmap sets list strings.

Local Open Scope string_scope.
Local Open Scope list_scope.
Local Open Scope Z_scope.

(** ** Python string helpers *)

Module Py.

(** [s.partition(sep)] restricted to what [split] needs: the text before
    the first occurrence of [sep] and the text after it, when there is one. *)
Fixpoint cut (sep : ascii) (s : string) : option (string * string) :=
  match s with
  | EmptyString => None
  | String c r =>
      if Ascii.eqb c sep then Some (EmptyString, r)
      else match cut sep r with
           | Some (a, b) => Some (String c a, b)
           | None => None
           end
  end.

(** [s.split(sep, 1)]: a list of one or two strings. *)
Definition split1 (sep : ascii) (s : string) : list string :=
  match cut sep s with
  | Some (a, b) => [a; b]
  | None => [s]
  end.

(** [l[i]] on a list of strings, for an index known to be in range. *)
Definition item (l : list string) (i : nat) : string := nth i l EmptyString.

(** C-locale [isspace], the whitespace [int()] skips on a byte string. *)
Definition isspace (c : ascii) : bool :=
  let n := nat_of_ascii c in
  (Nat.eqb n 32 || (Nat.leb 9 n && Nat.leb n 13))%bool.

Definition isdigit (c : ascii) : bool :=
  let n := nat_of_ascii c in (Nat.leb 48 n && Nat.leb n 57)%bool.

Fixpoint lstrip (s : string) : string :=
  match s with
  | String c r => if isspace c then lstrip r else s
  | EmptyString => EmptyString
  end.

(** Reads a maximal run of decimal digits: the number read so far, whether a
    digit was seen, and the text that is left. *)
Fixpoint digits (acc : Z) (seen : bool) (s : string) : Z * bool * string :=
  match s with
  | String c r =>
      if isdigit c
      then digits (10 * acc + (Z.of_nat (nat_of_ascii c) - 48)) true r
      else (acc, seen, s)
  | EmptyString => (acc, seen, s)
  end.

(** The builtin [int(text)] of Python 2 on ASCII text, base 10: optional
    whitespace, an optional sign, optional whitespace, one or more digits,
    optional whitespace.  [None] stands for [ValueError]. *)
Definition int (text : string) : option Z :=
  let s1 := lstrip text in
  let '(neg, s2) :=
    match s1 with
    | String "-" r => (true, r)
    | String "+" r => (false, r)
    | _ => (false, s1)
    end in
  let '(n, seen, rest) := digits 0 false (lstrip s2) in
  if (seen && String.eqb (lstrip rest) EmptyString)%bool
  then Some (if neg then - n else n)
  else None.

(** [s.lower()] on ASCII text. *)
Definition lower_char (c : ascii) : ascii :=
  let n := nat_of_ascii c in
  if (Nat.leb 65 n && Nat.leb n 90)%bool then ascii_of_nat (n + 32) else c.

Fixpoint lower (s : string) : string :=
  match s with
  | String c r => String (lower_char c) (lower r)
  | EmptyString => EmptyString
  end.

(** [s.rfind(c)]: the last index of [c], or -1.  [i] is the index of the
    head of [s] and [last] the answer so far. *)
Fixpoint rfind_from (c : ascii) (i : Z) (last : Z) (s : string) : Z :=
  match s with
  | String d r => rfind_from c (i + 1) (if Ascii.eqb d c then i else last) r
  | EmptyString => last
  end.

Definition rfind (c : ascii) (s : string) : Z := rfind_from c 0 (-1) s.

(** The exceptions (all subclasses of [Exception]) that the modelled code
    and its collaborators raise. *)
Inductive exception : Type :=
| IOError (filename : string)
| OSError (filename : string)
| KeyError (key : string)
| NameError (name : string)
| NotImplementedError
| Exception (code : Z)
| S3gStreamError (message : string)
| OtherError (message : string).

#[global] Instance exception_eq_dec : EqDecision exception.
Proof. solve_decision. Defined.

End Py.

(** ** The file system, as [os], [os.path] and [open] see it *)

Module Os.

Inductive node : Type :=
| File (lines : list string)
| Dir
| Special.

Abbreviation FS := (gmap string node).

(** [os.path.exists(path)] *)
Definition exists_ (fs : FS) (path : string) : bool :=
  match fs !! path with Some _ => true | None => false end.

(** [os.path.isfile(path)] *)
Definition isfile (fs : FS) (path : string) : bool :=
  match fs !! path with Some (File _) => true | _ => false end.

(** [os.path.join(a, b)] for a directory [a] without trailing slash and a
    relative [b]. *)
Definition join (a b : string) : string := a +:+ "/" +:+ b.

(** [os.unlink(path)]: raises [OSError] unless [path] names something that
    is not a directory. *)
Definition unlink (path : string) (fs : FS) : Py.exception + FS :=
  match fs !! path with
  | Some (File _) | Some Special => inr (delete path fs)
  | Some Dir | None => inl (Py.OSError path)
  end.

(** What [os.unlink] accepts: an existing path that is not a directory. *)
Definition unlinkable (fs : FS) (path : string) : Prop :=
  exists node, fs !! path = Some node /\ node <> Dir.

(** [list(open(path))] *)
Definition readlines (path : string) (fs : FS) : Py.exception + list string :=
  match fs !! path with
  | Some (File lines) => inr lines
  | _ => inl (Py.IOError path)
  end.

(** [open(path, 'w')] followed by writing [lines]. *)
Definition writelines (path : string) (lines : list string) (fs : FS) : Py.exception + FS :=
  match fs !! path with
  | Some Dir => inl (Py.IOError path)
  | _ => inr (<[path := File lines]> fs)
  end.

(** [posixpath.splitext(p)] *)
Fixpoint has_name_before (p : string) (filenameIndex count : nat) : bool :=
  match count with
  | O => false
  | S count' =>
      match String.get filenameIndex p with
      | Some c =>
          if negb (Ascii.eqb c ".") then true
          else has_name_before p (S filenameIndex) count'
      | None => false
      end
  end.

Definition splitext (p : string) : string * string :=
  let sepIndex := Py.rfind "/" p in
  let dotIndex := Py.rfind "." p in
  if (sepIndex <? dotIndex)
     && has_name_before p (Z.to_nat (sepIndex + 1)) (Z.to_nat (dotIndex - (sepIndex + 1)))
  then (String.substring 0 (Z.to_nat dotIndex) p,
        String.substring (Z.to_nat dotIndex) (String.length p - Z.to_nat dotIndex) p)
  else (p, EmptyString).

(** A naming scheme for [tempfile], used where a concrete one is needed:
    the [n]-th name is "/tmp/tmp", a character numbered from "0", and the
    suffix. *)
Definition tmpname (n : nat) (suffix : string) : string :=
  "/tmp/tmp" +:+ String (ascii_of_nat (48 + n)) suffix.

End Os.

(** ** conveyor/address.py *)

Module Address.

Inductive Address : Type :=
| PipeAddress (path : string)
| TcpAddress (host : string) (port : Z).

Inductive exn : Type :=
| UnknownProtocolException (value protocol : string)
| MissingHostException (value : string)
| MissingPortException (value : string)
| InvalidPortException (value port : string)
| MissingPathException (value : string).

Definition result : Type := exn + Address.

(** The [value] attribute every exception class of the module sets. *)
Definition value (e : exn) : string :=
  match e with
  | UnknownProtocolException value _
  | MissingHostException value
  | MissingPortException value
  | InvalidPortException value _
  | MissingPathException value => value
  end.

Section Parse.

(** The builtin [int]; [None] is [ValueError]. *)
Variable int : string -> option Z.

(** [_AbstractPipeAddress._parse(s, split)] *)
Definition _AbstractPipeAddress_parse (s : string) (split : list string) : result :=
  if negb (Nat.eqb 2 (List.length split)) then inl (MissingPathException s)
  else
    let path := Py.item split 1 in
    if Nat.eqb 0 (String.length path) then inl (MissingPathException s)
    else inr (PipeAddress path).

(** [TcpAddress._parse(s, split)] *)
Definition TcpAddress_parse (s : string) (split : list string) : result :=
  if negb (Nat.eqb 2 (List.length split)) then inl (MissingHostException s)
  else
    let hostport := Py.split1 ":" (Py.item split 1) in
    if negb (Nat.eqb 2 (List.length hostport)) then inl (MissingPortException s)
    else
      let host := Py.item hostport 0 in
      if Nat.eqb 0 (String.length host) then inl (MissingHostException s)
      else
        match int (Py.item hostport 1) with
        | None => inl (InvalidPortException s (Py.item hostport 1))
        | Some port => inr (TcpAddress host port)
        end.

(** [Address.parse(s)] *)
Definition parse (s : string) : result :=
  let split := Py.split1 ":" s in
  if String.eqb "pipe" (Py.item split 0) then _AbstractPipeAddress_parse s split
  else if String.eqb "tcp" (Py.item split 0) then TcpAddress_parse s split
  else inl (UnknownProtocolException s (Py.item split 0)).

End Parse.

End Address.

(** ** conveyor/task.py *)

Module Task.

Inductive TaskState : Type := PENDING | RUNNING | ENDED | FAILED | STOPPED.

#[global] Instance TaskState_eq_dec : EqDecision TaskState.
Proof. solve_decision. Defined.

Section Task.

(** Payload types: progress records, results and failure causes. *)
Context {P R C : Type}.

(** One firing of one of the five multicast events of a task. *)
Inductive Fired : Type :=
| runningevent
| heartbeatevent (progress : P)
| endevent (result : R)
| failevent (cause : C)
| stoppedevent.

(** Modelled from the spec: conveyor/task.py is not among the sources.  A
    task is its state together with the events it has fired, oldest
    first (section 4.2 of the specification). *)
Record Task : Type := mkTask { state : TaskState; fired : list Fired }.

Definition new : Task := mkTask PENDING [].

Definition fire (t : Task) (st : TaskState) (evs : list Fired) : Task :=
  mkTask st (fired t ++ evs).

(** Modelled from the spec: the transition table of section 4.2.  A call
    the table has no row for (in particular any call in a terminal state)
    changes nothing. *)
Definition start (t : Task) : Task :=
  match state t with
  | PENDING => fire t RUNNING [runningevent]
  | _ => t
  end.

Definition heartbeat (p : P) (t : Task) : Task :=
  match state t with
  | RUNNING => fire t RUNNING [heartbeatevent p]
  | _ => t
  end.

Definition end_ (r : R) (t : Task) : Task :=
  match state t with
  | RUNNING => fire t ENDED [endevent r; stoppedevent]
  | _ => t
  end.

Definition fail (c : C) (t : Task) : Task :=
  match state t with
  | RUNNING => fire t FAILED [failevent c; stoppedevent]
  | _ => t
  end.

Definition cancel (t : Task) : Task :=
  match state t with
  | PENDING | RUNNING => fire t STOPPED [stoppedevent]
  | _ => t
  end.

(** Modelled from the spec: [lazy_heartbeat(new, old)] "compares the two
    records; if they differ in any value it fires heartbeat(new), else it
    is a no-op". *)
Definition lazy_heartbeat `{EqDecision P} (new_ old : P) (t : Task) : Task :=
  if decide (new_ = old) then t else heartbeat new_ t.

Definition is_heartbeat (f : Fired) : bool :=
  match f with heartbeatevent _ => true | _ => false end.

(** The heartbeats a task has fired, oldest first. *)
Definition heartbeats (t : Task) : list Fired := List.filter is_heartbeat (fired t).

End Task.

Arguments Fired : clear implicits.
Arguments Task : clear implicits.

End Task.

(** ** conveyor/printer/s3g.py: the detector thread *)

Module Detector.

(** The value of one entry of [get_available_machines()]. *)
Record MachineInfo : Type := { iSerial : string }.

(** The two dictionaries an [S3gDetectorThread] carries between iterations.
    Times are [time.time()] readings, in seconds. *)
Record S3gDetectorThread : Type := mkDetector {
  _available : gmap string MachineInfo;
  _blacklist : gmap string Q
}.

Definition init : S3gDetectorThread := mkDetector ∅ ∅.

(** Calls made on the server. *)
Inductive ServerCall : Type :=
| removeprinter (portname : string)
| appendprinter (printerid portname : string).

(** The loop over [self._blacklist.items()] (a list snapshot in Python 2, so
    deleting while iterating is safe). *)
Definition purge_step (now : Q) (blacklist : gmap string Q) (item : string * Q)
  : gmap string Q :=
  let '(portname, unlisttime) := item in
  if Qle_bool now unlisttime (* unlisttime >= now *)
  then delete portname blacklist
  else blacklist.

(** Whether the purge step deletes port [p] at the item it is given. *)
Definition expired_later (now : Q) (p : string) (item : string * Q) : bool :=
  (bool_decide (item.1 = p) && Qle_bool now item.2)%bool.

Definition purge (now : Q) (blacklist : gmap string Q) : gmap string Q :=
  foldl (purge_step now) blacklist (map_to_list blacklist).

Definition old_keys (self : S3gDetectorThread) : gset string := dom (_available self).

Definition new_keys (available : gmap string MachineInfo) (blacklist : gmap string Q)
  : gset string :=
  dom available ∖ dom blacklist.

Definition detached (self : S3gDetectorThread) (new_keys : gset string) : gset string :=
  old_keys self ∖ new_keys.

Definition attached (self : S3gDetectorThread) (new_keys : gset string) : gset string :=
  new_keys ∖ old_keys self.

Section Iteration.

(** [factory.build_from_port(portname, True)]: [false] when it raises. *)
Variable build_from_port : string -> bool.

(** The loop over [attached]: the server calls made, and the port whose
    construction raised, if any. *)
Fixpoint attach_all (available : gmap string MachineInfo) (ports : list string)
  : list ServerCall * option string :=
  match ports with
  | [] => ([], None)
  | portname :: rest =>
      if build_from_port portname then
        let printerid := default EmptyString (iSerial <$> available !! portname) in
        let '(calls, raised) := attach_all available rest in
        (appendprinter printerid portname :: calls, raised)
      else ([], Some portname)
  end.

(** [S3gDetectorThread._runiteration()], at clock reading [now] and with
    [machines] the answer of [get_available_machines()].  Returns the
    thread afterwards, the server calls in order, and the port whose
    driver construction raised, if one did (then [_available] keeps its
    old value). *)
Definition _runiteration (now : Q) (machines : gmap string MachineInfo)
    (self : S3gDetectorThread)
  : S3gDetectorThread * list ServerCall * option string :=
  let blacklist := purge now (_blacklist self) in
  let available := machines in
  let new_keys := new_keys available blacklist in
  let detached := detached self new_keys in
  let attached := attached self new_keys in
  let removed := removeprinter <$> elements detached in
  match attach_all available (elements attached) with
  | (calls, Some portname) =>
      (mkDetector (_available self) blacklist, removed ++ calls, Some portname)
  | (calls, None) =>
      (mkDetector available blacklist, removed ++ calls, None)
  end.

End Iteration.

(** [S3gDetectorThread.blacklist(portname)] *)
Definition blacklist (now blacklisttime : Q) (portname : string)
    (self : S3gDetectorThread) : S3gDetectorThread :=
  let unlisttime := (now + blacklisttime)%Q in
  mkDetector (_available self) (<[portname := unlisttime]> (_blacklist self)).

End Detector.

(** ** conveyor/printer/s3g.py: the stateless driver *)

Module Driver.

(** [data.strip()] *)
Definition rstrip (s : string) : string :=
  String.rev (Py.lstrip (String.rev s)).

Definition strip (s : string) : string := rstrip (Py.lstrip s).

(** [len(data)] for a string. *)
Definition len (data : string) : Z := Z.of_nat (String.length data).

(** [enumerate(l)], from index [i]. *)
Fixpoint enumerate_from {A : Type} (i : nat) (l : list A) : list (nat * A) :=
  match l with
  | [] => []
  | x :: r => (i, x) :: enumerate_from (S i) r
  end.

Definition enumerate {A : Type} (l : list A) : list (nat * A) := enumerate_from 0 l.

(** [len(data)] where [data] is one item of [enumerate(...)]: a 2-tuple. *)
Definition len_tuple {A B : Type} (data : A * B) : Z := 2.

(** [S3gDriver._countgcodelines(gcodelines)]: the loop variable [data]
    ranges over [enumerate(gcodelines)]. *)
Definition _countgcodelines (gcodelines : list string) : Z * Z :=
  foldl (fun '(lines, bytes) data => (lines + 1, bytes + len_tuple data))
        (0, 0) (enumerate gcodelines).

(** [S3gDriver._gcodelines]: the generator, materialized.  [startgcode] and
    [endgcode] are what [_get_start_end_variables(profile)] returned and
    [file] the lines of [gcodepath]. *)
Definition _gcodelines (startgcode endgcode : option (list string))
    (file : list string) (skip_start_end : bool) : list string :=
  (if negb skip_start_end then default [] startgcode else [])
  ++ file
  ++ (if negb skip_start_end then default [] endgcode else []).

Section Print.

Context {Temperature : Type}.

(** The [progress] dictionary of a heartbeat. *)
Record Progress : Type := mkProgress {
  currentline : nat;
  totallines : Z;
  currentbyte : Z;
  totalbytes : Z;
  temperature : option Temperature
}.

(** Causes are never set by the driver; [task.end(None)] has result [tt]. *)
Definition PrintTask : Type := Task.Task Progress unit Empty_set.

(** The world the print runs in: [_gettemperature(profile, parser.s3g)] at a
    clock reading, [None] when it raises (its [int(key)] raises [ValueError]
    on a profile key that is not an integer). *)
Variable _gettemperature : Q -> option Temperature.
(** [time.time()] inside the loop, at line [i]. *)
Variable clock : nat -> Q.
(** [parser.execute_line(data)] at line [i]: [false] when it raises. *)
Variable execute_line : nat -> string -> bool.
(** Whether another thread cancels the task just before line [i]. *)
Variable cancelled : nat -> bool.

Variable polltemperature : bool.
Variable pollinterval : Q.

(** The local variables of [_genericprint] that live across iterations. *)
Record Locals : Type := mkLocals {
  l_currentbyte : Z;
  l_polltime : Q;
  l_temperature : option Temperature;
  l_task : PrintTask
}.

(** How the stream loop was left: it ran to the end or broke out
    ([Finished]), [execute_line] raised at some line ([Raised]), or
    [_gettemperature] raised, before the loop ([None]) or at some line. *)
Inductive Outcome : Type :=
| Finished (st : Locals)
| Raised (line : nat) (st : Locals)
| TemperatureRaised (line : option nat) (st : Locals).

(** The body of [for currentline, data in enumerate(gcodelines)]. *)
Fixpoint stream (totallines totalbytes : Z) (items : list (nat * string))
    (st : Locals) : Outcome :=
  match items with
  | [] => Finished st
  | (currentline, data) :: rest =>
      let task := if cancelled currentline then Task.cancel (l_task st) else l_task st in
      if negb (bool_decide (Task.state task = Task.RUNNING))
      then Finished (mkLocals (l_currentbyte st) (l_polltime st) (l_temperature st) task)
      else
        let currentbyte := l_currentbyte st + len data in
        let data := strip data in
        let now := clock currentline in
        match
          (if (polltemperature && Qle_bool (l_polltime st) now)%bool
           then match _gettemperature now with
                | Some temperature => Some ((now + 5)%Q, Some temperature)
                | None => None
                end
           else Some (l_polltime st, l_temperature st))
        with
        | None =>
            TemperatureRaised (Some currentline)
              (mkLocals currentbyte (now + 5)%Q (l_temperature st) task)
        | Some (polltime, temperature) =>
            if negb (execute_line currentline data)
            then Raised currentline (mkLocals currentbyte polltime temperature task)
            else
              let progress :=
                mkProgress currentline totallines currentbyte totalbytes None in
              if Qle_bool polltime now
              then
                let progress :=
                  if polltemperature
                  then mkProgress currentline totallines currentbyte totalbytes temperature
                  else progress in
                stream totallines totalbytes rest
                  (mkLocals currentbyte (now + pollinterval)%Q temperature
                     (Task.heartbeat progress task))
              else
                stream totallines totalbytes rest
                  (mkLocals currentbyte polltime temperature task)
        end
  end.

(** What [_genericprint] leaves behind: the totals of the toolpath and how
    the loop went, with [task.end(None)] applied after a loop that was not
    left by an exception.  Counting the lines and setting [currentbyte] to 0
    touch nothing outside the function, so the record carries their values
    also when the temperature read that precedes them raises. *)
Record Printed : Type := mkPrinted {
  p_totallines : Z;
  p_totalbytes : Z;
  p_outcome : Outcome
}.

(** [S3gDriver._genericprint], from the clock reading [now] taken before
    the loop and the materialized [gcodelines]. *)
Definition _genericprint (now : Q) (gcodelines : list string) (task : PrintTask)
  : Printed :=
  let polltime := (now + pollinterval)%Q in
  let '(totallines, totalbytes) := _countgcodelines gcodelines in
  let currentbyte := 0 in
  match (if polltemperature
         then match _gettemperature now with
              | Some temperature => Some (Some temperature)
              | None => None
              end
         else Some None) with
  | None =>
      mkPrinted totallines totalbytes
        (TemperatureRaised None (mkLocals currentbyte polltime None task))
  | Some temperature =>
      match stream totallines totalbytes (enumerate gcodelines)
              (mkLocals currentbyte polltime temperature task) with
      | Finished st =>
          let task :=
            if negb (bool_decide (Task.state (l_task st) = Task.STOPPED))
            then Task.end_ tt (l_task st) else l_task st in
          mkPrinted totallines totalbytes
            (Finished (mkLocals (l_currentbyte st) (l_polltime st) (l_temperature st) task))
      | Raised line st => mkPrinted totallines totalbytes (Raised line st)
      | TemperatureRaised line st => mkPrinted totallines totalbytes (TemperatureRaised line st)
      end
  end.

Definition locals (o : Outcome) : Locals :=
  match o with Finished st | Raised _ st | TemperatureRaised _ st => st end.

End Print.

(** The sum of the raw line lengths. *)
Definition rawbytes (gcodelines : list string) : Z :=
  foldr (fun data acc => len data + acc) 0 gcodelines.

End Driver.

(** ** conveyor/domain.py *)

Module Domain.

(** Modelled from the spec: conveyor/domain.py is not among the sources.  The
    slicer identifiers: the legacy slicer (Skeinforge) and Miracle Grue. *)
Inductive Slicer : Type := MIRACLEGRUE | SKEINFORGE.

#[global] Instance Slicer_eq_dec : EqDecision Slicer.
Proof. solve_decision. Defined.

(** Modelled from the spec: the slicer settings of a job, with the fields
    the recipes read: the selected slicer, the optional preconfigured slicer
    path and the extruder. *)
Record SlicerConfiguration : Type := mkSlicerConfiguration {
  slicer : Slicer;
  slicer_path : option string;
  extruder : string
}.

(** Modelled from the spec: the job descriptor (section 3). *)
Record Job : Type := mkJob {
  path : string;
  build_name : string;
  slicer_settings : SlicerConfiguration;
  material : string;
  with_start_end : bool;
  skip_start_end : bool;
  gcodeprocessor : option (list string);
  print_to_file_type : string
}.

End Domain.

(** ** conveyor/recipe.py: recipe dispatch *)

Module RecipeManager.

Import Domain.

Inductive Recipe : Type :=
| _GcodeRecipe (job : Job) (gcodepath : string)
| _StlRecipe (job : Job) (stlpath : string)
| _SingleThingRecipe (job : Job) (stl_path : string)
| _DualThingRecipe (job : Job) (stl_0_path stl_1_path : string).

Inductive exn : Type :=
| UnsupportedModelTypeException (path : string)
| MissingFileException (path : string)
| NotFileException (path : string)
| InvalidThingException (path : string)
| PyError (e : Py.exception).

(** [RecipeManager._getrecipe_gcode(job)] *)
Definition _getrecipe_gcode (fs : Os.FS) (job : Job) : exn + Recipe :=
  if negb (Os.exists_ fs (path job)) then inl (MissingFileException (path job))
  else if negb (Os.isfile fs (path job)) then inl (NotFileException (path job))
  else inr (_GcodeRecipe job (path job)).

(** [RecipeManager._getrecipe_stl(job)].  The name [MissingPathExceptoin]
    is bound nowhere, so evaluating it raises [NameError]. *)
Definition _getrecipe_stl (fs : Os.FS) (job : Job) : exn + Recipe :=
  if negb (Os.exists_ fs (path job))
  then inl (PyError (Py.NameError "MissingPathExceptoin"))
  else if negb (Os.isfile fs (path job)) then inl (NotFileException (path job))
  else inr (_StlRecipe job (path job)).

Section Thing.

(** [tempfile.mkdtemp(suffix='.thing')]: the fresh directory it makes. *)
Variable mkdtemp : Os.FS -> string.
(** The mesh splitter run on the job path and the scratch directory:
    [None] when [Popen] raises [OSError], else the exit code and the file
    system the run leaves. *)
Variable unified_mesh_hack : string -> string -> Os.FS -> option (Z * Os.FS).

(** [RecipeManager._getrecipe_thing(job)] *)
Definition _getrecipe_thing (fs : Os.FS) (job : Job) : (exn + Recipe) * Os.FS :=
  if negb (Os.exists_ fs (path job)) then (inl (MissingFileException (path job)), fs)
  else
    let thing_dir := mkdtemp fs in
    let fs := <[thing_dir := Os.Dir]> fs in
    match unified_mesh_hack (path job) thing_dir fs with
    | None => (inl (PyError (Py.OSError EmptyString)), fs)
    | Some (code, fs) =>
        if negb (code =? 0) then (inl (InvalidThingException (path job)), fs)
        else
          let stl_0_path := Os.join thing_dir "UNIFIED_MESH_HACK_0.stl" in
          let stl_1_path := Os.join thing_dir "UNIFIED_MESH_HACK_1.stl" in
          if Os.exists_ fs stl_0_path && Os.exists_ fs stl_1_path
          then (inr (_DualThingRecipe job stl_0_path stl_1_path), fs)
          else if Os.exists_ fs stl_0_path
          then (inr (_SingleThingRecipe job stl_0_path), fs)
          else if Os.exists_ fs stl_1_path
          then (inr (_SingleThingRecipe job stl_1_path), fs)
          else (inl (InvalidThingException (path job)), fs)
    end.

(** [RecipeManager.getrecipe(job)] *)
Definition getrecipe (fs : Os.FS) (job : Job) : (exn + Recipe) * Os.FS :=
  let '(root, ext) := Os.splitext (path job) in
  if String.eqb ".gcode" (Py.lower ext) then (_getrecipe_gcode fs job, fs)
  else if String.eqb ".stl" (Py.lower ext) then (_getrecipe_stl fs job, fs)
  else if String.eqb ".thing" (Py.lower ext) then _getrecipe_thing fs job
  else (inl (UnsupportedModelTypeException (path job)), fs).

End Thing.

End RecipeManager.

(** ** conveyor/recipe.py: recipes *)

Module Recipe.

Import Domain.

(** Python values that travel as progress entries, results and causes. *)
Inductive value : Type :=
| VNone
| VBool (b : bool)
| VInt (n : Z)
| VStr (s : string)
| VExc (e : Py.exception).

#[global] Instance value_eq_dec : EqDecision value.
Proof. solve_decision. Defined.

Abbreviation dict := (gmap string value).
Abbreviation RTask := (Task.Task dict value value).

(** [x in l] *)
Definition contains (x : string) (l : list string) : bool := bool_decide (x ∈ l).

(** [Recipe.getgcodeprocessors()], for [config['common']['profile'] = profile].
    The list of a job that has one is changed in place, so the job is
    returned as well. *)
Definition getgcodeprocessors (profile : string) (job : Job) : list string * Job :=
  let gcodeprocessors := default [] (gcodeprocessor job) in
  let gcodeprocessors :=
    if decide (SKEINFORGE = slicer (slicer_settings job)) then
      let gcodeprocessors :=
        if negb (contains "AnchorProcessor" gcodeprocessors)
           && bool_decide (slicer_path (slicer_settings job) = None)
        then "AnchorProcessor" :: gcodeprocessors
        else gcodeprocessors in
      let gcodeprocessors :=
        if negb (contains "Skeinforge50Processor" gcodeprocessors)
        then gcodeprocessors ++ ["Skeinforge50Processor"]
        else gcodeprocessors in
      if String.eqb profile "Replicator2" then
        if negb (contains "FanProcessor" gcodeprocessors)
        then gcodeprocessors ++ ["FanProcessor"]
        else gcodeprocessors
      else gcodeprocessors
    else gcodeprocessors in
  (gcodeprocessors,
   mkJob (path job) (build_name job) (slicer_settings job) (material job)
     (with_start_end job) (skip_start_end job)
     ((fun _ => gcodeprocessors) <$> gcodeprocessor job) (print_to_file_type job)).

(** *** Tasks and processes *)

(** The tasks a recipe creates, by the method that creates them and its
    arguments. *)
Inductive TaskDesc : Type :=
| _slicertask (profile inputpath outputpath : string)
    (with_start_end dualstrusion : bool) (slicer_config : SlicerConfiguration)
| _gcodeprocessortask (inputpath outputpath : string) (gcodeprocessor_list : list string)
| _dualstrusiontask (tool_0_path tool_1_path outputpath : string)
| _printtask (printerthread inputpath : string) (dualstrusion : bool)
| _printtofiletask (profile inputpath outputpath : string) (dualstrusion : bool)
| verifys3gtask (s3gpath : string)
| _with_start_end_task (profile : string) (slicer_settings : SlicerConfiguration)
    (material : string) (with_start_end dualstrusion : bool)
    (input_path output_path : string).

Inductive EventKind : Type := OnRunning | OnHeartbeat | OnEnd | OnFail | OnStopped.

#[global] Instance EventKind_eq_dec : EqDecision EventKind.
Proof. solve_decision. Defined.

Definition kind_of (f : Task.Fired dict value value) : EventKind :=
  match f with
  | Task.runningevent => OnRunning
  | Task.heartbeatevent _ => OnHeartbeat
  | Task.endevent _ => OnEnd
  | Task.failevent _ => OnFail
  | Task.stoppedevent => OnStopped
  end.

(** A handler that works on the file system: the exception it raised, if
    any, and the file system it leaves. *)
Definition Handler : Type := Os.FS -> option Py.exception * Os.FS.

(** Modelled from the spec: conveyor/process.py is not among the sources.
    The composite of [tasksequence(job, tasks)] is itself a task (section
    4.3); it is kept with its children and with the handlers attached to
    its events, in attachment order. *)
Record Process : Type := mkProcess {
  p_tasks : list TaskDesc;
  p_task : RTask;
  p_handlers : list (EventKind * Handler)
}.

Definition tasksequence (job : Job) (tasks : list TaskDesc) : Process :=
  mkProcess tasks Task.new [].

(** [process.<kind>event.attach(handler)] *)
Definition attach (kind : EventKind) (handler : Handler) (p : Process) : Process :=
  mkProcess (p_tasks p) (p_task p) (p_handlers p ++ [(kind, handler)]).

(** Modelled from the spec: [Event.fire] (section 4.1) calls the attached
    handlers in registration order; what a handler raises is logged and
    swallowed. *)
Definition fire (kind : EventKind) (handlers : list (EventKind * Handler)) (fs : Os.FS)
  : Os.FS :=
  foldl (fun fs kh => if decide (kh.1 = kind) then (kh.2 fs).2 else fs) fs handlers.

(** A transition of the composite task: the events it newly fires are
    delivered to the attached handlers, in firing order. *)
Definition transition (f : RTask -> RTask) (p : Process) (fs : Os.FS) : Process * Os.FS :=
  let t := f (p_task p) in
  let newly := drop (List.length (Task.fired (p_task p))) (Task.fired t) in
  (mkProcess (p_tasks p) t (p_handlers p),
   foldl (fun fs ev => fire (kind_of ev) (p_handlers p) fs) fs newly).

(** A process as the recipes build it: not started, and with handlers on
    its [end] event only. *)
Definition end_only (p : Process) : Prop :=
  Forall (fun kh : EventKind * Handler => kh.1 = OnEnd) (p_handlers p)
  /\ p_task p = Task.new.

(** [for path in paths: os.unlink(path)] *)
Fixpoint unlink_all (paths : list string) : Handler :=
  fun fs =>
    match paths with
    | [] => (None, fs)
    | path :: rest =>
        match Os.unlink path fs with
        | inl e => (Some e, fs)
        | inr fs => unlink_all rest fs
        end
    end.

(** *** Temporary names *)

(** Computations that draw names from [tempfile]: the state counts the
    names handed out. *)
Definition Tmp (A : Type) : Type := nat -> A * nat.

#[global] Instance Tmp_ret : MRet Tmp := fun A a n => (a, n).
#[global] Instance Tmp_bind : MBind Tmp :=
  fun A B f c n => let '(a, n) := c n in f a n.
#[global] Instance Tmp_fmap : FMap Tmp :=
  fun A B f c n => let '(a, n) := c n in (f a, n).

Section Recipes.

(** The [n]-th name [tempfile] hands out, for a suffix. *)
Variable mktemp : nat -> string -> string.
(** [config['common']['profile']] *)
Variable config_profile : string.

(** [with tempfile.NamedTemporaryFile(suffix=...) as f: name = f.name]:
    the file is gone when the block is left, only the name is kept. *)
Definition NamedTemporaryFile (suffix : string) : Tmp string :=
  fun n => (mktemp n suffix, S n).

(** [self._gcodeprocessortask(inputpath, outputpath)]: the processor list
    is read again when the task is made. *)
Definition make_gcodeprocessortask (job : Job) (inputpath outputpath : string)
  : TaskDesc * Job :=
  let '(gcodeprocessor_list, job) := getgcodeprocessors config_profile job in
  (_gcodeprocessortask inputpath outputpath gcodeprocessor_list, job).

(** A printer thread is known by its port name and its profile. *)
Record PrinterThread : Type := mkPrinterThread { portname : string; _profile : string }.

(** [_GcodeRecipe.print(printerthread)] *)
Definition _GcodeRecipe_print (job : Job) (gcodepath : string)
    (printerthread : PrinterThread) : Tmp Process :=
  let tasks := [] in
  outputpath ← NamedTemporaryFile ".gcode";
  let with_start_end_task :=
    _with_start_end_task (_profile printerthread) (slicer_settings job) (material job)
      (with_start_end job) false (path job) outputpath in
  let tasks := tasks ++ [with_start_end_task] in
  let printtask := _printtask (portname printerthread) outputpath false in
  let tasks := tasks ++ [printtask] in
  let process := tasksequence job tasks in
  mret process.

(** [_GcodeRecipe.printtofile(profile, outputpath)] *)
Definition _GcodeRecipe_printtofile (job : Job) (gcodepath : string)
    (profile outputpath : string) : Tmp Process :=
  let tasks := [] in
  start_end_path ← NamedTemporaryFile ".gcode";
  let with_start_end_task :=
    _with_start_end_task profile (slicer_settings job) (material job)
      (with_start_end job) false (path job) start_end_path in
  let tasks := tasks ++ [with_start_end_task] in
  let printtofiletask := _printtofiletask profile start_end_path outputpath false in
  let tasks := tasks ++ [printtofiletask] in
  let tasks := tasks ++ [verifys3gtask outputpath] in
  let process_endcallback : Handler := unlink_all [start_end_path] in
  let process := tasksequence job tasks in
  let process := attach OnEnd process_endcallback process in
  mret process.

(** [_StlRecipe.print(printerthread)] *)
Definition _StlRecipe_print (job : Job) (stlpath : string)
    (printerthread : PrinterThread) : Tmp Process :=
  let tasks := [] in
  gcodepath ← NamedTemporaryFile ".gcode";
  let profile := _profile printerthread in
  let slicetask := _slicertask profile stlpath gcodepath false false (slicer_settings job) in
  let tasks := tasks ++ [slicetask] in
  let '(gcodeprocessors, job) := getgcodeprocessors config_profile job in
  '(processed_gcodepath, tasks, job) ←
    (if Nat.eqb 0 (List.length gcodeprocessors)
     then mret (gcodepath, tasks, job)
     else
       processed_gcodepath ← NamedTemporaryFile ".gcode";
       let '(gcodeprocessortask, job) :=
         make_gcodeprocessortask job gcodepath processed_gcodepath in
       mret (processed_gcodepath, tasks ++ [gcodeprocessortask], job));
  outputpath ← NamedTemporaryFile ".gcode";
  let with_start_end_task :=
    _with_start_end_task (_profile printerthread) (slicer_settings job) (material job)
      (with_start_end job) false processed_gcodepath outputpath in
  let tasks := tasks ++ [with_start_end_task] in
  let printtask := _printtask (portname printerthread) outputpath false in
  let tasks := tasks ++ [printtask] in
  let process_endcallback : Handler :=
    unlink_all (gcodepath ::
                if negb (String.eqb gcodepath processed_gcodepath)
                then [processed_gcodepath] else []) in
  let process := tasksequence job tasks in
  let process := attach OnEnd process_endcallback process in
  mret process.

(** [_StlRecipe.printtofile(profile, outputpath)] *)
Definition _StlRecipe_printtofile (job : Job) (stlpath : string)
    (profile outputpath : string) : Tmp Process :=
  let tasks := [] in
  gcodepath ← NamedTemporaryFile ".gcode";
  let slicetask := _slicertask profile stlpath gcodepath false false (slicer_settings job) in
  let tasks := tasks ++ [slicetask] in
  let '(gcodeprocessors, job) := getgcodeprocessors config_profile job in
  '(processed_gcodepath, tasks, job) ←
    (if Nat.eqb 0 (List.length gcodeprocessors)
     then mret (gcodepath, tasks, job)
     else
       processed_gcodepath ← NamedTemporaryFile ".gcode";
       let '(gcodeprocessortask, job) :=
         make_gcodeprocessortask job gcodepath processed_gcodepath in
       mret (processed_gcodepath, tasks ++ [gcodeprocessortask], job));
  start_end_path ← NamedTemporaryFile ".gcode";
  let with_start_end_task :=
    _with_start_end_task profile (slicer_settings job) (material job)
      (with_start_end job) false processed_gcodepath start_end_path in
  let tasks := tasks ++ [with_start_end_task] in
  let printtofiletask := _printtofiletask profile start_end_path outputpath false in
  let tasks := tasks ++ [printtofiletask] in
  let tasks := tasks ++ [verifys3gtask outputpath] in
  let process_endcallback : Handler :=
    unlink_all (gcodepath ::
                if negb (String.eqb gcodepath processed_gcodepath)
                then [processed_gcodepath] else []) in
  let process := tasksequence job tasks in
  let process := attach OnEnd process_endcallback process in
  mret process.

(** [_StlRecipe.slice(profile, outputpath)] *)
Definition _StlRecipe_slice (job : Job) (stlpath : string)
    (profile outputpath : string) : Tmp Process :=
  let tasks := [] in
  gcodepath ← NamedTemporaryFile ".gcode";
  let slicetask := _slicertask profile stlpath gcodepath false false (slicer_settings job) in
  let tasks := tasks ++ [slicetask] in
  let '(gcodeprocessors, job) := getgcodeprocessors config_profile job in
  processed_gcodepath ←
    (if Nat.eqb 0 (List.length gcodeprocessors)
     then mret gcodepath
     else NamedTemporaryFile ".gcode");
  let '(tasks, job) :=
    if negb (Nat.eqb 0 (List.length gcodeprocessors))
    then
      let '(gcodeprocessortask, job) :=
        make_gcodeprocessortask job gcodepath processed_gcodepath in
      (tasks ++ [gcodeprocessortask], job)
    else (tasks, job) in
  let with_start_end_task :=
    _with_start_end_task profile (slicer_settings job) (material job)
      (with_start_end job) false processed_gcodepath outputpath in
  let tasks := tasks ++ [with_start_end_task] in
  let process_endcallback : Handler :=
    unlink_all (if negb (String.eqb gcodepath outputpath) then [gcodepath] else []) in
  let process := tasksequence job tasks in
  let process := attach OnEnd process_endcallback process in
  mret process.

(** [SlicerConfiguration.fromdict(settings.todict())] with [extruder] set. *)
Definition with_extruder (settings : SlicerConfiguration) (extruder : string)
  : SlicerConfiguration :=
  mkSlicerConfiguration (slicer settings) (slicer_path settings) extruder.

(** [_DualThingRecipe.printtofile(profile, outputpath)] *)
Definition _DualThingRecipe_printtofile (job : Job) (stl_0_path stl_1_path : string)
    (profile outputpath : string) : Tmp Process :=
  let tasks := [] in
  gcode_0_path ← NamedTemporaryFile ".0.gcode";
  gcode_1_path ← NamedTemporaryFile ".1.gcode";
  let settings_0 := with_extruder (slicer_settings job) "0" in
  let slice_0_task := _slicertask profile stl_0_path gcode_0_path false true settings_0 in
  let tasks := tasks ++ [slice_0_task] in
  let settings_1 := with_extruder (slicer_settings job) "1" in
  let slice_1_task := _slicertask profile stl_1_path gcode_1_path false true settings_1 in
  let tasks := tasks ++ [slice_1_task] in
  dualstrusion_path ← NamedTemporaryFile ".gcode";
  let tasks := tasks ++ [_dualstrusiontask gcode_0_path gcode_1_path dualstrusion_path] in
  let '(gcodeprocessors, job) := getgcodeprocessors config_profile job in
  '(processed_gcodepath, tasks, job) ←
    (if Nat.eqb 0 (List.length gcodeprocessors)
     then mret (dualstrusion_path, tasks, job)
     else
       processed_gcodepath ← NamedTemporaryFile ".gcode";
       let '(gcodeprocessortask, job) :=
         make_gcodeprocessortask job dualstrusion_path processed_gcodepath in
       mret (processed_gcodepath, tasks ++ [gcodeprocessortask], job));
  start_end_path ← NamedTemporaryFile ".gcode";
  let with_start_end_task :=
    _with_start_end_task profile (slicer_settings job) (material job)
      (with_start_end job) true processed_gcodepath start_end_path in
  let tasks := tasks ++ [with_start_end_task] in
  let printtofiletask := _printtofiletask profile start_end_path outputpath true in
  let tasks := tasks ++ [printtofiletask] in
  let tasks := tasks ++ [verifys3gtask outputpath] in
  let process := tasksequence job tasks in
  let process_endcallback : Handler :=
    unlink_all [gcode_0_path; gcode_1_path; processed_gcodepath] in
  let process := attach OnEnd process_endcallback process in
  mret process.

(** [_DualThingRecipe.slice(profile, outputpath)] *)
Definition _DualThingRecipe_slice (job : Job) (stl_0_path stl_1_path : string)
    (profile outputpath : string) : Tmp Process :=
  let tasks := [] in
  gcode_0_path ← NamedTemporaryFile ".0.gcode";
  gcode_1_path ← NamedTemporaryFile ".1.gcode";
  let settings_0 := with_extruder (slicer_settings job) "0" in
  let slice_0_task := _slicertask profile stl_0_path gcode_0_path false true settings_0 in
  let tasks := tasks ++ [slice_0_task] in
  let settings_1 := with_extruder (slicer_settings job) "1" in
  let slice_1_task := _slicertask profile stl_1_path gcode_1_path false true settings_1 in
  let tasks := tasks ++ [slice_1_task] in
  dualstrusion_path ← NamedTemporaryFile ".gcode";
  let tasks := tasks ++ [_dualstrusiontask gcode_0_path gcode_1_path dualstrusion_path] in
  dual_path ← NamedTemporaryFile ".dual.gcode";
  let '(gcodeprocessors, job) := getgcodeprocessors config_profile job in
  let '(gcodeprocessortask, job) :=
    make_gcodeprocessortask job dualstrusion_path dual_path in
  let tasks := tasks ++ [gcodeprocessortask] in
  let with_start_end_task :=
    _with_start_end_task profile (slicer_settings job) (material job)
      (with_start_end job) true dual_path outputpath in
  let tasks := tasks ++ [with_start_end_task] in
  let process := tasksequence job tasks in
  let process_endcallback : Handler :=
    unlink_all [gcode_0_path; gcode_1_path; dualstrusion_path] in
  let process := attach OnEnd process_endcallback process in
  mret process.

(** [_DualThingRecipe.print(printerthread)] *)
Definition _DualThingRecipe_print (job : Job) (stl_0_path stl_1_path : string)
    (printerthread : PrinterThread) : Tmp Process :=
  let profile := _profile printerthread in
  let tasks := [] in
  gcode_0_path ← NamedTemporaryFile ".0.gcode";
  gcode_1_path ← NamedTemporaryFile ".1.gcode";
  let settings_0 := with_extruder (slicer_settings job) "0" in
  let slice_0_task := _slicertask profile stl_0_path gcode_0_path false true settings_0 in
  let tasks := tasks ++ [slice_0_task] in
  let settings_1 := with_extruder (slicer_settings job) "1" in
  let slice_1_task := _slicertask profile stl_1_path gcode_1_path false true settings_1 in
  let tasks := tasks ++ [slice_1_task] in
  dualstrusion_path ← NamedTemporaryFile ".gcode";
  let tasks := tasks ++ [_dualstrusiontask gcode_0_path gcode_1_path dualstrusion_path] in
  let '(gcodeprocessors, job) := getgcodeprocessors config_profile job in
  '(processed_gcodepath, tasks, job) ←
    (if Nat.eqb 0 (List.length gcodeprocessors)
     then mret (dualstrusion_path, tasks, job)
     else
       processed_gcodepath ← NamedTemporaryFile ".gcode";
       let '(gcodeprocessortask, job) :=
         make_gcodeprocessortask job dualstrusion_path processed_gcodepath in
       mret (processed_gcodepath, tasks ++ [gcodeprocessortask], job));
  outputpath ← NamedTemporaryFile ".gcode";
  let with_start_end_task :=
    _with_start_end_task profile (slicer_settings job) (material job)
      (with_start_end job) true processed_gcodepath outputpath in
  let tasks := tasks ++ [with_start_end_task] in
  let printtask := _printtask (portname printerthread) outputpath true in
  let tasks := tasks ++ [printtask] in
  let process := tasksequence job tasks in
  let process_endcallback : Handler :=
    unlink_all [gcode_0_path; gcode_1_path; dualstrusion_path; processed_gcodepath] in
  let process := attach OnEnd process_endcallback process in
  mret process.

(** The three ways of asking a recipe for a process. *)
Inductive Mode : Type :=
| print (printerthread : PrinterThread)
| printtofile (profile outputpath : string)
| slice (profile outputpath : string).

(** Method dispatch over the recipe classes: [_SingleThingRecipe] hands
    over to an [_StlRecipe] on its mesh, and [_GcodeRecipe] inherits
    [Recipe.slice], which raises [NotImplementedError]. *)
Definition process_of (recipe : RecipeManager.Recipe) (mode : Mode)
  : Tmp (Py.exception + Process) :=
  match recipe, mode with
  | RecipeManager._GcodeRecipe job gcodepath, print printerthread =>
      inr <$> _GcodeRecipe_print job gcodepath printerthread
  | RecipeManager._GcodeRecipe job gcodepath, printtofile profile outputpath =>
      inr <$> _GcodeRecipe_printtofile job gcodepath profile outputpath
  | RecipeManager._GcodeRecipe job gcodepath, slice _ _ =>
      mret (inl Py.NotImplementedError)
  | RecipeManager._StlRecipe job stlpath, print printerthread
  | RecipeManager._SingleThingRecipe job stlpath, print printerthread =>
      inr <$> _StlRecipe_print job stlpath printerthread
  | RecipeManager._StlRecipe job stlpath, printtofile profile outputpath
  | RecipeManager._SingleThingRecipe job stlpath, printtofile profile outputpath =>
      inr <$> _StlRecipe_printtofile job stlpath profile outputpath
  | RecipeManager._StlRecipe job stlpath, slice profile outputpath
  | RecipeManager._SingleThingRecipe job stlpath, slice profile outputpath =>
      inr <$> _StlRecipe_slice job stlpath profile outputpath
  | RecipeManager._DualThingRecipe job stl_0_path stl_1_path, print printerthread =>
      inr <$> _DualThingRecipe_print job stl_0_path stl_1_path printerthread
  | RecipeManager._DualThingRecipe job stl_0_path stl_1_path,
    printtofile profile outputpath =>
      inr <$> _DualThingRecipe_printtofile job stl_0_path stl_1_path profile outputpath
  | RecipeManager._DualThingRecipe job stl_0_path stl_1_path, slice profile outputpath =>
      inr <$> _DualThingRecipe_slice job stl_0_path stl_1_path profile outputpath
  end.

End Recipes.

End Recipe.

(** ** Task bodies: a state and exception monad *)

Module Run.

(** What a task body works on: the file system, the task it was handed and
    the count of temporary names handed out. *)
Record World : Type := mkWorld {
  w_fs : Os.FS;
  w_task : Recipe.RTask;
  w_tmp : nat
}.

(** A computation either returns or raises, and leaves a world. *)
Definition M (A : Type) : Type := World -> (Py.exception + A) * World.

#[global] Instance M_ret : MRet M := fun A a w => (inr a, w).
#[global] Instance M_bind : MBind M :=
  fun A B f c w =>
    match c w with
    | (inr a, w) => f a w
    | (inl e, w) => (inl e, w)
    end.

Definition raise {A : Type} (e : Py.exception) : M A := fun w => (inl e, w).

(** [try: body / except Exception as e: handler(e) / else: orelse]. *)
Definition try_except {A B : Type} (body : M A) (handler : Py.exception -> M B)
    (orelse : A -> M B) : M B :=
  fun w =>
    match body w with
    | (inl e, w) => handler e w
    | (inr a, w) => orelse a w
    end.

(** An operation of [Os] on the file system of the world. *)
Definition on_fs {A : Type} (op : Os.FS -> Py.exception + A) (put : A -> Os.FS -> Os.FS)
  : M A :=
  fun w =>
    match op (w_fs w) with
    | inl e => (inl e, w)
    | inr a => (inr a, mkWorld (put a (w_fs w)) (w_task w) (w_tmp w))
    end.

Definition readlines (path : string) : M (list string) :=
  on_fs (Os.readlines path) (fun _ fs => fs).

Definition writelines (path : string) (lines : list string) : M unit :=
  fun w =>
    match Os.writelines path lines (w_fs w) with
    | inl e => (inl e, w)
    | inr fs => (inr tt, mkWorld fs (w_task w) (w_tmp w))
    end.

Definition unlink (path : string) : M unit :=
  fun w =>
    match Os.unlink path (w_fs w) with
    | inl e => (inl e, w)
    | inr fs => (inr tt, mkWorld fs (w_task w) (w_tmp w))
    end.

(** [task.fail(cause)] and [task.end(result)] *)
Definition task_fail (cause : Recipe.value) : M unit :=
  fun w => (inr tt, mkWorld (w_fs w) (Task.fail cause (w_task w)) (w_tmp w)).

Definition task_end (result : Recipe.value) : M unit :=
  fun w => (inr tt, mkWorld (w_fs w) (Task.end_ result (w_task w)) (w_tmp w)).

End Run.

(** ** conveyor/recipe.py: the bodies of the post-process and verify tasks *)

Module RecipeTask.

Import Run.

(** A g-code processor: [process_gcode] maps lines to lines, or raises. *)
Definition Processor : Type := list string -> Py.exception + list string.

(** [for gcodeprocessor in gcodeprocessors: output = gcodeprocessor.process_gcode(output)] *)
Fixpoint process_all (gcodeprocessors : list Processor) (output : list string)
  : M (list string) :=
  match gcodeprocessors with
  | [] => mret output
  | gcodeprocessor :: rest =>
      match gcodeprocessor output with
      | inl e => raise e
      | inr output => process_all rest output
      end
  end.

(** The [try] block of the running callback of [_gcodeprocessortask]. *)
Definition gcodeprocessor_body (inputpath outputpath : string)
    (gcodeprocessors : list Processor) : M unit :=
  output ← readlines inputpath;
  output ← process_all gcodeprocessors output;
  writelines outputpath output.

(** [runningcallback(task)] of [Recipe._gcodeprocessortask]. *)
Definition gcodeprocessor_runningcallback (inputpath outputpath : string)
    (gcodeprocessors : list Processor) : M unit :=
  try_except (gcodeprocessor_body inputpath outputpath gcodeprocessors)
    (fun e => task_fail (Recipe.VExc e))
    (fun _ => task_end Recipe.VNone).

(** *** [Recipe.verifys3gtask] *)

(** Dictionaries are objects on a heap; a variable holds a location. *)
Record VerifyState : Type := mkVerifyState {
  heap : gmap nat Recipe.dict;
  task : Recipe.RTask
}.

Definition deref (h : gmap nat Recipe.dict) (l : nat) : Recipe.dict := default ∅ (h !! l).

(** [update(percent)], the callback given to the reader.  [progressreport] is
    the location the enclosing variable holds. *)
Definition update (progressreport : nat) (percent : Z) (st : VerifyState) : VerifyState :=
  let oldprogressreport := progressreport in
  let heap := alter (fun d => <["progress" := Recipe.VInt percent]> d) progressreport (heap st) in
  mkVerifyState heap
    (Task.lazy_heartbeat (deref heap progressreport) (deref heap oldprogressreport) (task st)).

Section Verify.

(** [FileReader.ReadFile(update)] on the content of the file: the
    percentages it reports, in order, and the exception it ends with, if any. *)
Variable ReadFile : list string -> list Z * option Py.exception.

(** [runningcallback(task)] of [verifys3gtask]: the state afterwards and the
    exception that escapes the callback, if any. *)
Definition verify_runningcallback (s3gpath : string) (progressreport : nat)
    (fs : Os.FS) (st : VerifyState) : VerifyState * option Py.exception :=
  match Os.readlines s3gpath fs with
  | inl e => (st, Some e)
  | inr content =>
      let '(percents, raised) := ReadFile content in
      let st := foldl (fun st percent => update progressreport percent st) st percents in
      match raised with
      | None =>
          (mkVerifyState (heap st) (Task.end_ (Recipe.VBool true) (task st)), None)
      | Some (Py.S3gStreamError message) =>
          (mkVerifyState (heap st) (Task.fail (Recipe.VStr message) (task st)), None)
      | Some e => (st, Some e)
      end
  end.

(** [verifys3gtask(s3gpath)] followed by [task.start()]: the dictionary is
    allocated at location 0, the task fires [running] and the callback runs. *)
Definition verifys3gtask_started (s3gpath : string) (fs : Os.FS)
  : VerifyState * option Py.exception :=
  let progressreport := 0%nat in
  let heap : gmap nat Recipe.dict :=
    {[ progressreport :=
         <["name" := Recipe.VStr "verify"]> (<["progress" := Recipe.VInt 0]> ∅) ]} in
  verify_runningcallback s3gpath progressreport fs
    (mkVerifyState heap (Task.start Task.new)).

End Verify.

End RecipeTask.

(** ** conveyor/toolpath/miraclegrue.py *)

Module MiracleGrue.

Import Run.

Record MiracleGrueConfiguration : Type := mkConfiguration {
  miraclegruepath : string;
  miracleconfigpath : string
}.

(** [profile.values], with the two sequences the slicer may embed. *)
Record Profile : Type := mkProfile { values : gmap string (list string) }.

(** [_getarguments(inputpath, outputpath, startpath, endpath)] *)
Definition _getarguments (configuration : MiracleGrueConfiguration)
    (inputpath outputpath startpath endpath : string) : list string :=
  [miraclegruepath configuration]
  ++ ["-c"; miracleconfigpath configuration]
  ++ ["-o"; outputpath]
  ++ ["-s"; startpath]
  ++ ["-e"; endpath]
  ++ [inputpath].

Section Slice.

(** The [n]-th name [tempfile] hands out, for a suffix. *)
Variable mktemp : nat -> string -> string.
(** The slicer run with its arguments: [None] when [Popen] raises
    [OSError], else its exit code and the file system it leaves. *)
Variable popen : list string -> Os.FS -> option (Z * Os.FS).

(** [with tempfile.NamedTemporaryFile(suffix='.gcode', delete=False) as fp:]
    with the lines of [profile.values[key]] printed to it when
    [with_start_end]; the file stays, and [fp.name] is returned. *)
Definition sequence_file (profile : Profile) (key : string) (with_start_end : bool)
  : M string :=
  fun w =>
    let name := mktemp (w_tmp w) ".gcode" in
    let w := mkWorld (<[name := Os.File []]> (w_fs w)) (w_task w) (S (w_tmp w)) in
    if with_start_end then
      match values profile !! key with
      | None => (inl (Py.KeyError key), w)
      | Some lines =>
          (inr name,
           mkWorld (<[name := Os.File ((fun line => line +:+ String "010" EmptyString) <$> lines)]>
                      (w_fs w)) (w_task w) (w_tmp w))
      end
    else (inr name, w).

(** [subprocess.Popen(arguments, ...)], the loop over its output and
    [popen.wait()]. *)
Definition run_slicer (arguments : list string) : M Z :=
  fun w =>
    match popen arguments (w_fs w) with
    | None => (inl (Py.OSError (Py.item arguments 0)), w)
    | Some (code, fs) => (inr code, mkWorld fs (w_task w) (w_tmp w))
    end.

(** The [try] block of [MiracleGrueToolpath.slice]. *)
Definition slice_body (configuration : MiracleGrueConfiguration) (profile : Profile)
    (inputpath outputpath : string) (with_start_end : bool) : M unit :=
  startpath ← sequence_file profile "print_start_sequence" with_start_end;
  endpath ← sequence_file profile "print_end_sequence" with_start_end;
  let arguments := _getarguments configuration inputpath outputpath startpath endpath in
  code ← run_slicer arguments;
  if code =? 0 then
    unlink startpath;;
    unlink endpath
  else raise (Py.Exception code).

(** [MiracleGrueToolpath.slice(profile, inputpath, outputpath, with_start_end, task)] *)
Definition slice (configuration : MiracleGrueConfiguration) (profile : Profile)
    (inputpath outputpath : string) (with_start_end : bool) : M unit :=
  try_except (slice_body configuration profile inputpath outputpath with_start_end)
    (fun e => task_fail (Recipe.VExc e);; raise e)
    (fun _ => task_end Recipe.VNone).

End Slice.

End MiracleGrue.

(** ** conveyor/printer/s3g.py: temperatures and the printer thread *)

Module PrinterThread.

Section Temperature.

(** Readings, as the driver library returns them. *)
Context {R : Type}.
Variable get_toolhead_temperature : Z -> R.
Variable get_platform_temperature : Z -> R.

(** The payload [_gettemperature] builds. *)
Record Temperature : Type := mkTemperature {
  tools : gmap string R;
  heated_platforms : gmap string R
}.

(** [for key in keys: tool = int(key); d[key] = read(tool)]; [None] when
    [int] raises [ValueError]. *)
Fixpoint read_keys (read : Z -> R) (keys : list string) (d : gmap string R)
  : option (gmap string R) :=
  match keys with
  | [] => Some d
  | key :: rest =>
      match Py.int key with
      | None => None
      | Some tool => read_keys read rest (<[key := read tool]> d)
      end
  end.

(** [_gettemperature(profile, s3g)], the keys of [profile.values['tools']]
    and of [profile.values['heated_platforms']] given in iteration order. *)
Definition _gettemperature (tool_keys platform_keys : list string) : option Temperature :=
  match read_keys get_toolhead_temperature tool_keys ∅ with
  | None => None
  | Some tools =>
      match read_keys get_platform_temperature platform_keys ∅ with
      | None => None
      | Some heated_platforms => Some (mkTemperature tools heated_platforms)
      end
  end.

End Temperature.

Arguments Temperature : clear implicits.

Section Thread.

(** Job tuples and readings. *)
Context {J R : Type}.

(** The fields of an [S3gPrinterThread] that change while it runs.  The left
    end of the deque is the head of the list. *)
Record S3gPrinterThread : Type := mkThread {
  _queue : list J;
  _currenttask : option J;
  _stop : bool
}.

(** [S3gPrinterThread.print(...)]: [self._queue.appendleft(tuple_)]. *)
Definition print (tuple_ : J) (self : S3gPrinterThread) : S3gPrinterThread :=
  mkThread (tuple_ :: _queue self) (_currenttask self) (_stop self).

(** [S3gPrinterThread.stop()], as far as the thread's own fields go. *)
Definition stop (self : S3gPrinterThread) : S3gPrinterThread :=
  mkThread (_queue self) (_currenttask self) true.

(** [self._queue.pop()]: the right end, when there is one. *)
Definition pop (queue : list J) : option (J * list J) :=
  match last queue with
  | Some tuple_ => Some (tuple_, removelast queue)
  | None => None
  end.

(** What the world does around one test of [while not self._stop]. *)
Record Env : Type := mkEnv {
  (** [print] calls of other threads since the previous test, oldest first *)
  pushed : list J;
  (** whether [stop] was called since the previous test *)
  stop_called : bool;
  (** [time.time()], read when the queue is empty *)
  now : Q;
  (** the device readings, should the temperatures be polled *)
  toolhead : Z -> R;
  platform : Z -> R;
  (** whether [driver.print] returns rather than raises *)
  print_returns : bool;
  (** whether the task fired [stopped] during [driver.print] *)
  task_stopped : bool
}.

Inductive Effect : Type :=
| updateprinter (temperature : Temperature R)
| driver_print (tuple_ : J)
| fp_close.

(** How [run] is left: the stop flag was seen, an exception reached the
    [except] clause (whose [self._devicename] raises [AttributeError], so the
    printer is not evicted), or the schedule given ran out first. *)
Inductive Exit : Type := Stopped | AttributeError (attribute : string) | Unfinished.

Record Run : Type := mkRun {
  effects : list Effect;
  exit : Exit;
  final : S3gPrinterThread
}.

Definition and_then (e : Effect) (r : Run) : Run :=
  mkRun (e :: effects r) (exit r) (final r).

Variable tool_keys platform_keys : list string.

(** The [while] loop of [S3gPrinterThread.run], one [Env] per test. *)
Fixpoint loop (envs : list Env) (polltime : Q) (self : S3gPrinterThread) : Run :=
  match envs with
  | [] => mkRun [] Unfinished self
  | env :: rest =>
      let self := foldl (fun self tuple_ => print tuple_ self) self (pushed env) in
      let self := if stop_called env then stop self else self in
      if _stop self then mkRun [] Stopped self
      else
        match pop (_queue self) with
        | None =>
            if Qle_bool polltime (now env) then
              match _gettemperature (toolhead env) (platform env) tool_keys platform_keys with
              | None => mkRun [] (AttributeError "_devicename") self
              | Some temperature =>
                  and_then (updateprinter temperature) (loop rest (now env + 5)%Q self)
              end
            else loop rest polltime self
        | Some (tuple_, queue) =>
            let self := mkThread queue (Some tuple_) (_stop self) in
            if print_returns env then
              let self :=
                if task_stopped env then mkThread (_queue self) None (_stop self) else self in
              and_then (driver_print tuple_) (loop rest polltime self)
            else mkRun [driver_print tuple_] (AttributeError "_devicename") self
        end
  end.

(** [S3gPrinterThread.run()], from the first clock reading: the loop, and
    [self._fp.close()] in the [finally] clause. *)
Definition run (now0 : Q) (envs : list Env) (self : S3gPrinterThread) : Run :=
  let r := loop envs (now0 + 5)%Q self in
  mkRun (effects r ++ [fp_close]) (exit r) (final r).

(** The job tuples handed to [driver.print], in order. *)
Definition printed (r : Run) : list J :=
  omap (fun e => match e with driver_print tuple_ => Some tuple_ | _ => None end) (effects r).

(** The clock readings at which temperatures were pushed to the server are
    not kept in the effects; this lists the payloads pushed. *)
Definition polled (r : Run) : list (Temperature R) :=
  omap (fun e => match e with updateprinter t => Some t | _ => None end) (effects r).

End Thread.

Arguments S3gPrinterThread : clear implicits.
Arguments Env : clear implicits.
Arguments Effect : clear implicits.
Arguments Run : clear implicits.

End PrinterThread.

(** ** Pipelines: stages and the files that flow between them *)

Module Pipeline.

Import Domain Recipe.

Inductive Stage : Type :=
| Slice | PostProcess | Weave | Wrap | Print | PrintToFile | Verify.

Definition stage (t : TaskDesc) : Stage :=
  match t with
  | _slicertask _ _ _ _ _ _ => Slice
  | _gcodeprocessortask _ _ _ => PostProcess
  | _dualstrusiontask _ _ _ => Weave
  | _printtask _ _ _ => Print
  | _printtofiletask _ _ _ _ => PrintToFile
  | verifys3gtask _ => Verify
  | _with_start_end_task _ _ _ _ _ _ _ => Wrap
  end.

Definition stages (p : Process) : list Stage := stage <$> p_tasks p.

(** The files the running callback of a task opens for reading, and the file
    it is told to produce. *)
Definition reads (t : TaskDesc) : list string :=
  match t with
  | _slicertask _ inputpath _ _ _ _ => [inputpath]
  | _gcodeprocessortask inputpath _ _ => [inputpath]
  | _dualstrusiontask tool_0_path tool_1_path _ => [tool_0_path; tool_1_path]
  | _printtask _ inputpath _ => [inputpath]
  | _printtofiletask _ inputpath _ _ => [inputpath]
  | verifys3gtask s3gpath => [s3gpath]
  | _with_start_end_task _ _ _ _ _ input_path _ => [input_path]
  end.

Definition writes (t : TaskDesc) : list string :=
  match t with
  | _slicertask _ _ outputpath _ _ _ => [outputpath]
  | _gcodeprocessortask _ outputpath _ => [outputpath]
  | _dualstrusiontask _ _ outputpath => [outputpath]
  | _printtask _ _ _ => []
  | _printtofiletask _ _ outputpath _ => [outputpath]
  | verifys3gtask _ => []
  | _with_start_end_task _ _ _ _ _ _ output_path => [output_path]
  end.

(** Every task reads only files that are available: the inputs of the
    recipe, or what an earlier task of the sequence produced. *)
Fixpoint chained (available : list string) (tasks : list TaskDesc) : Prop :=
  match tasks with
  | [] => True
  | t :: rest =>
      Forall (fun f => f ∈ available) (reads t) /\ chained (writes t ++ available) rest
  end.

(** The input files of a recipe. *)
Definition inputs (recipe : RecipeManager.Recipe) : list string :=
  match recipe with
  | RecipeManager._GcodeRecipe job _ => [path job]
  | RecipeManager._StlRecipe _ stlpath => [stlpath]
  | RecipeManager._SingleThingRecipe _ stl_path => [stl_path]
  | RecipeManager._DualThingRecipe _ stl_0_path stl_1_path => [stl_0_path; stl_1_path]
  end.

Definition job_of (recipe : RecipeManager.Recipe) : Job :=
  match recipe with
  | RecipeManager._GcodeRecipe job _
  | RecipeManager._StlRecipe job _
  | RecipeManager._SingleThingRecipe job _
  | RecipeManager._DualThingRecipe job _ _ => job
  end.

Definition is_dual (recipe : RecipeManager.Recipe) : bool :=
  match recipe with RecipeManager._DualThingRecipe _ _ _ => true | _ => false end.

(** The table of pipelines of the specification (section 4.4), row by mode
    and column by recipe; [post] says whether the processor list of the job
    is nonempty. *)
Definition table (recipe : RecipeManager.Recipe) (mode : Mode) (post : bool) : list Stage :=
  let optional := if post then [PostProcess] else [] in
  let tail_ :=
    match mode with
    | print _ => [Wrap; Print]
    | printtofile _ _ => [Wrap; PrintToFile; Verify]
    | slice _ _ => [Wrap]
    end in
  match recipe with
  | RecipeManager._GcodeRecipe _ _ => tail_
  | RecipeManager._StlRecipe _ _ | RecipeManager._SingleThingRecipe _ _ =>
      [Slice] ++ optional ++ tail_
  | RecipeManager._DualThingRecipe _ _ _ =>
      [Slice; Slice; Weave]
      ++ (match mode with slice _ _ => [PostProcess] | _ => optional end) ++ tail_
  end.

(** The slicer settings handed to the slice tasks, in order. *)
Definition slicer_configs (p : Process) : list SlicerConfiguration :=
  omap (fun t => match t with
                 | _slicertask _ _ _ _ _ slicer_config => Some slicer_config
                 | _ => None
                 end) (p_tasks p).

(** What a task says about start/end embedding and dualstrusion. *)
Definition flags_ok (dual : bool) (t : TaskDesc) : Prop :=
  match t with
  | _slicertask _ _ _ with_start_end dualstrusion _ =>
      with_start_end = false /\ dualstrusion = dual
  | _printtask _ _ dualstrusion => dualstrusion = dual
  | _printtofiletask _ _ _ dualstrusion => dualstrusion = dual
  | _with_start_end_task _ _ _ _ dualstrusion _ _ => dualstrusion = dual
  | _ => True
  end.

Definition expected_configs (recipe : RecipeManager.Recipe) : list SlicerConfiguration :=
  match recipe with
  | RecipeManager._GcodeRecipe _ _ => []
  | RecipeManager._StlRecipe job _ | RecipeManager._SingleThingRecipe job _ =>
      [slicer_settings job]
  | RecipeManager._DualThingRecipe job _ _ =>
      [with_extruder (slicer_settings job) "0"; with_extruder (slicer_settings job) "1"]
  end.

(** What the sections below establish of the process [p] that [recipe]
    returns in [mode], under profile name [config_profile]. *)
Definition well_formed (config_profile : string) (recipe : RecipeManager.Recipe)
    (mode : Mode) (p : Process) : Prop :=
  stages p
  = table recipe mode
      (negb (Nat.eqb 0 (List.length (getgcodeprocessors config_profile (job_of recipe)).1)))
  /\ Forall (flags_ok (is_dual recipe)) (p_tasks p)
  /\ chained (inputs recipe) (p_tasks p)
  /\ slicer_configs p = expected_configs recipe.

(** *** The files the cleanup of a process deletes *)

(** Whether a task belongs to a stage. *)
Definition at_stage (s : Stage) (t : TaskDesc) : bool :=
  match s, stage t with
  | Slice, Slice | PostProcess, PostProcess | Weave, Weave | Wrap, Wrap
  | Print, Print | PrintToFile, PrintToFile | Verify, Verify => true
  | _, _ => false
  end.

(** The files the tasks of one stage produce, and the files they read, in
    task order. *)
Definition written_by (s : Stage) (tasks : list TaskDesc) : list string :=
  concat ((fun t => if at_stage s t then writes t else []) <$> tasks).

Definition read_by (s : Stage) (tasks : list TaskDesc) : list string :=
  concat ((fun t => if at_stage s t then reads t else []) <$> tasks).

(** [paths] without the files named in [avoid]. *)
Definition besides (avoid paths : list string) : list string :=
  List.filter (fun f => negb (existsb (fun a => String.eqb a f) avoid)) paths.

(** The files that the [process_endcallback] of each recipe method names, in
    the order it deletes them, in terms of the tasks of the process; [None]
    for the one method that attaches no callback, [_GcodeRecipe.print] (and
    for [_GcodeRecipe.slice], which returns no process). *)
Definition cleanup_paths (recipe : RecipeManager.Recipe) (mode : Mode)
    (tasks : list TaskDesc) : option (list string) :=
  let sliced := written_by Slice tasks in
  let woven := written_by Weave tasks in
  let wrap_input := read_by Wrap tasks in
  let wrap_output := written_by Wrap tasks in
  match recipe, mode with
  | RecipeManager._GcodeRecipe _ _, print _ => None
  | RecipeManager._GcodeRecipe _ _, printtofile _ _ => Some wrap_output
  | RecipeManager._GcodeRecipe _ _, slice _ _ => None
  | RecipeManager._StlRecipe _ _, print _
  | RecipeManager._SingleThingRecipe _ _, print _
  | RecipeManager._StlRecipe _ _, printtofile _ _
  | RecipeManager._SingleThingRecipe _ _, printtofile _ _ =>
      Some (sliced ++ besides sliced wrap_input)
  | RecipeManager._StlRecipe _ _, slice _ _
  | RecipeManager._SingleThingRecipe _ _, slice _ _ =>
      Some (besides wrap_output sliced)
  | RecipeManager._DualThingRecipe _ _ _, print _ => Some (sliced ++ woven ++ wrap_input)
  | RecipeManager._DualThingRecipe _ _ _, printtofile _ _ => Some (sliced ++ wrap_input)
  | RecipeManager._DualThingRecipe _ _ _, slice _ _ => Some (sliced ++ woven)
  end.

(** The handlers a process with that cleanup carries. *)
Definition cleanup_handlers (cleanup : option (list string)) : list (EventKind * Handler) :=
  match cleanup with
  | Some paths => [(OnEnd, unlink_all paths)]
  | None => []
  end.

End Pipeline.

(** * Properties *)

(** ** Address parsing *)

Section AddressFacts.

Import Address.

Lemma cut_app (sep : ascii) (a b : string) :
  Py.cut sep a = None -> Py.cut sep (a +:+ String sep b) = Some (a, b).
Proof.
  induction a as [|c a IH]; simpl.
  - intros _. now rewrite Ascii.eqb_refl.
  - destruct (Ascii.eqb c sep); [discriminate|].
    destruct (Py.cut sep a) as [[x y]|]; [discriminate|].
    intros _. now rewrite IH.
Qed.

Lemma split1_app (sep : ascii) (a b : string) :
  Py.cut sep a = None -> Py.split1 sep (a +:+ String sep b) = [a; b].
Proof. intros H. unfold Py.split1. now rewrite cut_app. Qed.

Lemma split1_whole (sep : ascii) (s : string) :
  Py.split1 sep s = [s] -> Py.cut sep s = None.
Proof.
  unfold Py.split1. destruct (Py.cut sep s) as [[a b]|]; [discriminate|reflexivity].
Qed.

Lemma length_0_empty (s : string) : Nat.eqb 0 (String.length s) = false <-> s <> EmptyString.
Proof. destruct s; simpl; split; congruence. Qed.

(** What [parse] does on "tcp:" followed by a colon-free, nonempty host, a
    colon and any text: the outcome of [int] on that text decides. *)
Lemma parse_tcp (int : string -> option Z) (host port_text : string) :
  host <> EmptyString -> Py.split1 ":" host = [host] ->
  parse int ("tcp:" +:+ host +:+ ":" +:+ port_text) =
    match int port_text with
    | Some port => inr (TcpAddress host port)
    | None => inl (InvalidPortException ("tcp:" +:+ host +:+ ":" +:+ port_text) port_text)
    end.
Proof.
  intros Hne Hcut. apply split1_whole in Hcut. apply length_0_empty in Hne.
  set (s := "tcp:" +:+ host +:+ ":" +:+ port_text).
  assert (Hs : Py.split1 ":" s = ["tcp"; host +:+ String ":" port_text])
    by (apply (split1_app ":" "tcp"); reflexivity).
  unfold parse. rewrite Hs.
  change (Py.item ["tcp"; host +:+ String ":" port_text] 0) with "tcp".
  change (String.eqb "pipe" "tcp") with false.
  change (String.eqb "tcp" "tcp") with true.
  unfold TcpAddress_parse.
  change (Py.item ["tcp"; host +:+ String ":" port_text] 1)
    with (host +:+ String ":" port_text).
  rewrite (split1_app _ _ _ Hcut).
  change (Py.item [host; port_text] 0) with host.
  change (Py.item [host; port_text] 1) with port_text.
  rewrite Hne. reflexivity.
Qed.

Lemma parse_pipe (int : string -> option Z) (p : string) :
  p <> EmptyString -> parse int ("pipe:" +:+ p) = inr (PipeAddress p).
Proof.
  intros Hne. apply length_0_empty in Hne.
  assert (Hs : Py.split1 ":" ("pipe:" +:+ p) = ["pipe"; p])
    by (apply (split1_app ":" "pipe"); reflexivity).
  unfold parse. rewrite Hs.
  change (Py.item ["pipe"; p] 0) with "pipe".
  change (String.eqb "pipe" "pipe") with true.
  unfold _AbstractPipeAddress_parse.
  change (Py.item ["pipe"; p] 1) with p.
  rewrite Hne. reflexivity.
Qed.

End AddressFacts.

Example int_samples :
  Py.int "9999" = Some 9999 /\ Py.int "-1" = Some (-1) /\ Py.int " 80 " = Some 80
  /\ Py.int "x" = None /\ Py.int EmptyString = None /\ Py.int "1 2" = None
  /\ Py.int "+7" = Some 7 /\ Py.int "-" = None /\ Py.int "8o" = None.
Proof. repeat split; reflexivity. Qed.

(** C9: the case analysis of [Address.parse]: the five literal addresses of
    the specification give the stated address or error, and "pipe:" followed
    by a nonempty path [p] gives the pipe address with path [p]. *)
Theorem parse_cases (p : string) (Hp : p <> EmptyString) :
  Address.parse Py.int "tcp:localhost:9999" = inr (Address.TcpAddress "localhost" 9999)
  /\ Address.parse Py.int "tcp::9999" = inl (Address.MissingHostException "tcp::9999")
  /\ Address.parse Py.int "tcp:h:x" = inl (Address.InvalidPortException "tcp:h:x" "x")
  /\ Address.parse Py.int "pipe:" = inl (Address.MissingPathException "pipe:")
  /\ Address.parse Py.int "ftp:/x" = inl (Address.UnknownProtocolException "ftp:/x" "ftp")
  /\ Address.parse Py.int ("pipe:" +:+ p) = inr (Address.PipeAddress p).
Proof.
  repeat split; try reflexivity. now apply parse_pipe.
Qed.

Lemma parse_cases_witness :
  "/tmp/conveyord.socket" <> EmptyString
  /\ Address.parse Py.int "pipe:/tmp/conveyord.socket"
     = inr (Address.PipeAddress "/tmp/conveyord.socket").
Proof.
  split; [discriminate|].
  apply (parse_cases "/tmp/conveyord.socket"). discriminate.
Defined.

(** C10: on "tcp:<host>:<port-text>" with a nonempty host (the text up to the
    first colon after the protocol, so a host without a colon), [parse]
    succeeds exactly when [int] accepts the port text, and the address carries
    whatever integer [int] returned: "-1" and " 80 " are accepted and no range
    check is made (65536 passes). *)
Theorem tcp_port_unchecked (host : string)
    (Hne : host <> EmptyString) (Hhost : Py.split1 ":" host = [host]) :
  (forall (int : string -> option Z) (port_text : string),
     Address.parse int ("tcp:" +:+ host +:+ ":" +:+ port_text) =
       match int port_text with
       | Some port => inr (Address.TcpAddress host port)
       | None =>
           inl (Address.InvalidPortException
                  ("tcp:" +:+ host +:+ ":" +:+ port_text) port_text)
       end)
  /\ Address.parse Py.int ("tcp:" +:+ host +:+ ":" +:+ "-1")
     = inr (Address.TcpAddress host (-1))
  /\ Address.parse Py.int ("tcp:" +:+ host +:+ ":" +:+ " 80 ")
     = inr (Address.TcpAddress host 80)
  /\ Address.parse Py.int ("tcp:" +:+ host +:+ ":" +:+ "65536")
     = inr (Address.TcpAddress host 65536).
Proof.
  split; [intros; now apply parse_tcp|].
  repeat split; now rewrite parse_tcp.
Qed.

Lemma tcp_port_unchecked_witness :
  Address.parse Py.int "tcp:localhost:-1" = inr (Address.TcpAddress "localhost" (-1))
  /\ Address.parse Py.int "tcp:localhost: 80 " = inr (Address.TcpAddress "localhost" 80).
Proof.
  destruct (tcp_port_unchecked "localhost") as (_ & H1 & H2 & _);
    [discriminate | reflexivity |].
  split; [exact H1 | exact H2].
Defined.

(** ** The detector *)

Section DetectorFacts.

Import Detector.

Lemma purge_step_lookup (now : Q) (m : gmap string Q) (item : string * Q) (p : string) :
  purge_step now m item !! p = if expired_later now p item then None else m !! p.
Proof.
  destruct item as [q t]. unfold purge_step, expired_later. simpl.
  destruct (Qle_bool now t); case_bool_decide; simpl; subst;
    rewrite ?lookup_delete_eq, ?lookup_delete_ne by done; done.
Qed.

Lemma foldl_purge_lookup (now : Q) (l : list (string * Q)) (m : gmap string Q) (p : string) :
  foldl (purge_step now) m l !! p =
    if existsb (expired_later now p) l then None else m !! p.
Proof.
  revert m. induction l as [|item l IH]; intros m; simpl; [done|].
  rewrite IH, purge_step_lookup.
  destruct (expired_later now p item); simpl; [|done].
  now destruct (existsb _ l).
Qed.

(** The purge keeps exactly the entries whose unlist time is before [now]. *)
Lemma purge_lookup (now : Q) (bl : gmap string Q) (p : string) :
  purge now bl !! p =
    match bl !! p with
    | Some t => if Qle_bool now t then None else Some t
    | None => None
    end.
Proof.
  unfold purge. rewrite foldl_purge_lookup.
  destruct (existsb (expired_later now p) (map_to_list bl)) eqn:E.
  - apply existsb_exists in E as ([q t] & Hin & Hq).
    apply list_elem_of_In, elem_of_map_to_list in Hin.
    unfold expired_later in Hq. simpl in Hq.
    apply andb_prop in Hq as [Hq Ht]. apply bool_decide_eq_true in Hq. subst q.
    now rewrite Hin, Ht.
  - destruct (bl !! p) as [t|] eqn:Hp; [|done].
    destruct (Qle_bool now t) eqn:Ht; [|done].
    assert (existsb (expired_later now p) (map_to_list bl) = true); [|congruence].
    apply existsb_exists. exists (p, t). split.
    + apply list_elem_of_In, elem_of_map_to_list. exact Hp.
    + unfold expired_later. simpl. rewrite Ht. now rewrite bool_decide_eq_true_2.
Qed.

Lemma runiteration_blacklist (build : string -> bool) (now : Q)
    (machines : gmap string MachineInfo) (self : S3gDetectorThread) :
  _blacklist (_runiteration build now machines self).1.1 = purge now (_blacklist self).
Proof.
  unfold _runiteration. now destruct (attach_all _ _ _) as [calls [port|]].
Qed.

Lemma runiteration_available (now : Q) (machines : gmap string MachineInfo)
    (self : S3gDetectorThread) :
  _available (_runiteration (fun _ => true) now machines self).1.1 = machines.
Proof.
  unfold _runiteration.
  assert (H : forall l, (attach_all (fun _ => true) machines l).2 = None).
  { induction l as [|x l IH]; simpl; [done|].
    destruct (attach_all _ machines l) as [calls r]. simpl in *. done. }
  specialize (H (elements (attached self (new_keys machines (purge now (_blacklist self)))))).
  destruct (attach_all _ _ _) as [calls [port|]]; simpl in *; [discriminate|done].
Qed.

End DetectorFacts.

Section IterationFacts.

Import Detector.

Variable build_from_port : string -> bool.

Lemma attach_all_calls (available : gmap string MachineInfo) (ports : list string)
    (call : ServerCall) :
  call ∈ (attach_all build_from_port available ports).1 ->
  exists portname,
    portname ∈ ports /\ build_from_port portname = true
    /\ call = appendprinter (default EmptyString (iSerial <$> available !! portname)) portname.
Proof.
  induction ports as [|p ports IH]; cbn [attach_all].
  - cbn. intros H. now apply elem_of_nil in H.
  - destruct (build_from_port p) eqn:Eb.
    + destruct (attach_all build_from_port available ports) as [calls raised].
      cbn [fst] in *. intros H. apply elem_of_cons in H as [->|H].
      * exists p. repeat split; [apply list_elem_of_here | exact Eb].
      * destruct (IH H) as (q & Hq & Hb & Hc). exists q.
        repeat split; [now apply list_elem_of_further | exact Hb | exact Hc].
    + cbn. intros H. now apply elem_of_nil in H.
Qed.

Lemma attach_all_raised (available : gmap string MachineInfo) (ports : list string)
    (portname : string) :
  (attach_all build_from_port available ports).2 = Some portname ->
  portname ∈ ports /\ build_from_port portname = false.
Proof.
  induction ports as [|p ports IH]; cbn [attach_all]; [discriminate|].
  destruct (build_from_port p) eqn:Eb.
  - destruct (attach_all build_from_port available ports) as [calls raised].
    cbn [snd] in *. intros H. destruct (IH H) as [Hin Hb].
    split; [now apply list_elem_of_further | exact Hb].
  - cbn. intros H. inversion H; subst. split; [apply list_elem_of_here | exact Eb].
Qed.

(** When no construction raises, every port of the loop gets its call. *)
Lemma attach_all_complete (available : gmap string MachineInfo) (ports : list string)
    (portname : string) :
  (attach_all build_from_port available ports).2 = None ->
  portname ∈ ports ->
  appendprinter (default EmptyString (iSerial <$> available !! portname)) portname
  ∈ (attach_all build_from_port available ports).1.
Proof.
  induction ports as [|p ports IH]; cbn [attach_all]; intros Hnone Hin.
  - now apply elem_of_nil in Hin.
  - destruct (build_from_port p) eqn:Eb; [|discriminate].
    destruct (attach_all build_from_port available ports) as [calls raised].
    cbn [fst snd] in *. apply elem_of_cons in Hin as [->|Hin].
    + apply list_elem_of_here.
    + apply list_elem_of_further. now apply IH.
Qed.

Lemma runiteration_calls (now : Q) (machines : gmap string MachineInfo)
    (self : S3gDetectorThread) :
  let new_keys := new_keys machines (purge now (_blacklist self)) in
  (_runiteration build_from_port now machines self).1.2
  = (removeprinter <$> elements (detached self new_keys))
    ++ (attach_all build_from_port machines (elements (attached self new_keys))).1.
Proof.
  cbv zeta. unfold _runiteration.
  now destruct (attach_all _ _ _) as [calls [port|]].
Qed.

Lemma runiteration_raised (now : Q) (machines : gmap string MachineInfo)
    (self : S3gDetectorThread) :
  let new_keys := new_keys machines (purge now (_blacklist self)) in
  (_runiteration build_from_port now machines self).2
  = (attach_all build_from_port machines (elements (attached self new_keys))).2.
Proof.
  cbv zeta. unfold _runiteration.
  now destruct (attach_all _ _ _) as [calls [port|]].
Qed.

(** An iteration in which no construction raised stores the machines it
    saw as the known ports. *)
Lemma runiteration_available_built (now : Q) (machines : gmap string MachineInfo)
    (self : S3gDetectorThread) :
  (_runiteration build_from_port now machines self).2 = None ->
  _available (_runiteration build_from_port now machines self).1.1 = machines.
Proof.
  unfold _runiteration.
  destruct (attach_all _ _ _) as [calls [port|]]; [discriminate|reflexivity].
Qed.

End IterationFacts.

(** C1 (the code differs): one iteration at clock reading 50, with port COM1
    blacklisted until 100 and port COM2 blacklisted until 10.  The comparison
    [unlisttime >= now] drops the entry that is still in the future and keeps
    the one that has expired. *)
Theorem purge_inverted :
  let self := Detector.mkDetector ∅ (<["COM1" := 100%Q]> (<["COM2" := 10%Q]> ∅)) in
  let after := (Detector._runiteration (fun _ => true) 50%Q ∅ self).1.1 in
  Detector._blacklist after !! "COM1" = None
  /\ Detector._blacklist after !! "COM2" = Some 10%Q.
Proof.
  cbv zeta. rewrite runiteration_blacklist. cbn [Detector._blacklist].
  rewrite !purge_lookup.
  rewrite lookup_insert_eq.
  rewrite lookup_insert_ne by discriminate. rewrite lookup_insert_eq.
  split; reflexivity.
Qed.

(** C7, counterexample.  COM1 is attached by a first iteration at time 0, its
    worker blacklists it (30 seconds), and the next iteration runs at time 31:
    at its attach decision COM1 is both known and blacklisted. *)
Lemma known_meets_blacklist :
  let info := {| Detector.iSerial := "A1" |} in
  let st1 := (Detector._runiteration (fun _ => true) 0%Q {["COM1" := info]} Detector.init).1.1 in
  let st2 := Detector.blacklist 0%Q 30%Q "COM1" st1 in
  ~ (Detector.old_keys st2 ## dom (Detector.purge 31%Q (Detector._blacklist st2))).
Proof.
  cbv zeta. intros H. apply (H "COM1").
  - unfold Detector.old_keys, Detector.blacklist. cbn [Detector._available].
    rewrite runiteration_available. set_solver.
  - apply elem_of_dom. rewrite purge_lookup.
    unfold Detector.blacklist. cbn [Detector._blacklist].
    rewrite lookup_insert_eq. cbn. eauto.
Qed.

(** C7, amended: in every iteration, each port the iteration attaches a
    printer for is an available port that was not known and is not
    blacklisted at the attach decision; when no driver construction raises,
    every such port is attached; and the known ports the iteration leaves
    behind meet the blacklist in exactly the available ports that are
    blacklisted (so the two sets need not be disjoint). *)
Theorem attached_avoids_blacklist (build_from_port : string -> bool) (now : Q)
    (machines : gmap string Detector.MachineInfo) (self : Detector.S3gDetectorThread) :
  let result := Detector._runiteration build_from_port now machines self in
  let after := result.1.1 in
  let calls := result.1.2 in
  (forall printerid portname,
      Detector.appendprinter printerid portname ∈ calls ->
      (portname ∈ dom machines)
      /\ (portname ∉ dom (Detector._available self))
      /\ (portname ∉ dom (Detector._blacklist after)))
  /\ (result.2 = None ->
      forall portname,
        portname ∈ dom machines ->
        portname ∉ dom (Detector._available self) ->
        portname ∉ dom (Detector._blacklist after) ->
        exists printerid, Detector.appendprinter printerid portname ∈ calls)
  /\ (result.2 = None ->
      dom (Detector._available after) ∩ dom (Detector._blacklist after)
      = dom machines ∩ dom (Detector.purge now (Detector._blacklist self))).
Proof.
  cbv zeta. rewrite runiteration_blacklist, runiteration_calls, runiteration_raised.
  cbv zeta. split; [|split].
  - intros printerid portname H. apply elem_of_app in H as [H|H].
    + apply list_elem_of_fmap in H as (p & Hp & _). discriminate Hp.
    + apply attach_all_calls in H as (p & Hp & _ & Hc). inversion Hc; subst.
      apply elem_of_elements in Hp.
      unfold Detector.attached, Detector.old_keys, Detector.new_keys in Hp.
      apply elem_of_difference in Hp as [Hnew Hold].
      apply elem_of_difference in Hnew as [Hm Hb]. repeat split; assumption.
  - intros Hnone portname Hm Hold Hb. eexists. apply elem_of_app. right.
    apply attach_all_complete; [exact Hnone|].
    apply elem_of_elements. unfold Detector.attached, Detector.old_keys, Detector.new_keys.
    apply elem_of_difference. split; [|exact Hold].
    apply elem_of_difference. split; assumption.
  - intros Hnone. rewrite <- runiteration_raised in Hnone.
    now rewrite (runiteration_available_built _ _ _ _ Hnone).
Qed.

(** One iteration over two new ports, the second of them blacklisted: only
    the first is attached, and both are known afterwards. *)
Lemma attached_avoids_blacklist_witness :
  let info serial := {| Detector.iSerial := serial |} in
  let machines : gmap string Detector.MachineInfo :=
    <["COM1" := info "A1"]> {["COM2" := info "B2"]} in
  let self := Detector.mkDetector ∅ {["COM2" := 30%Q]} in
  let result := Detector._runiteration (fun _ => true) 31%Q machines self in
  result.2 = None
  /\ (exists printerid, Detector.appendprinter printerid "COM1" ∈ result.1.2)
  /\ (forall printerid, Detector.appendprinter printerid "COM2" ∉ result.1.2)
  /\ ("COM2" ∈ dom (Detector._available result.1.1) ∩ dom (Detector._blacklist result.1.1)).
Proof.
  cbv zeta.
  set (machines := <["COM1" := {| Detector.iSerial := "A1" |}]>
                     {["COM2" := {| Detector.iSerial := "B2" |}]}
                   : gmap string Detector.MachineInfo).
  set (self := Detector.mkDetector ∅ {["COM2" := 30%Q]}).
  destruct (attached_avoids_blacklist (fun _ => true) 31%Q machines self)
    as (Hsound & Hcomplete & Hknown).
  assert (Hnone : (Detector._runiteration (fun _ => true) 31%Q machines self).2 = None)
    by (vm_compute; reflexivity).
  assert (Hb : "COM2" ∈ dom (Detector._blacklist
                 (Detector._runiteration (fun _ => true) 31%Q machines self).1.1)).
  { rewrite runiteration_blacklist. apply elem_of_dom. rewrite purge_lookup.
    unfold self. cbn [Detector._blacklist]. rewrite lookup_singleton_eq. cbn. eauto. }
  split; [exact Hnone|]. split; [|split].
  - apply (Hcomplete Hnone).
    + apply elem_of_dom. unfold machines. rewrite lookup_insert_eq. eauto.
    + unfold self. cbn [Detector._available]. rewrite dom_empty. apply not_elem_of_empty.
    + rewrite runiteration_blacklist. rewrite elem_of_dom, purge_lookup.
      unfold self. cbn [Detector._blacklist].
      rewrite lookup_singleton_ne by discriminate. intros [t Ht]. discriminate Ht.
  - intros printerid H. apply Hsound in H as (_ & _ & H). exact (H Hb).
  - rewrite (Hknown Hnone). apply elem_of_intersection. split.
    + apply elem_of_dom. unfold machines.
      rewrite lookup_insert_ne by discriminate. rewrite lookup_singleton_eq. eauto.
    + rewrite <- (runiteration_blacklist (fun _ => true) 31%Q machines self). exact Hb.
Defined.

(** ** The stream print *)

Section DriverFacts.

Import Driver.

Lemma countgcodelines_from (l : list string) (i : nat) (lines bytes : Z) :
  foldl (fun '(lines, bytes) data => (lines + 1, bytes + len_tuple data))
        (lines, bytes) (enumerate_from i l)
  = (lines + Z.of_nat (List.length l), bytes + 2 * Z.of_nat (List.length l)).
Proof.
  revert i lines bytes. induction l as [|x l IH]; intros i lines bytes.
  - simpl. f_equal; lia.
  - cbn [enumerate_from foldl List.length]. rewrite IH.
    unfold len_tuple. f_equal; lia.
Qed.

(** [_countgcodelines] counts the lines, and two "bytes" for every line. *)
Lemma countgcodelines_eq (l : list string) :
  _countgcodelines l = (Z.of_nat (List.length l), 2 * Z.of_nat (List.length l)).
Proof. unfold _countgcodelines, enumerate. now rewrite countgcodelines_from. Qed.

End DriverFacts.

(** C2 (the code differs): a one-line toolpath of seven raw bytes, printed
    without interruption.  [totallines] is the number of lines, but
    [totalbytes] is 2 (the length of the pair that [enumerate] yields), while
    the loop has advanced [currentbyte] by the raw length, 7. *)
Theorem totalbytes_counts_pairs :
  let gcodelines := ["G1 X10" +:+ String "010" EmptyString] in
  let task := Task.start Task.new in
  let printed :=
    Driver._genericprint (fun _ => Some tt) (fun _ => 1%Q) (fun _ _ => true) (fun _ => false)
      false 5%Q 0%Q gcodelines task in
  Driver.p_totallines printed = 1
  /\ Driver.rawbytes gcodelines = 7
  /\ Driver.p_totalbytes printed = 2
  /\ Driver.l_currentbyte (Driver.locals (Driver.p_outcome printed)) = 7
  /\ Task.state (Driver.l_task (Driver.locals (Driver.p_outcome printed))) = Task.ENDED.
Proof. cbv zeta. repeat split; vm_compute; reflexivity. Qed.

(** ** Recipe dispatch *)

Section DispatchFacts.

Import Domain RecipeManager.

Variable mkdtemp : Os.FS -> string.
Variable unified_mesh_hack : string -> string -> Os.FS -> option (Z * Os.FS).

Local Abbreviation ext_of job := (Py.lower (Os.splitext (path job)).2).

(** The planner is chosen by the lowercased extension. *)
Lemma getrecipe_dispatch (fs : Os.FS) (job : Job) :
  getrecipe mkdtemp unified_mesh_hack fs job =
    if String.eqb ".gcode" (ext_of job) then (_getrecipe_gcode fs job, fs)
    else if String.eqb ".stl" (ext_of job) then (_getrecipe_stl fs job, fs)
    else if String.eqb ".thing" (ext_of job)
         then _getrecipe_thing mkdtemp unified_mesh_hack fs job
    else (inl (UnsupportedModelTypeException (path job)), fs).
Proof. unfold getrecipe. now destruct (Os.splitext (path job)) as [root ext]. Qed.

(** The toolpath planner checks the path as the specification says. *)
Lemma getrecipe_gcode_checks (fs : Os.FS) (job : Job) :
  _getrecipe_gcode fs job =
    match fs !! path job with
    | None => inl (MissingFileException (path job))
    | Some (Os.File _) => inr (_GcodeRecipe job (path job))
    | Some _ => inl (NotFileException (path job))
    end.
Proof.
  unfold _getrecipe_gcode, Os.exists_, Os.isfile.
  now destruct (fs !! path job) as [[]|].
Qed.

(** The mesh planner raises [NameError] for a missing path. *)
Lemma getrecipe_stl_checks (fs : Os.FS) (job : Job) :
  _getrecipe_stl fs job =
    match fs !! path job with
    | None => inl (PyError (Py.NameError "MissingPathExceptoin"))
    | Some (Os.File _) => inr (_StlRecipe job (path job))
    | Some _ => inl (NotFileException (path job))
    end.
Proof.
  unfold _getrecipe_stl, Os.exists_, Os.isfile.
  now destruct (fs !! path job) as [[]|].
Qed.

End DispatchFacts.

Example splitext_samples :
  Os.splitext "x.gcode" = ("x", ".gcode")
  /\ Os.splitext "/a.b/c" = ("/a.b/c", EmptyString)
  /\ Os.splitext ".bashrc" = (".bashrc", EmptyString)
  /\ Os.splitext "dir/.hidden.STL" = ("dir/.hidden", ".STL")
  /\ Os.splitext "a.tar.gz" = ("a.tar", ".gz")
  /\ Os.splitext "a/..stl" = ("a/..stl", EmptyString)
  /\ Py.lower ".ThInG" = ".thing".
Proof. repeat split; reflexivity. Qed.

(** C4 (the code differs): the job path "model.stl" on a file system where it
    does not exist, and "model.gcode" likewise.  The mesh planner is selected
    and raises [NameError] (the misspelt [MissingPathExceptoin]) where the
    toolpath planner raises [MissingFileException]. *)
Theorem stl_missing_raises_NameError :
  let settings := Domain.mkSlicerConfiguration Domain.MIRACLEGRUE None "0" in
  let job path := Domain.mkJob path "model" settings "PLA" true false None "s3g" in
  let getrecipe := RecipeManager.getrecipe (fun _ => "/tmp/tmpA.thing") (fun _ _ _ => None) in
  (getrecipe ∅ (job "model.stl")).1
    = inl (RecipeManager.PyError (Py.NameError "MissingPathExceptoin"))
  /\ (getrecipe ∅ (job "model.gcode")).1
    = inl (RecipeManager.MissingFileException "model.gcode").
Proof.
  cbv zeta. rewrite !getrecipe_dispatch.
  split.
  - change (Py.lower (Os.splitext "model.stl").2) with ".stl".
    cbn [String.eqb Ascii.eqb Bool.eqb fst]. now rewrite getrecipe_stl_checks.
  - change (Py.lower (Os.splitext "model.gcode").2) with ".gcode".
    cbn [String.eqb Ascii.eqb Bool.eqb fst]. now rewrite getrecipe_gcode_checks.
Qed.

(** ** G-code processor selection *)

Section ProcessorFacts.

Import Domain Recipe.

Lemma contains_cons_ne (x y : string) (l : list string) :
  x <> y -> contains x (y :: l) = contains x l.
Proof.
  intros Hne. unfold contains. apply bool_decide_ext.
  rewrite elem_of_cons. intuition congruence.
Qed.

Lemma contains_snoc_ne (x y : string) (l : list string) :
  x <> y -> contains x (l ++ [y]) = contains x l.
Proof.
  intros Hne. unfold contains. apply bool_decide_ext.
  rewrite elem_of_app, list_elem_of_singleton. intuition congruence.
Qed.

Lemma contains_false (x : string) (l : list string) : contains x l = false -> x ∉ l.
Proof. unfold contains. apply bool_decide_eq_false. Qed.

Lemma NoDup_snoc_fresh (x : string) (l : list string) :
  NoDup l -> x ∉ l -> NoDup (l ++ [x]).
Proof.
  intros Hl Hx. apply NoDup_app. repeat split; [done | | apply NoDup_singleton].
  intros y Hy Hin. apply list_elem_of_singleton in Hin. congruence.
Qed.

(** The three optional additions, as the code decides them. *)
Lemma getgcodeprocessors_eq (profile : string) (job : Job) :
  let given := default [] (gcodeprocessor job) in
  let legacy := bool_decide (slicer (slicer_settings job) = SKEINFORGE) in
  let anchor :=
    legacy && negb (contains "AnchorProcessor" given)
    && bool_decide (slicer_path (slicer_settings job) = None) in
  let skein := legacy && negb (contains "Skeinforge50Processor" given) in
  let fan :=
    legacy && String.eqb profile "Replicator2" && negb (contains "FanProcessor" given) in
  (getgcodeprocessors profile job).1 =
    (if anchor then ["AnchorProcessor"] else [])
    ++ given
    ++ (if skein then ["Skeinforge50Processor"] else [])
    ++ (if fan then ["FanProcessor"] else []).
Proof.
  cbv zeta. unfold getgcodeprocessors. cbn [fst].
  set (given := default [] (gcodeprocessor job)).
  destruct (decide (SKEINFORGE = slicer (slicer_settings job))) as [E|E].
  2:{ rewrite (bool_decide_eq_false_2 (slicer (slicer_settings job) = SKEINFORGE))
        by congruence.
      cbn. now rewrite app_nil_r. }
  rewrite (bool_decide_eq_true_2 (slicer (slicer_settings job) = SKEINFORGE)) by congruence.
  cbn [andb].
  destruct (negb (contains "AnchorProcessor" given)
            && bool_decide (slicer_path (slicer_settings job) = None)) eqn:Ha.
  - rewrite (contains_cons_ne "Skeinforge50Processor") by discriminate.
    destruct (negb (contains "Skeinforge50Processor" given)) eqn:Hs.
    + rewrite contains_snoc_ne by discriminate.
      rewrite (contains_cons_ne "FanProcessor") by discriminate.
      destruct (String.eqb profile "Replicator2"); cbn [andb];
        [destruct (negb (contains "FanProcessor" given))|];
        cbn [app]; now rewrite <- ?app_assoc, ?app_nil_r.
    + rewrite (contains_cons_ne "FanProcessor") by discriminate.
      destruct (String.eqb profile "Replicator2"); cbn [andb];
        [destruct (negb (contains "FanProcessor" given))|];
        cbn [app]; now rewrite <- ?app_assoc, ?app_nil_r.
  - destruct (negb (contains "Skeinforge50Processor" given)) eqn:Hs.
    + rewrite contains_snoc_ne by discriminate.
      destruct (String.eqb profile "Replicator2"); cbn [andb];
        [destruct (negb (contains "FanProcessor" given))|];
        cbn [app]; now rewrite <- ?app_assoc, ?app_nil_r.
    + destruct (String.eqb profile "Replicator2"); cbn [andb];
        [destruct (negb (contains "FanProcessor" given))|];
        cbn [app]; now rewrite <- ?app_assoc, ?app_nil_r.
Qed.

Lemma NoDup_add_front (x : string) (l : list string) (c : bool) :
  NoDup l -> NoDup (if negb (contains x l) && c then x :: l else l).
Proof.
  intros Hl. destruct (contains x l) eqn:E; cbn; [done|].
  destruct c; [|done]. apply NoDup_cons. split; [now apply contains_false | done].
Qed.

Lemma NoDup_add_back (x : string) (l : list string) :
  NoDup l -> NoDup (if negb (contains x l) then l ++ [x] else l).
Proof.
  intros Hl. destruct (contains x l) eqn:E; cbn; [done|].
  apply NoDup_snoc_fresh; [done | now apply contains_false].
Qed.

Lemma getgcodeprocessors_NoDup (profile : string) (job : Job) :
  NoDup (default [] (gcodeprocessor job)) -> NoDup (getgcodeprocessors profile job).1.
Proof.
  intros Hl. unfold getgcodeprocessors. cbn [fst].
  destruct (decide (SKEINFORGE = slicer (slicer_settings job))); [|done].
  pose proof (NoDup_add_front "AnchorProcessor" _
                (bool_decide (slicer_path (slicer_settings job) = None)) Hl) as H1.
  pose proof (NoDup_add_back "Skeinforge50Processor" _ H1) as H2.
  destruct (String.eqb profile "Replicator2"); [|done].
  now apply NoDup_add_back.
Qed.

End ProcessorFacts.

(** C8, counterexample.  With Miracle Grue selected and the Replicator2
    profile active no fan processor is added; and a job list that names a
    processor twice keeps it twice. *)
Lemma fan_needs_legacy_slicer :
  let job slicer gp :=
    Domain.mkJob "y.stl" "y" (Domain.mkSlicerConfiguration slicer None "0")
      "PLA" true false gp "s3g" in
  ("FanProcessor" ∉ (Recipe.getgcodeprocessors "Replicator2" (job Domain.MIRACLEGRUE None)).1)
  /\ ~ NoDup (Recipe.getgcodeprocessors "Replicator2"
               (job Domain.SKEINFORGE (Some ["X"; "X"]))).1.
Proof.
  cbv zeta. split.
  - vm_compute. apply not_elem_of_nil.
  - vm_compute. intros H.
    apply NoDup_cons in H as [_ H]. apply NoDup_cons in H as [H _].
    apply H. apply list_elem_of_here.
Qed.

(** C8, amended: the list starts as [job.gcodeprocessor], or empty when that
    is absent.  Only when the legacy slicer (Skeinforge) is selected is
    anything added, and never a processor that is already listed:
    AnchorProcessor in front when no slicer path is preconfigured,
    Skeinforge50Processor at the back, and FanProcessor at the back when the
    profile is Replicator2.  This holds for every job, also one that lists
    a processor twice: the given processors are kept as they are, in their
    order.  And a list given without duplicates stays without duplicates. *)
Theorem getgcodeprocessors_additions (profile : string) (job : Domain.Job) :
  let given := default [] (Domain.gcodeprocessor job) in
  let legacy :=
    bool_decide (Domain.slicer (Domain.slicer_settings job) = Domain.SKEINFORGE) in
  let anchor :=
    legacy && negb (Recipe.contains "AnchorProcessor" given)
    && bool_decide (Domain.slicer_path (Domain.slicer_settings job) = None) in
  let skein := legacy && negb (Recipe.contains "Skeinforge50Processor" given) in
  let fan :=
    legacy && String.eqb profile "Replicator2"
    && negb (Recipe.contains "FanProcessor" given) in
  (Recipe.getgcodeprocessors profile job).1 =
    (if anchor then ["AnchorProcessor"] else [])
    ++ given
    ++ (if skein then ["Skeinforge50Processor"] else [])
    ++ (if fan then ["FanProcessor"] else [])
  /\ (NoDup given -> NoDup (Recipe.getgcodeprocessors profile job).1).
Proof.
  cbv zeta. split; [apply getgcodeprocessors_eq | apply getgcodeprocessors_NoDup].
Qed.

Lemma getgcodeprocessors_additions_witness :
  let job gp :=
    Domain.mkJob "y.stl" "y" (Domain.mkSlicerConfiguration Domain.SKEINFORGE None "0")
      "PLA" true false (Some gp) "s3g" in
  (Recipe.getgcodeprocessors "Replicator2" (job ["X"; "FanProcessor"; "X"])).1
  = ["AnchorProcessor"; "X"; "FanProcessor"; "X"; "Skeinforge50Processor"]
  /\ NoDup (Recipe.getgcodeprocessors "Replicator2" (job ["X"])).1.
Proof.
  cbv zeta. split.
  - destruct (getgcodeprocessors_additions "Replicator2"
                (Domain.mkJob "y.stl" "y"
                   (Domain.mkSlicerConfiguration Domain.SKEINFORGE None "0")
                   "PLA" true false (Some ["X"; "FanProcessor"; "X"]) "s3g")) as [E _].
    rewrite E. reflexivity.
  - destruct (getgcodeprocessors_additions "Replicator2"
                (Domain.mkJob "y.stl" "y"
                   (Domain.mkSlicerConfiguration Domain.SKEINFORGE None "0")
                   "PLA" true false (Some ["X"]) "s3g")) as [_ H].
    apply H. apply NoDup_singleton.
Defined.

(** ** The verify task *)

Section VerifyFacts.

Import Recipe RecipeTask.

(** Both arguments of [lazy_heartbeat] are read through the same location,
    so the task is left as it was. *)
Lemma update_task (progressreport : nat) (percent : Z) (st : VerifyState) :
  task (update progressreport percent st) = task st.
Proof.
  unfold update. cbn [task]. unfold Task.lazy_heartbeat.
  now rewrite decide_True.
Qed.

Lemma updates_task (progressreport : nat) (percents : list Z) (st : VerifyState) :
  task (foldl (fun st percent => update progressreport percent st) st percents) = task st.
Proof.
  revert st. induction percents as [|p l IH]; intros st; cbn [foldl]; [done|].
  now rewrite IH, update_task.
Qed.

Lemma verify_heartbeats (ReadFile : list string -> list Z * option Py.exception)
    (s3gpath : string) (fs : Os.FS) :
  Task.heartbeats (task (verifys3gtask_started ReadFile s3gpath fs).1) = [].
Proof.
  unfold verifys3gtask_started, verify_runningcallback.
  destruct (Os.readlines s3gpath fs) as [e|content]; [reflexivity|].
  destruct (ReadFile content) as [percents raised].
  destruct raised as [[]|]; cbn [fst task]; rewrite updates_task; reflexivity.
Qed.

End VerifyFacts.

(** C5 (the code differs): whatever the reader reports, the verify task fires
    no heartbeat, because [update] compares the progress dictionary with
    itself.  For a reader that reports 50 and then 100 and succeeds, the task
    fires [running], [end(True)] and [stopped] only, while the dictionary does
    hold progress 100. *)
Theorem verify_fires_no_heartbeat :
  (forall (ReadFile : list string -> list Z * option Py.exception)
          (s3gpath : string) (fs : Os.FS),
     Task.heartbeats
       (RecipeTask.task (RecipeTask.verifys3gtask_started ReadFile s3gpath fs).1) = [])
  /\ (let fs : Os.FS := {[ "out.s3g" := Os.File ["payload"] ]} in
      let st := (RecipeTask.verifys3gtask_started
                   (fun _ => ([50; 100], None)) "out.s3g" fs).1 in
      Task.fired (RecipeTask.task st)
        = [Task.runningevent; Task.endevent (Recipe.VBool true); Task.stoppedevent]
      /\ RecipeTask.deref (RecipeTask.heap st) 0 !! "progress" = Some (Recipe.VInt 100)).
Proof.
  split; [apply verify_heartbeats|].
  cbv zeta. split; vm_compute; reflexivity.
Qed.

(** ** Exceptions at the task boundary *)

Section BoundaryFacts.

Import Run.

(** The task is touched by [task_fail] and [task_end] only: a block made of
    the other operations leaves it alone. *)
Lemma bind_task {A B : Type} (c : M A) (k : A -> M B) :
  (forall w r w', c w = (r, w') -> w_task w' = w_task w) ->
  (forall a w r w', k a w = (r, w') -> w_task w' = w_task w) ->
  forall w r w', (c ≫= k) w = (r, w') -> w_task w' = w_task w.
Proof.
  intros Hc Hk w r w'. unfold mbind, M_bind.
  destruct (c w) as [[e|a] w1] eqn:E; intros H.
  - inversion H; subst. eapply Hc, E.
  - rewrite (Hk _ _ _ _ H). eapply Hc, E.
Qed.

Lemma readlines_task (path : string) w r w' :
  readlines path w = (r, w') -> w_task w' = w_task w.
Proof.
  unfold readlines, on_fs. destruct (Os.readlines path (w_fs w));
    intros H; inversion H; reflexivity.
Qed.

Lemma writelines_task (path : string) (lines : list string) w r w' :
  writelines path lines w = (r, w') -> w_task w' = w_task w.
Proof.
  unfold writelines. destruct (Os.writelines path lines (w_fs w));
    intros H; inversion H; reflexivity.
Qed.

Lemma unlink_task (path : string) w r w' :
  unlink path w = (r, w') -> w_task w' = w_task w.
Proof.
  unfold unlink. destruct (Os.unlink path (w_fs w));
    intros H; inversion H; reflexivity.
Qed.

Lemma raise_task {A : Type} (e : Py.exception) w (r : Py.exception + A) w' :
  raise e w = (r, w') -> w_task w' = w_task w.
Proof. unfold raise. intros H; inversion H; reflexivity. Qed.

Lemma process_all_task (gcodeprocessors : list RecipeTask.Processor) (output : list string)
    w r w' :
  RecipeTask.process_all gcodeprocessors output w = (r, w') -> w_task w' = w_task w.
Proof.
  revert output. induction gcodeprocessors as [|g l IH]; intros output; cbn.
  - unfold mret, M_ret. intros H; inversion H; reflexivity.
  - destruct (g output); [apply raise_task | apply IH].
Qed.

Lemma gcodeprocessor_body_task (inputpath outputpath : string)
    (gcodeprocessors : list RecipeTask.Processor) w r w' :
  RecipeTask.gcodeprocessor_body inputpath outputpath gcodeprocessors w = (r, w') ->
  w_task w' = w_task w.
Proof.
  unfold RecipeTask.gcodeprocessor_body.
  apply bind_task; [apply readlines_task|]. intros output.
  apply bind_task; [apply process_all_task|]. intros output'.
  apply writelines_task.
Qed.

Variable mktemp : nat -> string -> string.
Variable popen : list string -> Os.FS -> option (Z * Os.FS).

Lemma sequence_file_task (profile : MiracleGrue.Profile) (key : string) (b : bool) w r w' :
  MiracleGrue.sequence_file mktemp profile key b w = (r, w') -> w_task w' = w_task w.
Proof.
  unfold MiracleGrue.sequence_file. destruct b.
  - destruct (MiracleGrue.values profile !! key); intros H; inversion H; reflexivity.
  - intros H; inversion H; reflexivity.
Qed.

Lemma run_slicer_task (arguments : list string) w r w' :
  MiracleGrue.run_slicer popen arguments w = (r, w') -> w_task w' = w_task w.
Proof.
  unfold MiracleGrue.run_slicer. destruct (popen arguments (w_fs w)) as [[code fs]|];
    intros H; inversion H; reflexivity.
Qed.

Lemma slice_body_task (configuration : MiracleGrue.MiracleGrueConfiguration)
    (profile : MiracleGrue.Profile) (inputpath outputpath : string) (b : bool) w r w' :
  MiracleGrue.slice_body mktemp popen configuration profile inputpath outputpath b w = (r, w') ->
  w_task w' = w_task w.
Proof.
  unfold MiracleGrue.slice_body.
  apply bind_task; [apply sequence_file_task|]. intros startpath.
  apply bind_task; [apply sequence_file_task|]. intros endpath.
  apply bind_task; [apply run_slicer_task|]. intros code.
  destruct (code =? 0); [|apply raise_task].
  apply bind_task; [apply unlink_task|]. intros _. apply unlink_task.
Qed.

End BoundaryFacts.

(** C6, counterexample.  The slicer exits with status 1: [slice] fails the
    task and then raises the exception again, so it reaches the caller. *)
Lemma slice_reraises :
  let configuration := MiracleGrue.mkConfiguration "/usr/bin/miracle_grue" "miracle.config" in
  let profile := MiracleGrue.mkProfile ∅ in
  let w := Run.mkWorld ∅ (Task.start Task.new) 0 in
  (MiracleGrue.slice Os.tmpname (fun _ fs => Some (1, fs)) configuration profile
     "model.stl" "model.gcode" false w).1
  = inl (Py.Exception 1).
Proof. vm_compute. reflexivity. Qed.

(** C6, amended: an exception raised inside the body of the g-code processor
    task is caught at the task boundary, becomes [task.fail(cause)] and does
    not reach the caller; an exception raised inside the body of the slicer's
    [slice] becomes [task.fail(cause)] as well and is then raised again to the
    caller. *)
Theorem exceptions_become_fail
    (mktemp : nat -> string -> string)
    (popen : list string -> Os.FS -> option (Z * Os.FS))
    (configuration : MiracleGrue.MiracleGrueConfiguration) (profile : MiracleGrue.Profile)
    (stlpath slicedpath : string) (with_start_end : bool)
    (inputpath outputpath : string) (gcodeprocessors : list RecipeTask.Processor)
    (w1 w1' w2 w2' : Run.World) (e1 e2 : Py.exception)
    (Hrunning1 : Task.state (Run.w_task w1) = Task.RUNNING)
    (Hrunning2 : Task.state (Run.w_task w2) = Task.RUNNING)
    (Hraise1 :
       RecipeTask.gcodeprocessor_body inputpath outputpath gcodeprocessors w1 = (inl e1, w1'))
    (Hraise2 :
       MiracleGrue.slice_body mktemp popen configuration profile stlpath slicedpath
         with_start_end w2 = (inl e2, w2')) :
  RecipeTask.gcodeprocessor_runningcallback inputpath outputpath gcodeprocessors w1
  = (inr tt,
     Run.mkWorld (Run.w_fs w1')
       (Task.fire (Run.w_task w1) Task.FAILED
          [Task.failevent (Recipe.VExc e1); Task.stoppedevent])
       (Run.w_tmp w1'))
  /\ MiracleGrue.slice mktemp popen configuration profile stlpath slicedpath
       with_start_end w2
     = (inl e2,
        Run.mkWorld (Run.w_fs w2')
          (Task.fire (Run.w_task w2) Task.FAILED
             [Task.failevent (Recipe.VExc e2); Task.stoppedevent])
          (Run.w_tmp w2')).
Proof.
  pose proof (gcodeprocessor_body_task _ _ _ _ _ _ Hraise1) as T1.
  pose proof (slice_body_task _ _ _ _ _ _ _ _ _ _ Hraise2) as T2.
  split.
  - unfold RecipeTask.gcodeprocessor_runningcallback, Run.try_except.
    rewrite Hraise1. unfold Run.task_fail, Task.fail. now rewrite T1, Hrunning1.
  - unfold MiracleGrue.slice, Run.try_except.
    rewrite Hraise2. unfold mbind, Run.M_bind, Run.task_fail, Run.raise, Task.fail.
    cbn [Run.w_fs Run.w_task Run.w_tmp]. now rewrite T2, Hrunning2.
Qed.

Lemma exceptions_become_fail_witness :
  let configuration := MiracleGrue.mkConfiguration "/usr/bin/miracle_grue" "miracle.config" in
  let profile := MiracleGrue.mkProfile ∅ in
  let popen := fun (_ : list string) (fs : Os.FS) => Some (1, fs) in
  let w := Run.mkWorld ∅ (Task.start Task.new) 0 in
  let body := MiracleGrue.slice_body Os.tmpname popen configuration profile
                "model.stl" "model.gcode" false in
  (Task.state (Run.w_task w) = Task.RUNNING
   /\ RecipeTask.gcodeprocessor_body "in.gcode" "out.gcode" [] w
      = (inl (Py.IOError "in.gcode"), w)
   /\ body w = (inl (Py.Exception 1), (body w).2))
  /\ (RecipeTask.gcodeprocessor_runningcallback "in.gcode" "out.gcode" [] w).1 = inr tt
  /\ (MiracleGrue.slice Os.tmpname popen configuration profile
        "model.stl" "model.gcode" false w).1 = inl (Py.Exception 1).
Proof.
  cbv zeta.
  set (w := Run.mkWorld ∅ (Task.start Task.new) 0).
  set (popen := fun (_ : list string) (fs : Os.FS) => Some (1, fs)).
  set (body := MiracleGrue.slice_body Os.tmpname popen
                 (MiracleGrue.mkConfiguration "/usr/bin/miracle_grue" "miracle.config")
                 (MiracleGrue.mkProfile ∅) "model.stl" "model.gcode" false).
  assert (H0 : Task.state (Run.w_task w) = Task.RUNNING) by reflexivity.
  assert (H1 : RecipeTask.gcodeprocessor_body "in.gcode" "out.gcode" [] w
               = (inl (Py.IOError "in.gcode"), w)) by (vm_compute; reflexivity).
  assert (H2 : body w = (inl (Py.Exception 1), (body w).2)) by (vm_compute; reflexivity).
  split; [repeat split; assumption|].
  destruct (exceptions_become_fail Os.tmpname popen _ _ _ _ _ _ _ _ w w w (body w).2
              _ _ H0 H0 H1 H2) as [E1 E2].
  split; [now rewrite E1 | now rewrite E2].
Defined.

(** ** Cleanup of temporary files *)

Section CleanupFacts.

Import Domain Recipe.

Lemma fire_other (kind : EventKind) (handlers : list (EventKind * Handler)) (fs : Os.FS) :
  Forall (fun kh : EventKind * Handler => kh.1 = OnEnd) handlers ->
  kind <> OnEnd -> fire kind handlers fs = fs.
Proof.
  intros Hall Hk. unfold fire. revert fs.
  induction Hall as [|[k h] l Hkh Hl IH]; intros fs; cbn [foldl]; [done|].
  cbn [fst] in *. subst k. rewrite decide_False by congruence. apply IH.
Qed.

Variable mktemp : nat -> string -> string.
Variable config_profile : string.

Ltac recipe_cases :=
  repeat match goal with
    | |- context [getgcodeprocessors ?p ?j] => destruct (getgcodeprocessors p j) as [? ?]
    | |- context [if ?b then _ else _] => destruct b
    end.

Ltac end_only_tac :=
  intros n; unfold end_only;
  cbv [mbind Tmp_bind mret Tmp_ret NamedTemporaryFile make_gcodeprocessortask];
  recipe_cases;
  cbn [fst p_handlers p_task tasksequence attach app];
  (split; [repeat constructor | reflexivity]).

Lemma _GcodeRecipe_print_end_only job gcodepath printerthread :
  forall n, end_only (_GcodeRecipe_print mktemp job gcodepath printerthread n).1.
Proof. unfold _GcodeRecipe_print. end_only_tac. Qed.

Lemma _GcodeRecipe_printtofile_end_only job gcodepath profile outputpath :
  forall n, end_only (_GcodeRecipe_printtofile mktemp job gcodepath profile outputpath n).1.
Proof. unfold _GcodeRecipe_printtofile. end_only_tac. Qed.

Lemma _StlRecipe_print_end_only job stlpath printerthread :
  forall n, end_only (_StlRecipe_print mktemp config_profile job stlpath printerthread n).1.
Proof. unfold _StlRecipe_print. end_only_tac. Qed.

Lemma _StlRecipe_printtofile_end_only job stlpath profile outputpath :
  forall n,
    end_only (_StlRecipe_printtofile mktemp config_profile job stlpath profile outputpath n).1.
Proof. unfold _StlRecipe_printtofile. end_only_tac. Qed.

Lemma _StlRecipe_slice_end_only job stlpath profile outputpath :
  forall n, end_only (_StlRecipe_slice mktemp config_profile job stlpath profile outputpath n).1.
Proof. unfold _StlRecipe_slice. end_only_tac. Qed.

Lemma _DualThingRecipe_print_end_only job stl_0_path stl_1_path printerthread :
  forall n,
    end_only (_DualThingRecipe_print mktemp config_profile job stl_0_path stl_1_path
                printerthread n).1.
Proof. unfold _DualThingRecipe_print. end_only_tac. Qed.

Lemma _DualThingRecipe_printtofile_end_only job stl_0_path stl_1_path profile outputpath :
  forall n,
    end_only (_DualThingRecipe_printtofile mktemp config_profile job stl_0_path stl_1_path
                profile outputpath n).1.
Proof. unfold _DualThingRecipe_printtofile. end_only_tac. Qed.

Lemma _DualThingRecipe_slice_end_only job stl_0_path stl_1_path profile outputpath :
  forall n,
    end_only (_DualThingRecipe_slice mktemp config_profile job stl_0_path stl_1_path
                profile outputpath n).1.
Proof. unfold _DualThingRecipe_slice. end_only_tac. Qed.

Lemma fmap_inr_inv (c : Tmp Process) (n n' : nat) (p : Process) :
  (inr <$> c : Tmp (Py.exception + Process)) n = (inr p, n') -> p = (c n).1.
Proof.
  unfold fmap, Tmp_fmap. destruct (c n) as [q m]. intros H. now inversion H.
Qed.

Lemma fmap_inr_not_inl (c : Tmp Process) (n n' : nat) (e : Py.exception) :
  (inr <$> c : Tmp (Py.exception + Process)) n <> (inl e, n').
Proof. unfold fmap, Tmp_fmap. destruct (c n) as [q m]. discriminate. Qed.

(** Every process a recipe returns has handlers on its [end] event only. *)
Lemma process_of_end_only recipe mode n p n' :
  process_of mktemp config_profile recipe mode n = (inr p, n') -> end_only p.
Proof.
  destruct recipe, mode; cbn [process_of]; intros H;
    try (apply fmap_inr_inv in H; subst p);
    try (unfold mret, Tmp_ret in H; discriminate H).
  - apply _GcodeRecipe_print_end_only.
  - apply _GcodeRecipe_printtofile_end_only.
  - apply _StlRecipe_print_end_only.
  - apply _StlRecipe_printtofile_end_only.
  - apply _StlRecipe_slice_end_only.
  - apply _StlRecipe_print_end_only.
  - apply _StlRecipe_printtofile_end_only.
  - apply _StlRecipe_slice_end_only.
  - apply _DualThingRecipe_print_end_only.
  - apply _DualThingRecipe_printtofile_end_only.
  - apply _DualThingRecipe_slice_end_only.
Qed.

(** The handlers of every process a recipe returns are those of the
    cleanup table, read off the tasks of the process. *)
Lemma process_of_cleanup recipe mode n p n' :
  process_of mktemp config_profile recipe mode n = (inr p, n') ->
  p_handlers p = Pipeline.cleanup_handlers (Pipeline.cleanup_paths recipe mode (p_tasks p)).
Proof.
  destruct recipe, mode; cbn [process_of]; intros H;
    try (apply fmap_inr_inv in H; subst p);
    try (unfold mret, Tmp_ret in H; discriminate H).
  all: unfold _GcodeRecipe_print, _GcodeRecipe_printtofile, _StlRecipe_print,
         _StlRecipe_printtofile, _StlRecipe_slice, _DualThingRecipe_print,
         _DualThingRecipe_printtofile, _DualThingRecipe_slice;
    cbv [mbind Tmp_bind mret Tmp_ret NamedTemporaryFile make_gcodeprocessortask];
    repeat match goal with
      | |- context [getgcodeprocessors ?c ?j] => destruct (getgcodeprocessors c j) as [? ?]
      | |- context [Nat.eqb 0 ?l] => destruct (Nat.eqb 0 l)
      end;
    cbn -[unlink_all String.eqb];
    rewrite ?orb_false_r;
    repeat match goal with
      | |- context [String.eqb ?a ?b] => destruct (String.eqb_spec a b)
      end;
    cbn -[unlink_all String.eqb]; try congruence; reflexivity.
Qed.

End CleanupFacts.

Section UnlinkFacts.

Import Recipe.

Lemma unlink_inr (path : string) (fs fs' : Os.FS) :
  Os.unlink path fs = inr fs' <-> Os.unlinkable fs path /\ fs' = delete path fs.
Proof.
  unfold Os.unlink, Os.unlinkable. destruct (fs !! path) as [[lines| |]|]; split.
  all: try (intros H; inversion H; split; [eexists; split; [reflexivity|discriminate]|reflexivity]).
  all: try (intros [_ ->]; reflexivity).
  all: try discriminate.
  all: intros [(node & Hn & Hd) _]; congruence.
Qed.

Lemma unlink_all_ok (paths : list string) (fs : Os.FS) :
  (unlink_all paths fs).1 = None <-> NoDup paths /\ Forall (Os.unlinkable fs) paths.
Proof.
  revert fs. induction paths as [|p rest IH]; intros fs; cbn [unlink_all].
  - split; [intros _; split; constructor | reflexivity].
  - destruct (Os.unlink p fs) as [e|fs1] eqn:E.
    + split; [discriminate|]. intros [_ Hall]. apply Forall_cons in Hall as [Hp _].
      assert (Os.unlink p fs = inr (delete p fs)) by (apply unlink_inr; now split).
      congruence.
    + apply unlink_inr in E as [Hp ->]. rewrite IH. split.
      * intros [Hnd Hall]. assert (Hnotin : p ∉ rest).
        { intros Hin. rewrite Forall_forall in Hall. destruct (Hall _ Hin) as (node & Hn & _).
          now rewrite lookup_delete_eq in Hn. }
        split; [now apply NoDup_cons|]. apply Forall_cons. split; [exact Hp|].
        rewrite Forall_forall in *. intros q Hq. destruct (Hall q Hq) as (node & Hn & Hd).
        exists node. split; [|exact Hd].
        rewrite lookup_delete_ne in Hn; [exact Hn|]. intros ->. contradiction.
      * intros [Hnd Hall]. apply NoDup_cons in Hnd as [Hnotin Hnd].
        apply Forall_cons in Hall as [_ Hall]. split; [exact Hnd|].
        rewrite Forall_forall in *. intros q Hq. destruct (Hall q Hq) as (node & Hn & Hd).
        exists node. split; [|exact Hd].
        rewrite lookup_delete_ne; [exact Hn|]. intros ->. contradiction.
Qed.

Lemma unlink_all_result (paths : list string) (fs : Os.FS) (q : string) :
  (unlink_all paths fs).1 = None ->
  (unlink_all paths fs).2 !! q = if decide (q ∈ paths) then None else fs !! q.
Proof.
  revert fs. induction paths as [|p rest IH]; intros fs; cbn [unlink_all].
  - intros _. rewrite decide_False; [reflexivity | apply not_elem_of_nil].
  - destruct (Os.unlink p fs) as [e|fs1] eqn:E; [discriminate|].
    apply unlink_inr in E as [Hp ->]. intros H. rewrite (IH _ H).
    destruct (decide (q = p)) as [->|Hne].
    + rewrite (decide_True (P := p ∈ p :: rest)) by apply list_elem_of_here.
      destruct (decide (p ∈ rest)); [reflexivity | apply lookup_delete_eq].
    + rewrite lookup_delete_ne by congruence.
      destruct (decide (q ∈ rest)) as [Hin|Hin].
      * rewrite decide_True; [reflexivity | now apply list_elem_of_further].
      * rewrite decide_False; [reflexivity|].
        intros Hc. apply elem_of_cons in Hc as [?|?]; contradiction.
Qed.

End UnlinkFacts.

(** C3, counterexample.  A mesh print whose slice left its scratch toolpath
    behind: when the process fails or is cancelled the file is still there,
    and the cleanup handler itself raises [OSError] when the path was never
    created. *)
Lemma cleanup_skipped_on_fail :
  let settings := Domain.mkSlicerConfiguration Domain.MIRACLEGRUE None "0" in
  let job := Domain.mkJob "y.stl" "y" settings "PLA" true false None "s3g" in
  let printerthread := Recipe.mkPrinterThread "COM1" "Replicator2" in
  let p := (Recipe._StlRecipe_print Os.tmpname "Replicator2" job "y.stl" printerthread 0%nat).1 in
  let gcodepath := Os.tmpname 0 ".gcode" in
  let fs : Os.FS := {[ gcodepath := Os.File ["G1 X0"] ]} in
  let started := (Recipe.transition Task.start p fs).1 in
  Os.exists_ (Recipe.transition (Task.fail (Recipe.VStr "slicer")) started fs).2 gcodepath
  = true
  /\ Os.exists_ (Recipe.transition Task.cancel started fs).2 gcodepath = true
  /\ match Recipe.p_handlers p with
     | [(Recipe.OnEnd, process_endcallback)] =>
         (process_endcallback ∅).1 = Some (Py.OSError gcodepath)
     | _ => False
     end.
Proof. cbv zeta. repeat split; vm_compute; reflexivity. Qed.

(** C3, amended: every recipe method except [_GcodeRecipe.print] attaches
    exactly one cleanup handler to the process it returns, on the [end] event
    and on no other, and [_GcodeRecipe.print] attaches none.  The handler
    unlinks, in this order: for a toolpath print-to-file the output of the
    start/end task; for a mesh print or print-to-file the slice output and
    then the input of the start/end task unless it is the slice output; for a
    mesh slice the slice output unless it is the requested output path; for
    two meshes the two slice outputs, followed by the input of the start/end
    task (print-to-file), the woven toolpath (slice), or both (print).  So
    the files are deleted when the process ends, and left in place when it
    fails or is cancelled.  The handler does not tolerate a missing file: it
    completes without raising exactly when its paths are pairwise distinct
    and each names something [os.unlink] accepts. *)
Theorem cleanup_on_end_only
    (mktemp : nat -> string -> string) (config_profile : string)
    (recipe : RecipeManager.Recipe) (mode : Recipe.Mode) (n n' : nat) (p : Recipe.Process)
    (Hp : Recipe.process_of mktemp config_profile recipe mode n = (inr p, n'))
    (fs : Os.FS) (cause result : Recipe.value) :
  let started := (Recipe.transition Task.start p fs).1 in
  let cleanup := Pipeline.cleanup_paths recipe mode (Recipe.p_tasks p) in
  Recipe.p_handlers p = Pipeline.cleanup_handlers cleanup
  /\ (cleanup = None
      <-> exists job gcodepath printerthread,
            recipe = RecipeManager._GcodeRecipe job gcodepath
            /\ mode = Recipe.print printerthread)
  /\ (Recipe.transition (Task.end_ result) started fs).2
     = match cleanup with
       | Some paths => (Recipe.unlink_all paths fs).2
       | None => fs
       end
  /\ (Recipe.transition (Task.fail cause) started fs).2 = fs
  /\ (Recipe.transition Task.cancel started fs).2 = fs
  /\ (Recipe.transition Task.cancel p fs).2 = fs
  /\ (forall paths,
        cleanup = Some paths ->
        ((Recipe.unlink_all paths fs).1 = None
         <-> NoDup paths /\ Forall (Os.unlinkable fs) paths)).
Proof.
  destruct (process_of_end_only _ _ _ _ _ _ _ Hp) as [Hall Hnew].
  pose proof (process_of_cleanup _ _ _ _ _ _ _ Hp) as Hh.
  cbv zeta. split; [exact Hh|]. split.
  { clear Hall Hnew Hh. destruct recipe, mode; cbn [Pipeline.cleanup_paths]; split; intros H;
      first [ discriminate H
            | reflexivity
            | solve [eauto]
            | destruct H as (job' & gcodepath' & printerthread' & Hr & Hm); discriminate
            | idtac ].
    cbn [Recipe.process_of] in Hp. unfold mret, Recipe.Tmp_ret in Hp. discriminate Hp. }
  unfold Recipe.transition. cbn [fst snd Recipe.p_task Recipe.p_handlers].
  rewrite Hnew. cbn.
  rewrite !(fire_other Recipe.OnStopped) by (done || discriminate).
  rewrite !(fire_other Recipe.OnFail) by (done || discriminate).
  split; [|split; [reflexivity|split; [reflexivity|split; [reflexivity|]]]];
    [|intros paths _; apply unlink_all_ok].
  rewrite Hh. destruct (Pipeline.cleanup_paths recipe mode (Recipe.p_tasks p)) as [paths|];
    [|reflexivity].
  unfold Recipe.fire. cbn [Pipeline.cleanup_handlers foldl fst snd].
  now rewrite decide_True by reflexivity.
Qed.

(** A mesh print without processors: the handler names the slice output
    only; a failure leaves that file, the end deletes it, and on a file system
    where it is missing the handler raises. *)
Lemma cleanup_on_end_only_witness :
  let settings := Domain.mkSlicerConfiguration Domain.MIRACLEGRUE None "0" in
  let job := Domain.mkJob "y.stl" "y" settings "PLA" true false None "s3g" in
  let printerthread := Recipe.mkPrinterThread "COM1" "Replicator2" in
  let made :=
    Recipe.process_of Os.tmpname "Replicator2" (RecipeManager._StlRecipe job "y.stl")
      (Recipe.print printerthread) 0%nat in
  let gcodepath := Os.tmpname 0 ".gcode" in
  let fs : Os.FS := {[ gcodepath := Os.File ["G1 X0"] ]} in
  exists p,
    made = (inr p, 2%nat)
    /\ Recipe.p_handlers p = [(Recipe.OnEnd, Recipe.unlink_all [gcodepath])]
    /\ (Recipe.transition (Task.fail (Recipe.VStr "slicer"))
         (Recipe.transition Task.start p fs).1 fs).2 = fs
    /\ (Recipe.transition (Task.end_ Recipe.VNone)
         (Recipe.transition Task.start p fs).1 fs).2 = ∅
    /\ (Recipe.unlink_all [gcodepath] ∅).1 <> None.
Proof.
  cbv zeta.
  destruct (Recipe.process_of Os.tmpname "Replicator2"
              (RecipeManager._StlRecipe
                 (Domain.mkJob "y.stl" "y"
                    (Domain.mkSlicerConfiguration Domain.MIRACLEGRUE None "0")
                    "PLA" true false None "s3g") "y.stl")
              (Recipe.print (Recipe.mkPrinterThread "COM1" "Replicator2")) 0%nat)
    as [[e|p] n'] eqn:E.
  { exfalso. revert E. apply fmap_inr_not_inl. }
  assert (Hn : n' = 2%nat) by (apply (f_equal snd) in E; vm_compute in E; congruence).
  subst n'.
  assert (Ht : Pipeline.cleanup_paths
                 (RecipeManager._StlRecipe
                    (Domain.mkJob "y.stl" "y"
                       (Domain.mkSlicerConfiguration Domain.MIRACLEGRUE None "0")
                       "PLA" true false None "s3g") "y.stl")
                 (Recipe.print (Recipe.mkPrinterThread "COM1" "Replicator2"))
                 (Recipe.p_tasks p)
               = Some [Os.tmpname 0 ".gcode"]).
  { pose proof (fmap_inr_inv _ _ _ _ E) as ->. vm_compute. reflexivity. }
  exists p. split; [reflexivity|].
  destruct (cleanup_on_end_only _ _ _ _ _ _ _ E
              {[ Os.tmpname 0 ".gcode" := Os.File ["G1 X0"] ]}
              (Recipe.VStr "slicer") Recipe.VNone)
    as (Hh & _ & Hend & Hfail & _).
  destruct (cleanup_on_end_only _ _ _ _ _ _ _ E ∅ Recipe.VNone Recipe.VNone)
    as (_ & _ & _ & _ & _ & _ & Hraise).
  rewrite Ht in Hh, Hend. specialize (Hraise _ Ht).
  split; [exact Hh|]. split; [exact Hfail|]. split.
  - rewrite Hend. vm_compute. reflexivity.
  - intros Hnone. apply Hraise in Hnone as [_ Hall].
    apply Forall_cons in Hall as [(node & Hnode & _) _].
    rewrite lookup_empty in Hnode. discriminate Hnode.
Defined.

(** * Further properties *)

(** ** Address parsing: what a result says about the parsed text *)

Section AddressInversion.

Import Address.

Variable int : string -> option Z.

Lemma cut_Some (sep : ascii) (s a b : string) :
  Py.cut sep s = Some (a, b) -> s = a +:+ String sep b /\ Py.cut sep a = None.
Proof.
  revert a b. induction s as [|c s IH]; intros a b; cbn [Py.cut]; [discriminate|].
  destruct (Ascii.eqb c sep) eqn:E.
  - intros H. inversion H; subst. apply Ascii.eqb_eq in E. now subst.
  - destruct (Py.cut sep s) as [[x y]|]; [|discriminate].
    intros H. inversion H; subst. destruct (IH x b eq_refl) as [-> Hx].
    split; [reflexivity|]. cbn [Py.cut]. now rewrite E, Hx.
Qed.

Lemma split1_cases (s : string) :
  (Py.cut ":" s = None /\ Py.split1 ":" s = [s])
  \/ (exists a b, Py.cut ":" s = Some (a, b) /\ Py.split1 ":" s = [a; b]).
Proof.
  unfold Py.split1. destruct (Py.cut ":" s) as [[a b]|]; [right; eauto | left; auto].
Qed.

Lemma pipe_parse_inv (s : string) (split : list string) (r : Address) :
  _AbstractPipeAddress_parse s split = inr r ->
  exists a path, split = [a; path] /\ path <> EmptyString /\ r = PipeAddress path.
Proof.
  unfold _AbstractPipeAddress_parse.
  destruct split as [|a [|path [|x l]]]; cbn; try discriminate.
  destruct path; cbn; [discriminate|]. intros H. inversion H. eauto 6.
Qed.

Lemma tcp_parse_inv (s : string) (split : list string) (r : Address) :
  TcpAddress_parse int s split = inr r ->
  exists a rest host port_text port,
    split = [a; rest] /\ Py.split1 ":" rest = [host; port_text]
    /\ host <> EmptyString /\ int port_text = Some port /\ r = TcpAddress host port.
Proof.
  unfold TcpAddress_parse.
  destruct split as [|a [|rest [|x l]]]; cbn [List.length Nat.eqb negb]; try discriminate.
  change (Py.item [a; rest] 1) with rest.
  destruct (Py.split1 ":" rest) as [|host [|port_text [|y l]]] eqn:E;
    cbn [List.length Nat.eqb negb]; try discriminate.
  change (Py.item [host; port_text] 0) with host.
  change (Py.item [host; port_text] 1) with port_text.
  destruct host; cbn [String.length Nat.eqb]; [discriminate|].
  destruct (int port_text) as [port|] eqn:Ei; [|discriminate].
  intros H. inversion H. exists a, rest, (String a0 host), port_text, port.
  repeat split; auto; discriminate.
Qed.

Lemma parse_unfold (s : string) :
  parse int s =
    if String.eqb "pipe" (Py.item (Py.split1 ":" s) 0)
    then _AbstractPipeAddress_parse s (Py.split1 ":" s)
    else if String.eqb "tcp" (Py.item (Py.split1 ":" s) 0)
    then TcpAddress_parse int s (Py.split1 ":" s)
    else inl (UnknownProtocolException s (Py.item (Py.split1 ":" s) 0)).
Proof. reflexivity. Qed.

End AddressInversion.

(** X1: a pipe address comes only from "pipe:" followed by its path, and
    the path is never empty. *)
Theorem parse_pipe_only_from_pipe (int : string -> option Z) (s path : string)
    (H : Address.parse int s = inr (Address.PipeAddress path)) :
  s = "pipe:" +:+ path /\ path <> EmptyString.
Proof.
  rewrite parse_unfold in H.
  destruct (String.eqb "pipe" _) eqn:Ep.
  - apply pipe_parse_inv in H as (a & p & Hs & Hne & Hr). inversion Hr; subst p.
    rewrite Hs in Ep. change (Py.item [a; path] 0) with a in Ep.
    apply String.eqb_eq in Ep. subst a.
    destruct (split1_cases s) as [[_ E]|(a & b & Hc & E)]; rewrite E in Hs;
      inversion Hs; subst.
    apply cut_Some in Hc as [-> _]. now split.
  - destruct (String.eqb "tcp" _).
    + apply tcp_parse_inv in H as (a & rest & host & pt & port & _ & _ & _ & _ & Hr).
      discriminate Hr.
    + discriminate H.
Qed.

Lemma parse_pipe_only_from_pipe_witness :
  Address.parse Py.int "pipe:/var/run/conveyor:1" = inr (Address.PipeAddress "/var/run/conveyor:1")
  /\ "pipe:/var/run/conveyor:1" = "pipe:" +:+ "/var/run/conveyor:1".
Proof.
  assert (H : Address.parse Py.int "pipe:/var/run/conveyor:1"
              = inr (Address.PipeAddress "/var/run/conveyor:1")) by reflexivity.
  split; [exact H|]. exact (proj1 (parse_pipe_only_from_pipe _ _ _ H)).
Defined.

(** X2: a TCP address comes only from "tcp:", a nonempty host without a
    colon, a colon, and a port text that [int] reads as the port. *)
Theorem parse_tcp_only_from_tcp (int : string -> option Z) (s host : string) (port : Z)
    (H : Address.parse int s = inr (Address.TcpAddress host port)) :
  exists port_text,
    s = "tcp:" +:+ host +:+ ":" +:+ port_text
    /\ host <> EmptyString
    /\ Py.split1 ":" host = [host]
    /\ int port_text = Some port.
Proof.
  rewrite parse_unfold in H.
  destruct (String.eqb "pipe" _) eqn:Ep.
  - apply pipe_parse_inv in H as (a & p & _ & _ & Hr). discriminate Hr.
  - destruct (String.eqb "tcp" _) eqn:Et; [|discriminate H].
    apply tcp_parse_inv in H as (a & rest & h & pt & n & Hs & Hr & Hne & Hi & Hres).
    inversion Hres; subst h n.
    rewrite Hs in Et. change (Py.item [a; rest] 0) with a in Et.
    apply String.eqb_eq in Et. subst a.
    destruct (split1_cases s) as [[_ E]|(a & b & Hc & E)]; rewrite E in Hs;
      inversion Hs; subst.
    apply cut_Some in Hc as [-> _].
    destruct (split1_cases rest) as [[_ E']|(a & b & Hc & E')]; rewrite E' in Hr;
      inversion Hr; subst.
    apply cut_Some in Hc as [-> Hhost].
    exists pt. repeat split; auto.
    unfold Py.split1. now rewrite Hhost.
Qed.

Lemma parse_tcp_only_from_tcp_witness :
  Address.parse Py.int "tcp:localhost:9999" = inr (Address.TcpAddress "localhost" 9999)
  /\ exists port_text, "tcp:localhost:9999" = "tcp:localhost:" +:+ port_text
                       /\ Py.int port_text = Some 9999.
Proof.
  assert (H : Address.parse Py.int "tcp:localhost:9999"
              = inr (Address.TcpAddress "localhost" 9999)) by reflexivity.
  split; [exact H|].
  destruct (parse_tcp_only_from_tcp _ _ _ _ H) as (pt & Hs & _ & _ & Hi).
  exists pt. split; [exact Hs | exact Hi].
Defined.

(** X3: every exception [parse] raises carries the whole text that was
    parsed as its [value]. *)
Theorem parse_error_carries_input (int : string -> option Z) (s : string) (e : Address.exn)
    (H : Address.parse int s = inl e) :
  Address.value e = s.
Proof.
  rewrite parse_unfold in H.
  unfold Address._AbstractPipeAddress_parse, Address.TcpAddress_parse in H.
  repeat match type of H with
         | (if ?b then _ else _) = _ => destruct b
         | match ?o with _ => _ end = _ => destruct o
         end;
    inversion H; reflexivity.
Qed.

Lemma parse_error_carries_input_witness :
  Address.parse Py.int "tcp:h:x" = inl (Address.InvalidPortException "tcp:h:x" "x")
  /\ Address.value (Address.InvalidPortException "tcp:h:x" "x") = "tcp:h:x".
Proof.
  assert (H : Address.parse Py.int "tcp:h:x"
              = inl (Address.InvalidPortException "tcp:h:x" "x")) by reflexivity.
  split; [exact H | exact (parse_error_carries_input _ _ _ H)].
Defined.

(** X4: a text without any colon is never an address: "pipe" lacks its
    path, "tcp" lacks its host, and anything else is an unknown protocol
    named by the whole text. *)
Theorem parse_without_colon (int : string -> option Z) (s : string)
    (H : Py.split1 ":" s = [s]) :
  Address.parse int s =
    if String.eqb "pipe" s then inl (Address.MissingPathException s)
    else if String.eqb "tcp" s then inl (Address.MissingHostException s)
    else inl (Address.UnknownProtocolException s s).
Proof.
  rewrite parse_unfold, H. change (Py.item [s] 0) with s.
  destruct (String.eqb "pipe" s); [reflexivity|].
  destruct (String.eqb "tcp" s); reflexivity.
Qed.

Lemma parse_without_colon_witness :
  Address.parse Py.int "tcp" = inl (Address.MissingHostException "tcp")
  /\ Address.parse Py.int "localhost" = inl (Address.UnknownProtocolException "localhost" "localhost").
Proof.
  split.
  - exact (parse_without_colon Py.int "tcp" eq_refl).
  - exact (parse_without_colon Py.int "localhost" eq_refl).
Defined.

(** X5: "tcp:" followed by text without a colon, the empty text included,
    lacks its port. *)
Theorem parse_tcp_without_port (int : string -> option Z) (host : string)
    (H : Py.split1 ":" host = [host]) :
  Address.parse int ("tcp:" +:+ host) = inl (Address.MissingPortException ("tcp:" +:+ host)).
Proof.
  assert (Hs : Py.split1 ":" ("tcp:" +:+ host) = ["tcp"; host])
    by (apply (split1_app ":" "tcp"); reflexivity).
  rewrite parse_unfold, Hs.
  change (Py.item ["tcp"; host] 0) with "tcp".
  change (String.eqb "pipe" "tcp") with false.
  change (String.eqb "tcp" "tcp") with true.
  unfold Address.TcpAddress_parse.
  change (Py.item ["tcp"; host] 1) with host. rewrite H. reflexivity.
Qed.

Lemma parse_tcp_without_port_witness :
  Address.parse Py.int "tcp:localhost" = inl (Address.MissingPortException "tcp:localhost")
  /\ Address.parse Py.int "tcp:" = inl (Address.MissingPortException "tcp:").
Proof.
  split.
  - exact (parse_tcp_without_port Py.int "localhost" eq_refl).
  - exact (parse_tcp_without_port Py.int EmptyString eq_refl).
Defined.

(** ** The detector: one iteration and the server calls it makes *)

(** X6: the purge only ever removes entries, and purging again at the same
    clock reading changes nothing more. *)
Theorem purge_shrinks_idempotent (now : Q) (blacklist : gmap string Q) :
  Detector.purge now blacklist ⊆ blacklist
  /\ Detector.purge now (Detector.purge now blacklist) = Detector.purge now blacklist.
Proof.
  split.
  - apply map_subseteq_spec. intros p t. rewrite purge_lookup.
    destruct (blacklist !! p) as [u|]; [|discriminate].
    destruct (Qle_bool now u); [discriminate | done].
  - apply map_eq. intros p. rewrite !purge_lookup.
    destruct (blacklist !! p) as [u|]; [|done].
    destruct (Qle_bool now u) eqn:E; [done | now rewrite E].
Qed.

(** X7: the server calls of one iteration are justified: a printer is removed
    only for a known port that is gone or blacklisted, and a printer is
    appended only for an available port that is neither blacklisted nor
    already known, under the serial number reported for that port. *)
Theorem runiteration_calls_sound (build_from_port : string -> bool) (now : Q)
    (machines : gmap string Detector.MachineInfo) (self : Detector.S3gDetectorThread)
    (call : Detector.ServerCall)
    (Hcall : call ∈ (Detector._runiteration build_from_port now machines self).1.2) :
  let blacklist := Detector.purge now (Detector._blacklist self) in
  match call with
  | Detector.removeprinter portname =>
      (portname ∈ dom (Detector._available self))
      /\ ((portname ∉ dom machines) \/ (portname ∈ dom blacklist))
  | Detector.appendprinter printerid portname =>
      (portname ∉ dom (Detector._available self))
      /\ (portname ∉ dom blacklist)
      /\ exists info, machines !! portname = Some info /\ printerid = Detector.iSerial info
  end.
Proof.
  cbv zeta. rewrite runiteration_calls in Hcall. cbv zeta in Hcall.
  apply elem_of_app in Hcall as [H|H].
  - apply list_elem_of_fmap in H as (p & -> & Hp).
    apply elem_of_elements in Hp.
    unfold Detector.detached, Detector.old_keys, Detector.new_keys in Hp.
    apply elem_of_difference in Hp as [Hold Hnew]. split; [exact Hold|].
    destruct (decide (p ∈ dom machines)) as [Hm|Hm]; [|now left].
    right. destruct (decide (p ∈ dom (Detector.purge now (Detector._blacklist self))))
      as [Hb|Hb]; [exact Hb|].
    exfalso. apply Hnew. apply elem_of_difference. now split.
  - apply attach_all_calls in H as (p & Hp & _ & ->).
    apply elem_of_elements in Hp.
    unfold Detector.attached, Detector.old_keys, Detector.new_keys in Hp.
    apply elem_of_difference in Hp as [Hnew Hold].
    apply elem_of_difference in Hnew as [Hm Hb].
    repeat split; [exact Hold | exact Hb|].
    apply elem_of_dom in Hm as [info Hinfo]. exists info. now rewrite Hinfo.
Qed.

Lemma runiteration_calls_sound_witness :
  let machines : gmap string Detector.MachineInfo :=
    {[ "COM1" := {| Detector.iSerial := "A1" |} ]} in
  let calls := (Detector._runiteration (fun _ => true) 0%Q machines Detector.init).1.2 in
  (Detector.appendprinter "A1" "COM1" ∈ calls)
  /\ ("COM1" ∉ dom (Detector._available Detector.init)).
Proof.
  cbv zeta.
  assert (H : Detector.appendprinter "A1" "COM1"
              ∈ (Detector._runiteration (fun _ => true) 0%Q
                   {[ "COM1" := {| Detector.iSerial := "A1" |} ]} Detector.init).1.2)
    by (vm_compute; apply list_elem_of_here).
  split; [exact H|].
  exact (proj1 (runiteration_calls_sound _ _ _ _ _ H)).
Defined.

(** X8: a known port that is blacklisted when the attach decision is taken
    has its printer removed by that iteration, whether or not the port is
    still available. *)
Theorem blacklisted_known_port_removed (build_from_port : string -> bool) (now : Q)
    (machines : gmap string Detector.MachineInfo) (self : Detector.S3gDetectorThread)
    (portname : string)
    (Hknown : portname ∈ dom (Detector._available self))
    (Hblack : portname ∈ dom (Detector.purge now (Detector._blacklist self))) :
  Detector.removeprinter portname
  ∈ (Detector._runiteration build_from_port now machines self).1.2.
Proof.
  rewrite runiteration_calls. cbv zeta. apply elem_of_app. left.
  apply list_elem_of_fmap. exists portname. split; [reflexivity|].
  apply elem_of_elements. unfold Detector.detached, Detector.old_keys, Detector.new_keys.
  apply elem_of_difference. split; [exact Hknown|].
  intros H. apply elem_of_difference in H as [_ H]. exact (H Hblack).
Qed.

Lemma blacklisted_known_port_removed_witness :
  let info := {| Detector.iSerial := "A1" |} in
  let self := Detector.mkDetector {[ "COM1" := info ]} {[ "COM1" := 30%Q ]} in
  Detector.removeprinter "COM1"
  ∈ (Detector._runiteration (fun _ => true) 31%Q {[ "COM1" := info ]} self).1.2.
Proof.
  cbv zeta. apply blacklisted_known_port_removed.
  - cbn [Detector._available]. apply elem_of_dom. rewrite lookup_singleton_eq. eauto.
  - cbn [Detector._blacklist]. apply elem_of_dom. rewrite purge_lookup.
    rewrite lookup_singleton_eq. cbn. eauto.
Defined.

(** X9: after an iteration in which every driver was built, a further
    iteration over the same machines, at a time when none of them is
    blacklisted, makes no server call at all: a port that stays plugged in is
    attached once. *)
Theorem steady_state_makes_no_call (build build' : string -> bool) (now now' : Q)
    (machines : gmap string Detector.MachineInfo) (self : Detector.S3gDetectorThread)
    (Hbuilt : (Detector._runiteration build now machines self).2 = None)
    (Hfree : dom (Detector.purge now'
                    (Detector._blacklist (Detector._runiteration build now machines self).1.1))
             ## dom machines) :
  (Detector._runiteration build' now' machines
     (Detector._runiteration build now machines self).1.1).1.2 = []
  /\ (Detector._runiteration build' now' machines
       (Detector._runiteration build now machines self).1.1).2 = None.
Proof.
  assert (Hav : Detector._available (Detector._runiteration build now machines self).1.1
                = machines).
  { revert Hbuilt. unfold Detector._runiteration.
    destruct (Detector.attach_all _ _ _) as [calls [port|]]; [discriminate|reflexivity]. }
  set (st := (Detector._runiteration build now machines self).1.1) in *.
  assert (Hnew : Detector.new_keys machines (Detector.purge now' (Detector._blacklist st))
                 = dom machines).
  { unfold Detector.new_keys. apply set_eq. intros p. rewrite elem_of_difference.
    split; [tauto|]. intros Hp. split; [exact Hp|]. intros Hb. exact (Hfree p Hb Hp). }
  rewrite runiteration_calls, runiteration_raised. cbv zeta. rewrite Hnew.
  unfold Detector.detached, Detector.attached, Detector.old_keys. rewrite Hav.
  rewrite difference_diag_L, elements_empty. split; reflexivity.
Qed.

Lemma steady_state_makes_no_call_witness :
  let machines : gmap string Detector.MachineInfo :=
    {[ "COM1" := {| Detector.iSerial := "A1" |} ]} in
  let st := (Detector._runiteration (fun _ => true) 0%Q machines Detector.init).1.1 in
  (Detector._runiteration (fun _ => true) 0%Q machines Detector.init).1.2
  = [Detector.appendprinter "A1" "COM1"]
  /\ (Detector._runiteration (fun _ => true) 10%Q machines st).1.2 = [].
Proof.
  cbv zeta. split; [vm_compute; reflexivity|].
  apply steady_state_makes_no_call.
  - vm_compute. reflexivity.
  - rewrite runiteration_blacklist. unfold Detector.init. cbn [Detector._blacklist].
    intros p Hp _. apply elem_of_dom in Hp as [t Ht].
    rewrite !purge_lookup, lookup_empty in Ht. discriminate Ht.
Defined.

(** X10: when building the driver of a port raises, that port was about to
    be attached, and the known ports are left as they were before the
    iteration. *)
Theorem build_failure_keeps_known (build_from_port : string -> bool) (now : Q)
    (machines : gmap string Detector.MachineInfo) (self : Detector.S3gDetectorThread)
    (portname : string)
    (Hraised : (Detector._runiteration build_from_port now machines self).2 = Some portname) :
  build_from_port portname = false
  /\ (portname ∈ dom machines)
  /\ (portname ∉ dom (Detector._available self))
  /\ Detector._available (Detector._runiteration build_from_port now machines self).1.1
     = Detector._available self.
Proof.
  assert (Hav : Detector._available
                  (Detector._runiteration build_from_port now machines self).1.1
                = Detector._available self).
  { revert Hraised. unfold Detector._runiteration.
    destruct (Detector.attach_all _ _ _) as [calls [port|]]; [reflexivity|discriminate]. }
  rewrite runiteration_raised in Hraised. cbv zeta in Hraised.
  apply attach_all_raised in Hraised as [Hin Hb].
  apply elem_of_elements in Hin.
  unfold Detector.attached, Detector.old_keys, Detector.new_keys in Hin.
  apply elem_of_difference in Hin as [Hnew Hold].
  apply elem_of_difference in Hnew as [Hm _].
  repeat split; assumption.
Qed.

Lemma build_failure_keeps_known_witness :
  let machines : gmap string Detector.MachineInfo :=
    {[ "COM1" := {| Detector.iSerial := "A1" |} ]} in
  (Detector._runiteration (fun _ => false) 0%Q machines Detector.init).2 = Some "COM1"
  /\ Detector._available (Detector._runiteration (fun _ => false) 0%Q machines Detector.init).1.1
     = ∅.
Proof.
  cbv zeta.
  assert (H : (Detector._runiteration (fun _ => false) 0%Q
                 {[ "COM1" := {| Detector.iSerial := "A1" |} ]} Detector.init).2
              = Some "COM1") by (vm_compute; reflexivity).
  split; [exact H|].
  exact (proj2 (proj2 (proj2 (build_failure_keeps_known _ _ _ _ _ H)))).
Defined.

(** ** The stream print: how a run goes *)

Section DriverRuns.

Import Driver.

Context {Temperature : Type}.
Variable _gettemperature : Q -> option Temperature.
Variable clock : nat -> Q.
Variable execute_line : nat -> string -> bool.
Variable cancelled : nat -> bool.
Variable polltemperature : bool.
Variable pollinterval : Q.

Local Abbreviation go :=
  (stream _gettemperature clock execute_line cancelled polltemperature pollinterval).

Local Abbreviation hb_only :=
  (Forall (fun f : Task.Fired (@Progress Temperature) unit Empty_set =>
             Task.is_heartbeat f = true)).

Lemma rawbytes_app (l1 l2 : list string) : rawbytes (l1 ++ l2) = rawbytes l1 + rawbytes l2.
Proof.
  induction l1 as [|x l IH]; cbn [app rawbytes foldr]; [reflexivity|].
  fold (rawbytes (l ++ l2)). fold (rawbytes l). lia.
Qed.

Lemma rawbytes_cons (x : string) (l : list string) : rawbytes (x :: l) = len x + rawbytes l.
Proof. reflexivity. Qed.

(** A stretch of lines that is neither cancelled nor rejected by the parser,
    and during which every temperature read succeeds, advances the byte count
    by the raw lengths and fires heartbeats only. *)
Lemma stream_prefix (tl tb : Z) (l1 l2 : list string) (i : nat) (st : Locals) :
  (polltemperature = true -> forall t, is_Some (_gettemperature t)) ->
  Task.state (l_task st) = Task.RUNNING ->
  (forall j, (i <= j < i + List.length l1)%nat ->
             cancelled j = false /\ forall data, execute_line j data = true) ->
  exists st' hbs,
    go tl tb (enumerate_from i (l1 ++ l2)) st
    = go tl tb (enumerate_from (i + List.length l1) l2) st'
    /\ l_currentbyte st' = l_currentbyte st + rawbytes l1
    /\ Task.state (l_task st') = Task.RUNNING
    /\ Task.fired (l_task st') = Task.fired (l_task st) ++ hbs
    /\ hb_only hbs.
Proof.
  intros Hreads. revert i st. induction l1 as [|data l1 IH]; intros i st Hrun Hok.
  - exists st, []. cbn [app List.length]. rewrite Nat.add_0_r, app_nil_r.
    repeat split; [cbn; lia | exact Hrun | constructor].
  - destruct (Hok i) as [Hc He]; [cbn [List.length]; lia|].
    cbn [app enumerate_from stream]. rewrite Hc, Hrun.
    rewrite bool_decide_eq_true_2 by reflexivity. cbn [negb].
    assert (Hok' : forall j, (S i <= j < S i + List.length l1)%nat ->
                             cancelled j = false /\ forall data, execute_line j data = true).
    { intros j Hj. apply Hok. cbn [List.length]. lia. }
    destruct (polltemperature && Qle_bool (l_polltime st) (clock i))%bool eqn:Epoll;
      [ apply andb_true_iff in Epoll as [Epoll _];
        destruct (Hreads Epoll (clock i)) as [temperature' Hread]; rewrite Hread | ];
      rewrite He; cbn [negb];
      match goal with
      | |- context [if Qle_bool ?a ?b then _ else _] => destruct (Qle_bool a b)
      end;
      match goal with
      | |- context [go tl tb _ ?s] =>
          destruct (IH (S i) s) as (st' & hbs & E & Hb & Hs & Hf & Hh);
            [ cbn [l_task]; unfold Task.heartbeat; try rewrite Hrun; done
            | exact Hok' | ]
      end;
      cbn [l_currentbyte l_task] in Hb, Hf;
      unfold Task.heartbeat in Hf; try rewrite Hrun in Hf;
      cbn [Task.fire Task.fired] in Hf; try rewrite <- app_assoc in Hf.
    all: eexists st', _; rewrite E;
      replace (i + List.length (data :: l1))%nat with (S i + List.length l1)%nat
        by (cbn [List.length]; lia);
      (split; [reflexivity|]);
      (split; [rewrite Hb, rawbytes_cons; lia|]);
      (split; [exact Hs|]);
      (split; [exact Hf|]).
    all: try exact Hh.
    all: cbn [app]; constructor; [reflexivity | exact Hh].
Qed.


(** When the temperature read before the loop succeeds (or is not made),
    [_genericprint] is the loop followed by the closing [task.end(None)]. *)
Lemma genericprint_reads (now : Q) (gcodelines : list string) (task : PrintTask) :
  (polltemperature = true -> forall t, is_Some (_gettemperature t)) ->
  exists temperature,
    _genericprint _gettemperature clock execute_line cancelled polltemperature pollinterval
      now gcodelines task
    = let tl := Z.of_nat (List.length gcodelines) in
      let tb := 2 * Z.of_nat (List.length gcodelines) in
      match go tl tb (enumerate_from 0 gcodelines)
              (mkLocals 0 (now + pollinterval)%Q temperature task) with
      | Finished st =>
          mkPrinted tl tb
            (Finished (mkLocals (l_currentbyte st) (l_polltime st) (l_temperature st)
                         (if negb (bool_decide (Task.state (l_task st) = Task.STOPPED))
                          then Task.end_ tt (l_task st) else l_task st)))
      | Raised line st => mkPrinted tl tb (Raised line st)
      | TemperatureRaised line st => mkPrinted tl tb (TemperatureRaised line st)
      end.
Proof.
  intros Hreads. unfold _genericprint. rewrite countgcodelines_eq. unfold enumerate.
  destruct polltemperature eqn:Ep.
  - destruct (Hreads eq_refl now) as [t Ht]. rewrite Ht. now exists (Some t).
  - now exists None.
Qed.

End DriverRuns.

Section DriverInvariants.

Import Driver.

Context {Temperature : Type}.
Variable _gettemperature : Q -> option Temperature.
Variable clock : nat -> Q.
Variable execute_line : nat -> string -> bool.
Variable cancelled : nat -> bool.
Variable pollinterval : Q.

Local Abbreviation PTask := (Task.Task (@Progress Temperature) unit Empty_set).

Lemma heartbeats_fire (t : PTask) (st : Task.TaskState)
    (evs : list (Task.Fired (@Progress Temperature) unit Empty_set)) :
  Task.heartbeats (Task.fire t st evs) = Task.heartbeats t ++ List.filter Task.is_heartbeat evs.
Proof. unfold Task.heartbeats, Task.fire. cbn [Task.fired]. apply List.filter_app. Qed.

Lemma heartbeats_cancel (t : PTask) : Task.heartbeats (Task.cancel t) = Task.heartbeats t.
Proof.
  unfold Task.cancel. destruct (Task.state t); try reflexivity;
    rewrite heartbeats_fire; cbn; apply app_nil_r.
Qed.

Lemma heartbeats_end (t : PTask) : Task.heartbeats (Task.end_ tt t) = Task.heartbeats t.
Proof.
  unfold Task.end_. destruct (Task.state t); try reflexivity.
  rewrite heartbeats_fire; cbn; apply app_nil_r.
Qed.

Lemma poll_pushes_past (now : Q) : Qle_bool (now + 5) now = false.
Proof.
  destruct (Qle_bool (now + 5) now) eqn:E; [|reflexivity].
  apply Qle_bool_iff in E. lra.
Qed.

(** With temperature polling on, the heartbeat test never passes. *)
Lemma stream_polling_silent (tl tb : Z) (items : list (nat * string)) (st : Locals) :
  Task.heartbeats
    (l_task (locals (stream _gettemperature clock execute_line cancelled true pollinterval
                       tl tb items st)))
  = Task.heartbeats (l_task st).
Proof.
  revert st. induction items as [|[i data] items IH]; intros st; [reflexivity|].
  cbn [stream].
  set (task := if cancelled i then Task.cancel (l_task st) else l_task st).
  assert (Ht : Task.heartbeats task = Task.heartbeats (l_task st)).
  { unfold task. destruct (cancelled i); [apply heartbeats_cancel | reflexivity]. }
  destruct (negb (bool_decide (Task.state task = Task.RUNNING))); [exact Ht|].
  cbn [andb].
  destruct (Qle_bool (l_polltime st) (clock i)) eqn:E.
  - destruct (_gettemperature (clock i)); [|exact Ht].
    destruct (negb (execute_line i (strip data))); [exact Ht|].
    rewrite poll_pushes_past. rewrite IH. exact Ht.
  - destruct (negb (execute_line i (strip data))); [exact Ht|].
    rewrite E. rewrite IH. exact Ht.
Qed.

Lemma enumerate_from_split {A : Type} (l : list A) (i k : nat) (d : A)
    (pre post : list (nat * A)) :
  enumerate_from i l = pre ++ (k, d) :: post ->
  k = (i + List.length pre)%nat /\ snd <$> pre = take (List.length pre) l
  /\ l !! List.length pre = Some d.
Proof.
  revert i l. induction pre as [|[j x] pre IH]; intros i l H.
  - destruct l as [|y l]; [discriminate|]. cbn in H. inversion H; subst.
    cbn. repeat split; lia.
  - destruct l as [|y l]; [discriminate|]. cbn [enumerate_from app] in H.
    inversion H; subst. destruct (IH _ _ H3) as (Hk & Hp & Hd).
    cbn [List.length fmap list_fmap take lookup list_lookup snd].
    repeat split; [lia | now f_equal | exact Hd].
Qed.

(** Every heartbeat the loop adds reports the totals it was given, the item
    it was fired at, and the byte count up to and including that item. *)
Lemma stream_heartbeat_payload (polltemperature : bool) (tl tb : Z)
    (items : list (nat * string)) (st : Locals) (p : @Progress Temperature) :
  Task.heartbeatevent p
  ∈ Task.fired (l_task (locals (stream _gettemperature clock execute_line cancelled
                                   polltemperature pollinterval tl tb items st))) ->
  Task.heartbeatevent p ∈ Task.fired (l_task st)
  \/ (totallines p = tl /\ totalbytes p = tb
      /\ exists pre data post,
           items = pre ++ (currentline p, data) :: post
           /\ currentbyte p = l_currentbyte st + rawbytes (snd <$> pre) + len data).
Proof.
  revert st. induction items as [|[i data] items IH]; intros st; [now left|].
  cbn [stream].
  set (task := if cancelled i then Task.cancel (l_task st) else l_task st).
  assert (Ht : Task.heartbeatevent p ∈ Task.fired task ->
               Task.heartbeatevent p ∈ Task.fired (l_task st)).
  { unfold task. destruct (cancelled i); [|tauto].
    unfold Task.cancel. destruct (Task.state (l_task st)); try tauto;
      cbn [Task.fire Task.fired]; intros H; apply elem_of_app in H as [H|H];
      try tauto; apply list_elem_of_singleton in H; discriminate. }
  destruct (negb (bool_decide (Task.state task = Task.RUNNING))) eqn:Erun;
    [cbn [locals l_task]; tauto|].
  apply negb_false_iff, bool_decide_eq_true in Erun.
  destruct (polltemperature && Qle_bool (l_polltime st) (clock i))%bool;
    [ destruct (_gettemperature (clock i)); [|cbn [locals l_task]; tauto] | ];
    destruct (negb (execute_line i (strip data)));
    try (cbn [locals l_task]; tauto);
    match goal with
    | |- context [if Qle_bool ?a ?b then _ else _] => destruct (Qle_bool a b)
    end;
    intros H; apply IH in H; cbn [l_task l_currentbyte] in H;
    (destruct H as [H|(Hl & Hb & pre & d & post & Hi & Hc)];
     [| right; repeat split; try assumption;
        exists ((i, data) :: pre), d, post; split;
        [now rewrite Hi
        | rewrite Hc; cbn [fmap list_fmap snd]; rewrite rawbytes_cons; lia] ]).
  all: try (left; apply Ht; exact H).
  all: unfold Task.heartbeat in H; rewrite Erun in H; cbn [Task.fire Task.fired] in H;
    apply elem_of_app in H as [H|H]; [left; apply Ht; exact H|];
    apply list_elem_of_singleton in H; inversion H; subst p;
    right; cbn [totallines totalbytes currentline currentbyte];
    repeat split; try (destruct polltemperature; reflexivity);
    exists [], data, items; split;
       [ destruct polltemperature; reflexivity
       | destruct polltemperature; cbn; lia ].
Qed.

End DriverInvariants.



(** X12: with temperature polling on, as the printer thread calls [print],
    the stream loop fires no heartbeat at all, whatever the clock, the lines,
    the parser and the cancellations: the temperature refresh pushes
    [polltime] past [now] before the heartbeat test reads it. *)
Theorem polling_print_never_heartbeats {Temperature : Type}
    (_gettemperature : Q -> option Temperature) (clock : nat -> Q)
    (execute_line : nat -> string -> bool) (cancelled : nat -> bool)
    (pollinterval now : Q) (gcodelines : list string)
    (task : Task.Task (@Driver.Progress Temperature) unit Empty_set) :
  Task.heartbeats
    (Driver.l_task (Driver.locals (Driver.p_outcome
       (Driver._genericprint _gettemperature clock execute_line cancelled
          true pollinterval now gcodelines task))))
  = Task.heartbeats task.
Proof.
  unfold Driver._genericprint. destruct (Driver._countgcodelines gcodelines) as [tl tb].
  destruct (_gettemperature now) as [temperature|]; [|reflexivity].
  match goal with
  | |- context [Driver.stream ?g ?c ?e ?k true ?pi ?a ?b ?items ?st] =>
      pose proof (stream_polling_silent g c e k pi a b items st) as H;
        destruct (Driver.stream g c e k true pi a b items st) as [st'|line st'|line st']
  end; cbn [Driver.locals Driver.l_task Driver.p_outcome] in *.
  - destruct (negb (bool_decide (Task.state (Driver.l_task st') = Task.STOPPED)));
      [rewrite heartbeats_end|]; exact H.
  - exact H.
  - exact H.
Qed.

(** X13: every heartbeat the print adds names a line index within the
    toolpath and carries, as [currentbyte], the sum of the raw lengths of the
    lines up to and including that line, with [totallines] the number of lines
    and [totalbytes] twice that number. *)
Theorem heartbeat_reports_position {Temperature : Type}
    (_gettemperature : Q -> option Temperature) (clock : nat -> Q)
    (execute_line : nat -> string -> bool) (cancelled : nat -> bool)
    (polltemperature : bool) (pollinterval now : Q) (gcodelines : list string)
    (task : Task.Task (@Driver.Progress Temperature) unit Empty_set)
    (p : @Driver.Progress Temperature)
    (Hfired :
       Task.heartbeatevent p
       ∈ Task.fired (Driver.l_task (Driver.locals (Driver.p_outcome
           (Driver._genericprint _gettemperature clock execute_line cancelled
              polltemperature pollinterval now gcodelines task)))))
    (Hnew : Task.heartbeatevent p ∉ Task.fired task) :
  (Driver.currentline p < List.length gcodelines)%nat
  /\ Driver.currentbyte p = Driver.rawbytes (take (S (Driver.currentline p)) gcodelines)
  /\ Driver.totallines p = Z.of_nat (List.length gcodelines)
  /\ Driver.totalbytes p = 2 * Z.of_nat (List.length gcodelines).
Proof.
  unfold Driver._genericprint in Hfired. rewrite countgcodelines_eq in Hfired.
  assert (Hstream : exists temperature,
            Task.heartbeatevent p
            ∈ Task.fired (Driver.l_task (Driver.locals
                (Driver.stream _gettemperature clock execute_line cancelled
                   polltemperature pollinterval
                   (Z.of_nat (List.length gcodelines))
                   (2 * Z.of_nat (List.length gcodelines))
                   (Driver.enumerate gcodelines)
                   (Driver.mkLocals 0 (now + pollinterval)%Q temperature task))))).
  { match type of Hfired with
    | context [match ?c with Some _ => _ | None => _ end] =>
        destruct c as [temperature|]; [|contradiction]
    end.
    exists temperature.
    match type of Hfired with
    | context [Driver.stream ?g ?c ?e ?k ?pt ?pi ?a ?b ?items ?st] =>
        destruct (Driver.stream g c e k pt pi a b items st) as [st'|line st'|line st']
    end; cbn [Driver.locals Driver.l_task Driver.p_outcome] in *; try exact Hfired.
    destruct (negb (bool_decide (Task.state (Driver.l_task st') = Task.STOPPED)));
      [|exact Hfired].
    unfold Task.end_ in Hfired. destruct (Task.state (Driver.l_task st'));
      try exact Hfired. cbn [Task.fire Task.fired] in Hfired.
    apply elem_of_app in Hfired as [Hf|Hf]; [exact Hf|].
    apply elem_of_cons in Hf as [Hf|Hf]; [discriminate|].
    apply list_elem_of_singleton in Hf. discriminate. }
  destruct Hstream as [temperature Hin].
  apply stream_heartbeat_payload in Hin.
  cbn [Driver.l_task Driver.l_currentbyte] in Hin.
  destruct Hin as [Hold|(Hl & Hb & pre & data & post & Hi & Hc)]; [contradiction|].
  apply enumerate_from_split in Hi as (Hk & Hp & Hd).
  apply lookup_lt_Some in Hd as Hlt.
  repeat split; try assumption; try lia.
  rewrite Hc, Hp, Hk; cbn [Nat.add].
  rewrite (take_S_r _ _ _ Hd), rawbytes_app; cbn; lia.
Qed.

Lemma heartbeat_reports_position_witness :
  let task : Task.Task (@Driver.Progress unit) unit Empty_set := Task.start Task.new in
  let p := Driver.mkProgress 1 2 12 4 None in
  let final :=
    Driver.l_task (Driver.locals (Driver.p_outcome
      (Driver._genericprint (fun _ => Some tt) (fun i => 10 * inject_Z (Z.of_nat i))%Q
         (fun _ _ => true) (fun _ => false) false 5%Q 0%Q ["G1 X10"; "G1 X20"] task))) in
  (Task.heartbeatevent p ∈ Task.fired final)
  /\ (Task.heartbeatevent p ∉ Task.fired task)
  /\ Driver.currentbyte p = Driver.rawbytes (take 2 ["G1 X10"; "G1 X20"]).
Proof.
  cbv zeta.
  set (p := Driver.mkProgress 1 2 12 4 (@None unit)).
  set (task := Task.start Task.new : Task.Task (@Driver.Progress unit) unit Empty_set).
  assert (H1 : Task.heartbeatevent p
               ∈ Task.fired (Driver.l_task (Driver.locals (Driver.p_outcome
                   (Driver._genericprint (fun _ => Some tt)
                      (fun i => 10 * inject_Z (Z.of_nat i))%Q
                      (fun _ _ => true) (fun _ => false) false 5%Q 0%Q
                      ["G1 X10"; "G1 X20"] task))))).
  { vm_compute. apply list_elem_of_further, list_elem_of_here. }
  assert (H2 : Task.heartbeatevent p ∉ Task.fired task).
  { vm_compute. intros H. apply list_elem_of_singleton in H. discriminate. }
  split; [exact H1|]. split; [exact H2|].
  exact (proj1 (proj2 (heartbeat_reports_position _ _ _ _ _ _ _ _ _ _ H1 H2))).
Defined.

(** X14: when the task is cancelled just before line [k] of an otherwise
    undisturbed print whose temperature reads (made only with polling on) all
    succeed, the loop stops there: [currentbyte] covers the first [k] lines
    only, the task is STOPPED, and no [end] is fired. *)
Theorem cancelled_print_stops {Temperature : Type}
    (_gettemperature : Q -> option Temperature) (clock : nat -> Q)
    (execute_line : nat -> string -> bool) (cancelled : nat -> bool)
    (polltemperature : bool) (pollinterval now : Q) (gcodelines : list string)
    (task : Task.Task (@Driver.Progress Temperature) unit Empty_set) (k : nat)
    (Hreads : polltemperature = true -> forall t, is_Some (_gettemperature t))
    (Hrunning : Task.state task = Task.RUNNING)
    (Hk : (k < List.length gcodelines)%nat)
    (Hcancel : cancelled k = true)
    (Hbefore : forall j, (j < k)%nat ->
                 cancelled j = false /\ forall data, execute_line j data = true) :
  let printed :=
    Driver._genericprint _gettemperature clock execute_line cancelled
      polltemperature pollinterval now gcodelines task in
  exists st hbs,
    Driver.p_outcome printed = Driver.Finished st
    /\ Driver.l_currentbyte st = Driver.rawbytes (take k gcodelines)
    /\ Task.state (Driver.l_task st) = Task.STOPPED
    /\ Task.fired (Driver.l_task st) = Task.fired task ++ hbs ++ [Task.stoppedevent]
    /\ Forall (fun f => Task.is_heartbeat f = true) hbs.
Proof.
  cbv zeta.
  destruct (genericprint_reads _gettemperature clock execute_line cancelled
              polltemperature pollinterval now gcodelines task Hreads) as [temperature ->].
  cbv zeta.
  set (st0 := Driver.mkLocals 0 _ _ task).
  destruct (lookup_lt_is_Some_2 gcodelines k Hk) as [data Hdata].
  pose proof (take_drop_middle gcodelines k data Hdata) as Hsplit.
  assert (Hlen : List.length (take k gcodelines) = k) by (rewrite length_take; lia).
  assert (Hen : Driver.enumerate_from 0 gcodelines
                = Driver.enumerate_from 0 (take k gcodelines ++ data :: drop (S k) gcodelines))
    by now rewrite Hsplit.
  rewrite Hen.
  destruct (stream_prefix _gettemperature clock execute_line cancelled
              polltemperature pollinterval
              (Z.of_nat (List.length gcodelines)) (2 * Z.of_nat (List.length gcodelines))
              (take k gcodelines) (data :: drop (S k) gcodelines) 0 st0 Hreads Hrunning)
    as (st' & hbs & E & Hb & Hs & Hf & Hh).
  { intros j Hj. apply Hbefore. lia. }
  rewrite E, Hlen. cbn [Nat.add Driver.enumerate_from Driver.stream].
  rewrite Hcancel.
  assert (Hc : Task.cancel (Driver.l_task st')
               = Task.fire (Driver.l_task st') Task.STOPPED [Task.stoppedevent])
    by (unfold Task.cancel; now rewrite Hs).
  rewrite Hc. cbn [Task.fire Task.state].
  rewrite bool_decide_eq_false_2 by discriminate.
  cbn [negb Driver.l_task Task.state]. rewrite bool_decide_eq_true_2 by reflexivity.
  cbn [negb]. eexists _, hbs. split; [reflexivity|].
  cbn [Driver.l_currentbyte Driver.l_task Task.state Task.fired].
  repeat split; [rewrite Hb; cbn; lia | | exact Hh].
  unfold Task.fire. cbn [Task.fired]. rewrite Hf. cbn [Driver.l_task st0].
  now rewrite <- app_assoc.
Qed.

Lemma cancelled_print_stops_witness :
  let task : Task.Task (@Driver.Progress unit) unit Empty_set := Task.start Task.new in
  let printed :=
    Driver._genericprint (fun _ => Some tt) (fun _ => 0%Q) (fun _ _ => true) (Nat.eqb 1)
      true 5%Q 0%Q ["G1 X10"; "G1 X20"; "G1 X30"] task in
  exists st, Driver.p_outcome printed = Driver.Finished st
             /\ Driver.l_currentbyte st = 6
             /\ Task.state (Driver.l_task st) = Task.STOPPED.
Proof.
  cbv zeta.
  destruct (cancelled_print_stops (fun _ => Some tt) (fun _ => 0%Q) (fun _ _ => true) (Nat.eqb 1)
              true 5%Q 0%Q ["G1 X10"; "G1 X20"; "G1 X30"]
              (Task.start Task.new : Task.Task (@Driver.Progress unit) unit Empty_set) 1)
    as (st & hbs & E & Hb & Hs & _).
  - intros _ t. now exists tt.
  - reflexivity.
  - cbn. lia.
  - reflexivity.
  - intros j Hj. assert (j = 0%nat) as -> by lia. split; reflexivity.
  - exists st. repeat split; [exact E | exact Hb | exact Hs].
Defined.

(** X15: when the parser raises at line [k] of an otherwise undisturbed
    print whose temperature reads (made only with polling on) all succeed,
    the exception leaves the loop at that line with the line's bytes already
    counted, and the driver neither ends nor fails the task: it is still
    RUNNING. *)
Theorem parser_error_leaves_task_running {Temperature : Type}
    (_gettemperature : Q -> option Temperature) (clock : nat -> Q)
    (execute_line : nat -> string -> bool) (cancelled : nat -> bool)
    (polltemperature : bool) (pollinterval now : Q) (gcodelines : list string)
    (task : Task.Task (@Driver.Progress Temperature) unit Empty_set)
    (k : nat) (data : string)
    (Hreads : polltemperature = true -> forall t, is_Some (_gettemperature t))
    (Hrunning : Task.state task = Task.RUNNING)
    (Hline : gcodelines !! k = Some data)
    (Hraise : execute_line k (Driver.strip data) = false)
    (Hquiet : cancelled k = false)
    (Hbefore : forall j, (j < k)%nat ->
                 cancelled j = false /\ forall data, execute_line j data = true) :
  let printed :=
    Driver._genericprint _gettemperature clock execute_line cancelled
      polltemperature pollinterval now gcodelines task in
  exists st hbs,
    Driver.p_outcome printed = Driver.Raised k st
    /\ Driver.l_currentbyte st = Driver.rawbytes (take (S k) gcodelines)
    /\ Task.state (Driver.l_task st) = Task.RUNNING
    /\ Task.fired (Driver.l_task st) = Task.fired task ++ hbs
    /\ Forall (fun f => Task.is_heartbeat f = true) hbs.
Proof.
  cbv zeta.
  destruct (genericprint_reads _gettemperature clock execute_line cancelled
              polltemperature pollinterval now gcodelines task Hreads) as [temperature ->].
  cbv zeta.
  set (st0 := Driver.mkLocals 0 _ _ task).
  pose proof (take_drop_middle gcodelines k data Hline) as Hsplit.
  pose proof (lookup_lt_Some _ _ _ Hline) as Hk.
  assert (Hlen : List.length (take k gcodelines) = k) by (rewrite length_take; lia).
  assert (Hen : Driver.enumerate_from 0 gcodelines
                = Driver.enumerate_from 0 (take k gcodelines ++ data :: drop (S k) gcodelines))
    by now rewrite Hsplit.
  rewrite Hen.
  destruct (stream_prefix _gettemperature clock execute_line cancelled
              polltemperature pollinterval
              (Z.of_nat (List.length gcodelines)) (2 * Z.of_nat (List.length gcodelines))
              (take k gcodelines) (data :: drop (S k) gcodelines) 0 st0 Hreads Hrunning)
    as (st' & hbs & E & Hb & Hs & Hf & Hh).
  { intros j Hj. apply Hbefore. lia. }
  rewrite E, Hlen. cbn [Nat.add Driver.enumerate_from Driver.stream].
  rewrite Hquiet, Hs. rewrite bool_decide_eq_true_2 by reflexivity. cbn [negb].
  destruct (polltemperature && Qle_bool (Driver.l_polltime st') (clock k))%bool eqn:Epoll;
    [ apply andb_true_iff in Epoll as [Epoll _];
      destruct (Hreads Epoll (clock k)) as [temperature' Hread]; rewrite Hread | ];
    rewrite Hraise; cbn [negb];
    (eexists _, hbs; split; [reflexivity|];
     cbn [Driver.l_currentbyte Driver.l_task];
     repeat split; [| exact Hs | exact Hf | exact Hh];
     rewrite Hb, (take_S_r _ _ _ Hline), rawbytes_app; cbn; lia).
Qed.

Lemma parser_error_leaves_task_running_witness :
  let task : Task.Task (@Driver.Progress unit) unit Empty_set := Task.start Task.new in
  let printed :=
    Driver._genericprint (fun _ => Some tt) (fun _ => 0%Q)
      (fun i _ => negb (Nat.eqb i 1)) (fun _ => false)
      true 5%Q 0%Q ["G1 X10"; " oops "; "G1 X30"] task in
  exists st, Driver.p_outcome printed = Driver.Raised 1 st
             /\ Driver.l_currentbyte st = 12
             /\ Task.state (Driver.l_task st) = Task.RUNNING.
Proof.
  cbv zeta.
  destruct (parser_error_leaves_task_running (fun _ => Some tt) (fun _ => 0%Q)
              (fun i _ => negb (Nat.eqb i 1)) (fun _ => false)
              true 5%Q 0%Q ["G1 X10"; " oops "; "G1 X30"]
              (Task.start Task.new : Task.Task (@Driver.Progress unit) unit Empty_set)
              1 " oops ")
    as (st & hbs & E & Hb & Hs & _).
  - intros _ t. now exists tt.
  - reflexivity.
  - reflexivity.
  - reflexivity.
  - reflexivity.
  - intros j Hj. assert (j = 0%nat) as -> by lia. split; reflexivity.
  - exists st. repeat split; [exact E | exact Hb | exact Hs].
Defined.



(** ** Temperatures and the printer thread *)

Section TemperatureFacts.

Import PrinterThread.

Context {R : Type}.

Lemma read_keys_Some (read : Z -> R) (keys : list string) (d m : gmap string R) :
  read_keys read keys d = Some m ->
  Forall (fun key => is_Some (Py.int key)) keys
  /\ forall key, m !! key = if decide (key ∈ keys) then read <$> Py.int key else d !! key.
Proof.
  revert d. induction keys as [|k keys IH]; intros d; cbn [read_keys].
  - intros H. inversion H; subst. split; [constructor|]. intros key.
    rewrite decide_False; [reflexivity | apply not_elem_of_nil].
  - destruct (Py.int k) as [tool|] eqn:Ek; [|discriminate].
    intros H. destruct (IH _ H) as [Hall Hm]. split.
    + constructor; [rewrite Ek; eauto | exact Hall].
    + intros key. rewrite Hm.
      destruct (decide (key = k)) as [->|Hne].
      * rewrite (decide_True (P := k ∈ k :: keys)) by apply list_elem_of_here.
        destruct (decide (k ∈ keys)); [reflexivity|].
        now rewrite lookup_insert_eq, Ek.
      * rewrite lookup_insert_ne by congruence.
        destruct (decide (key ∈ keys)) as [Hin|Hin].
        -- rewrite decide_True; [reflexivity | now apply list_elem_of_further].
        -- rewrite decide_False; [reflexivity|].
           intros Hc. apply elem_of_cons in Hc as [?|?]; contradiction.
Qed.

Lemma read_keys_None (read : Z -> R) (keys : list string) (d : gmap string R) :
  read_keys read keys d = None <-> exists key, key ∈ keys /\ Py.int key = None.
Proof.
  revert d. induction keys as [|k keys IH]; intros d; cbn [read_keys].
  - split; [discriminate|]. intros (key & Hin & _). now apply elem_of_nil in Hin.
  - destruct (Py.int k) as [tool|] eqn:Ek.
    + rewrite IH. split; intros (key & Hin & Hk).
      * exists key. split; [now apply list_elem_of_further | exact Hk].
      * apply elem_of_cons in Hin as [->|Hin]; [congruence|]. eauto.
    + split; [|reflexivity]. intros _. exists k. split; [apply list_elem_of_here | exact Ek].
Qed.

End TemperatureFacts.

(** X16: the temperature payload has an entry for exactly the tool keys and
    the platform keys of the profile, each holding the reading taken at the
    number its key spells. *)
Theorem gettemperature_payload {R : Type} (toolhead platform : Z -> R)
    (tool_keys platform_keys : list string) (temperature : PrinterThread.Temperature R)
    (H : PrinterThread._gettemperature toolhead platform tool_keys platform_keys
         = Some temperature) :
  (forall key,
     PrinterThread.tools temperature !! key
     = if decide (key ∈ tool_keys) then toolhead <$> Py.int key else None)
  /\ (forall key,
        PrinterThread.heated_platforms temperature !! key
        = if decide (key ∈ platform_keys) then platform <$> Py.int key else None)
  /\ Forall (fun key => is_Some (Py.int key)) (tool_keys ++ platform_keys).
Proof.
  unfold PrinterThread._gettemperature in H.
  destruct (PrinterThread.read_keys toolhead tool_keys ∅) as [t|] eqn:Et; [|discriminate].
  destruct (PrinterThread.read_keys platform platform_keys ∅) as [p|] eqn:Ep; [|discriminate].
  inversion H; subst. cbn [PrinterThread.tools PrinterThread.heated_platforms].
  apply read_keys_Some in Et as [At Ht]. apply read_keys_Some in Ep as [Ap Hp].
  repeat split.
  - intros key. rewrite Ht. destruct (decide (key ∈ tool_keys)); [reflexivity|].
    apply lookup_empty.
  - intros key. rewrite Hp. destruct (decide (key ∈ platform_keys)); [reflexivity|].
    apply lookup_empty.
  - apply Forall_app. now split.
Qed.

Lemma gettemperature_payload_witness :
  exists temperature,
    PrinterThread._gettemperature (fun tool => 200 + tool) (fun _ => 60) ["0"; "1"] ["0"]
    = Some temperature
    /\ PrinterThread.tools temperature !! "1" = Some 201
    /\ PrinterThread.tools temperature !! "2" = None.
Proof.
  eexists. split; [vm_compute; reflexivity|].
  match goal with
  | |- PrinterThread.tools ?t !! _ = _ /\ _ =>
      destruct (gettemperature_payload (fun tool => 200 + tool) (fun _ => 60)
                  ["0"; "1"] ["0"] t ltac:(vm_compute; reflexivity)) as (Ht & _ & _)
  end.
  split; rewrite Ht; vm_compute; reflexivity.
Defined.

(** X17: reading the temperatures raises exactly when some tool or platform
    key of the profile does not spell an integer. *)
Theorem gettemperature_raises_iff {R : Type} (toolhead platform : Z -> R)
    (tool_keys platform_keys : list string) :
  PrinterThread._gettemperature toolhead platform tool_keys platform_keys = None
  <-> exists key, key ∈ tool_keys ++ platform_keys /\ Py.int key = None.
Proof.
  unfold PrinterThread._gettemperature.
  destruct (PrinterThread.read_keys toolhead tool_keys ∅) as [t|] eqn:Et.
  - destruct (PrinterThread.read_keys platform platform_keys ∅) as [p|] eqn:Ep.
    + split; [discriminate|]. intros (key & Hin & Hk).
      apply read_keys_Some in Et as [At _]. apply read_keys_Some in Ep as [Ap _].
      apply elem_of_app in Hin as [Hin|Hin].
      * rewrite Forall_forall in At. destruct (At _ Hin) as [n Hn]. congruence.
      * rewrite Forall_forall in Ap. destruct (Ap _ Hin) as [n Hn]. congruence.
    + split; [|reflexivity]. intros _. apply read_keys_None in Ep as (key & Hin & Hk).
      exists key. split; [apply elem_of_app; now right | exact Hk].
  - split; [|reflexivity]. intros _. apply read_keys_None in Et as (key & Hin & Hk).
    exists key. split; [apply elem_of_app; now left | exact Hk].
Qed.

Section ThreadFacts.

Import PrinterThread.

Context {J R : Type}.
Variable tool_keys platform_keys : list string.

Local Abbreviation Thread := (S3gPrinterThread J).

Lemma printed_and_then_print (tuple_ : J) (r : Run J R) :
  printed (and_then (driver_print tuple_) r) = tuple_ :: printed r.
Proof. reflexivity. Qed.

Lemma printed_and_then_update (t : Temperature R) (r : Run J R) :
  printed (and_then (updateprinter t) r) = printed r.
Proof. reflexivity. Qed.

Lemma pushes_queue (jobs : list J) (self : Thread) :
  rev (_queue (foldl (fun self tuple_ => print tuple_ self) self jobs))
  = rev (_queue self) ++ jobs.
Proof.
  revert self. induction jobs as [|j jobs IH]; intros self; cbn [foldl].
  - now rewrite app_nil_r.
  - rewrite IH. cbn [print _queue rev]. now rewrite <- app_assoc.
Qed.

Lemma pushes_stop (jobs : list J) (self : Thread) :
  _stop (foldl (fun self tuple_ => print tuple_ self) self jobs) = _stop self.
Proof. revert self. induction jobs as [|j jobs IH]; intros self; cbn; [done|now rewrite IH]. Qed.

Lemma pop_rev (queue : list J) :
  match pop queue with
  | Some (tuple_, rest) => rev queue = tuple_ :: rev rest
  | None => queue = []
  end.
Proof.
  unfold pop. destruct (last queue) as [x|] eqn:E.
  - apply last_Some in E as [l ->]. rewrite removelast_last, rev_app_distr. reflexivity.
  - now apply last_None.
Qed.

(** The jobs printed are taken from the old end of the queue, then from the
    submissions, oldest first. *)
Lemma loop_fifo (envs : list (Env J R)) (polltime : Q) (self : Thread) :
  printed (loop tool_keys platform_keys envs polltime self)
  `prefix_of` rev (_queue self) ++ concat (pushed <$> envs).
Proof.
  revert polltime self. induction envs as [|env envs IH]; intros polltime self.
  - apply prefix_nil.
  - cbn [loop fmap list_fmap concat].
    set (self1 := foldl _ self (pushed env)).
    assert (Hq : rev (_queue self1) = rev (_queue self) ++ pushed env) by apply pushes_queue.
    set (self2 := if stop_called env then stop self1 else self1).
    assert (Hq2 : _queue self2 = _queue self1) by (unfold self2; now destruct (stop_called env)).
    rewrite app_assoc, <- Hq, <- Hq2.
    destruct (_stop self2); [apply prefix_nil|].
    pose proof (pop_rev (_queue self2)) as Hpop.
    destruct (pop (_queue self2)) as [[tuple_ queue]|].
    + rewrite Hpop. cbn [app].
      destruct (print_returns env).
      * rewrite printed_and_then_print. apply prefix_cons.
        destruct (task_stopped env); apply (IH polltime (mkThread queue _ _)).
      * cbn. apply prefix_cons, prefix_nil.
    + rewrite Hpop. cbn [rev app].
      destruct (Qle_bool polltime (now env)).
      * destruct (_gettemperature _ _ _ _); [|apply prefix_nil].
        rewrite printed_and_then_update.
        pose proof (IH (now env + 5)%Q self2) as H. now rewrite Hpop in H.
      * pose proof (IH polltime self2) as H. now rewrite Hpop in H.
Qed.

End ThreadFacts.

Section ThreadRuns.

Import PrinterThread.

Context {J R : Type}.
Variable tool_keys platform_keys : list string.

Lemma printed_run (now0 : Q) (envs : list (Env J R)) (self : S3gPrinterThread J) :
  printed (run tool_keys platform_keys now0 envs self)
  = printed (loop tool_keys platform_keys envs (now0 + 5)%Q self).
Proof.
  unfold run, printed. cbn [effects]. rewrite omap_app. cbn. apply app_nil_r.
Qed.

Lemma loop_drains (envs : list (Env J R)) (polltime : Q) (self : S3gPrinterThread J) :
  Forall (fun env => pushed env = [] /\ stop_called env = false /\ print_returns env = true)
    envs ->
  List.length envs = List.length (_queue self) ->
  _stop self = false ->
  printed (loop tool_keys platform_keys envs polltime self) = rev (_queue self).
Proof.
  intros Hall. revert polltime self.
  induction Hall as [|env envs (Hp & Hs & Hr) _ IH]; intros polltime self Hlen Hstop.
  - destruct (_queue self); [reflexivity | discriminate].
  - cbn [loop]. rewrite Hp, Hs. cbn [foldl]. rewrite Hstop.
    pose proof (pop_rev (_queue self)) as Hpop.
    destruct (pop (_queue self)) as [[tuple_ queue]|].
    + rewrite Hr, printed_and_then_print, Hpop. f_equal.
      assert (Hq : List.length queue = List.length envs).
      { apply (f_equal (@List.length J)) in Hpop. cbn [List.length] in Hpop, Hlen.
        rewrite !length_rev in Hpop. lia. }
      destruct (task_stopped env); cbn [_queue _stop];
        rewrite (IH polltime (mkThread queue _ false)); cbn [_queue _stop]; auto.
    + rewrite Hpop in Hlen. discriminate.
Qed.

End ThreadRuns.

(** X18: the printer thread is a FIFO: whatever the other threads do, the
    jobs it hands to the driver are, in order, a prefix of the jobs that were
    queued when it started (oldest first) followed by the jobs submitted
    since, in submission order. *)
Theorem jobs_print_in_submission_order {J R : Type}
    (tool_keys platform_keys : list string) (now0 : Q)
    (envs : list (PrinterThread.Env J R)) (self : PrinterThread.S3gPrinterThread J) :
  PrinterThread.printed (PrinterThread.run tool_keys platform_keys now0 envs self)
  `prefix_of` rev (PrinterThread._queue self) ++ concat (PrinterThread.pushed <$> envs).
Proof. rewrite printed_run. apply loop_fifo. Qed.

(** X19: jobs submitted with [print] to an idle thread are all handed to the
    driver, in submission order, one per turn of the loop, as long as the
    thread is not stopped and the driver returns. *)
Theorem submitted_jobs_all_printed {J R : Type}
    (tool_keys platform_keys : list string) (now0 : Q)
    (envs : list (PrinterThread.Env J R)) (jobs : list J)
    (Hquiet : Forall (fun env => PrinterThread.pushed env = []
                                 /\ PrinterThread.stop_called env = false
                                 /\ PrinterThread.print_returns env = true) envs)
    (Hturns : List.length envs = List.length jobs) :
  PrinterThread.printed
    (PrinterThread.run tool_keys platform_keys now0 envs
       (foldl (fun self tuple_ => PrinterThread.print tuple_ self)
          (PrinterThread.mkThread [] None false) jobs))
  = jobs.
Proof.
  rewrite printed_run, loop_drains.
  - now rewrite pushes_queue.
  - exact Hquiet.
  - rewrite <- (length_rev (PrinterThread._queue _)), pushes_queue. cbn. exact Hturns.
  - now rewrite pushes_stop.
Qed.

Lemma submitted_jobs_all_printed_witness :
  let env : PrinterThread.Env string Z :=
    PrinterThread.mkEnv [] false 1%Q (fun _ => 200) (fun _ => 60) true true in
  PrinterThread.printed
    (PrinterThread.run ["0"] ["0"] 0%Q [env; env]
       (PrinterThread.print "second.gcode"
          (PrinterThread.print "first.gcode" (PrinterThread.mkThread [] None false))))
  = ["first.gcode"; "second.gcode"].
Proof.
  cbv zeta.
  apply (submitted_jobs_all_printed ["0"] ["0"] 0%Q _ ["first.gcode"; "second.gcode"]).
  - repeat constructor.
  - reflexivity.
Defined.

(** ** Pipelines *)

Section PipelineFacts.

Import Domain Recipe Pipeline.

Variable mktemp : nat -> string -> string.
Variable config_profile : string.

Ltac pipeline_tac recipe mode :=
  intros n; unfold well_formed;
  cbv [mbind Tmp_bind mret Tmp_ret NamedTemporaryFile make_gcodeprocessortask
       job_of is_dual inputs expected_configs];
  match goal with
  | |- context [getgcodeprocessors config_profile ?j] =>
      let l := fresh "l" in
      destruct (getgcodeprocessors config_profile j) as [l ?];
      destruct l
  | _ => idtac
  end;
  repeat match goal with
    | |- context [getgcodeprocessors ?p ?j] => destruct (getgcodeprocessors p j) as [? ?]
    end;
  cbn;
  repeat split; repeat constructor.

Lemma _GcodeRecipe_print_well_formed job gcodepath printerthread :
  forall n,
    well_formed config_profile (RecipeManager._GcodeRecipe job gcodepath) (print printerthread)
      (_GcodeRecipe_print mktemp job gcodepath printerthread n).1.
Proof. unfold _GcodeRecipe_print. pipeline_tac 0 0. Qed.

Lemma _GcodeRecipe_printtofile_well_formed job gcodepath profile outputpath :
  forall n,
    well_formed config_profile (RecipeManager._GcodeRecipe job gcodepath)
      (printtofile profile outputpath)
      (_GcodeRecipe_printtofile mktemp job gcodepath profile outputpath n).1.
Proof. unfold _GcodeRecipe_printtofile. pipeline_tac 0 0. Qed.

Lemma _StlRecipe_print_well_formed job stlpath printerthread :
  forall n,
    well_formed config_profile (RecipeManager._StlRecipe job stlpath) (print printerthread)
      (_StlRecipe_print mktemp config_profile job stlpath printerthread n).1.
Proof. unfold _StlRecipe_print. pipeline_tac 0 0. Qed.

Lemma _StlRecipe_printtofile_well_formed job stlpath profile outputpath :
  forall n,
    well_formed config_profile (RecipeManager._StlRecipe job stlpath)
      (printtofile profile outputpath)
      (_StlRecipe_printtofile mktemp config_profile job stlpath profile outputpath n).1.
Proof. unfold _StlRecipe_printtofile. pipeline_tac 0 0. Qed.

Lemma _StlRecipe_slice_well_formed job stlpath profile outputpath :
  forall n,
    well_formed config_profile (RecipeManager._StlRecipe job stlpath) (slice profile outputpath)
      (_StlRecipe_slice mktemp config_profile job stlpath profile outputpath n).1.
Proof. unfold _StlRecipe_slice. pipeline_tac 0 0. Qed.

Lemma _DualThingRecipe_print_well_formed job stl_0_path stl_1_path printerthread :
  forall n,
    well_formed config_profile (RecipeManager._DualThingRecipe job stl_0_path stl_1_path)
      (print printerthread)
      (_DualThingRecipe_print mktemp config_profile job stl_0_path stl_1_path
         printerthread n).1.
Proof. unfold _DualThingRecipe_print. pipeline_tac 0 0. Qed.

Lemma _DualThingRecipe_printtofile_well_formed job stl_0_path stl_1_path profile outputpath :
  forall n,
    well_formed config_profile (RecipeManager._DualThingRecipe job stl_0_path stl_1_path)
      (printtofile profile outputpath)
      (_DualThingRecipe_printtofile mktemp config_profile job stl_0_path stl_1_path
         profile outputpath n).1.
Proof. unfold _DualThingRecipe_printtofile. pipeline_tac 0 0. Qed.

Lemma _DualThingRecipe_slice_well_formed job stl_0_path stl_1_path profile outputpath :
  forall n,
    well_formed config_profile (RecipeManager._DualThingRecipe job stl_0_path stl_1_path)
      (slice profile outputpath)
      (_DualThingRecipe_slice mktemp config_profile job stl_0_path stl_1_path
         profile outputpath n).1.
Proof. unfold _DualThingRecipe_slice. pipeline_tac 0 0. Qed.

End PipelineFacts.

Section PipelineOfRecipe.

Import Domain Recipe Pipeline.

Variable mktemp : nat -> string -> string.
Variable config_profile : string.

Lemma process_of_well_formed recipe mode n p n' :
  process_of mktemp config_profile recipe mode n = (inr p, n') ->
  well_formed config_profile recipe mode p.
Proof.
  destruct recipe, mode; cbn [process_of]; intros H;
    try (apply fmap_inr_inv in H; subst p);
    try (unfold mret, Tmp_ret in H; discriminate H).
  - apply _GcodeRecipe_print_well_formed.
  - apply _GcodeRecipe_printtofile_well_formed.
  - apply _StlRecipe_print_well_formed.
  - apply _StlRecipe_printtofile_well_formed.
  - apply _StlRecipe_slice_well_formed.
  - apply (_StlRecipe_print_well_formed mktemp config_profile job stl_path printerthread n).
  - apply (_StlRecipe_printtofile_well_formed mktemp config_profile job stl_path
             profile outputpath n).
  - apply (_StlRecipe_slice_well_formed mktemp config_profile job stl_path
             profile outputpath n).
  - apply _DualThingRecipe_print_well_formed.
  - apply _DualThingRecipe_printtofile_well_formed.
  - apply _DualThingRecipe_slice_well_formed.
Qed.

End PipelineOfRecipe.

(** X20: the stages of every process a recipe returns are those of the
    pipeline table: wrap then print (or print-to-file and verify) for a
    toolpath; a slice first for a mesh; two slices and a weave first for a dual
    mesh; with the post-process stage present exactly when the processor list
    is nonempty, except in the dual slice pipeline, which always has it. *)
Theorem pipeline_follows_table (mktemp : nat -> string -> string) (config_profile : string)
    (recipe : RecipeManager.Recipe) (mode : Recipe.Mode) (n n' : nat) (p : Recipe.Process)
    (Hp : Recipe.process_of mktemp config_profile recipe mode n = (inr p, n')) :
  Pipeline.stages p
  = Pipeline.table recipe mode
      (negb (Nat.eqb 0 (List.length
         (Recipe.getgcodeprocessors config_profile (Pipeline.job_of recipe)).1))).
Proof. exact (proj1 (process_of_well_formed _ _ _ _ _ _ _ Hp)). Qed.

Lemma pipeline_follows_table_witness :
  let settings := Domain.mkSlicerConfiguration Domain.SKEINFORGE None "0" in
  let job := Domain.mkJob "z.thing" "z" settings "PLA" true false None "s3g" in
  let recipe := RecipeManager._DualThingRecipe job "/tmp/a/0.stl" "/tmp/a/1.stl" in
  exists p n',
    Recipe.process_of Os.tmpname "Replicator2" recipe (Recipe.printtofile "Replicator2" "z.s3g")
      0%nat = (inr p, n')
    /\ Pipeline.stages p
       = [Pipeline.Slice; Pipeline.Slice; Pipeline.Weave; Pipeline.PostProcess;
          Pipeline.Wrap; Pipeline.PrintToFile; Pipeline.Verify].
Proof.
  cbv zeta.
  destruct (Recipe.process_of Os.tmpname "Replicator2" _ _ 0%nat) as [[e|p] n'] eqn:E.
  - exfalso. cbn [Recipe.process_of] in E. now apply fmap_inr_not_inl in E.
  - exists p, n'. split; [reflexivity|].
    rewrite (pipeline_follows_table _ _ _ _ _ _ _ E). vm_compute. reflexivity.
Defined.

(** X21: in every process a recipe returns, each task reads only the input
    files of the recipe or a file that an earlier task of the sequence was
    told to produce. *)
Theorem pipeline_is_chained (mktemp : nat -> string -> string) (config_profile : string)
    (recipe : RecipeManager.Recipe) (mode : Recipe.Mode) (n n' : nat) (p : Recipe.Process)
    (Hp : Recipe.process_of mktemp config_profile recipe mode n = (inr p, n')) :
  Pipeline.chained (Pipeline.inputs recipe) (Recipe.p_tasks p).
Proof. exact (proj1 (proj2 (proj2 (process_of_well_formed _ _ _ _ _ _ _ Hp)))). Qed.

Lemma pipeline_is_chained_witness :
  let settings := Domain.mkSlicerConfiguration Domain.MIRACLEGRUE None "0" in
  let job := Domain.mkJob "y.stl" "y" settings "PLA" true false None "s3g" in
  let recipe := RecipeManager._StlRecipe job "y.stl" in
  exists p n',
    Recipe.process_of Os.tmpname "Replicator2" recipe (Recipe.slice "Replicator2" "y.gcode")
      0%nat = (inr p, n')
    /\ Pipeline.chained ["y.stl"] (Recipe.p_tasks p).
Proof.
  cbv zeta.
  destruct (Recipe.process_of Os.tmpname "Replicator2" _ _ 0%nat) as [[e|p] n'] eqn:E.
  - exfalso. cbn [Recipe.process_of] in E. now apply fmap_inr_not_inl in E.
  - exists p, n'. split; [reflexivity|].
    exact (pipeline_is_chained _ _ _ _ _ _ _ E).
Defined.

(** X22: no slice task is ever asked to embed the start and end sequences,
    the dualstrusion flag of every task is set exactly in the pipelines of a
    dual-mesh recipe, and the slice tasks get the job's slicer settings: as
    they are for one mesh, and with extruder "0" then "1" for two. *)
Theorem slice_tasks_settings (mktemp : nat -> string -> string) (config_profile : string)
    (recipe : RecipeManager.Recipe) (mode : Recipe.Mode) (n n' : nat) (p : Recipe.Process)
    (Hp : Recipe.process_of mktemp config_profile recipe mode n = (inr p, n')) :
  Forall (Pipeline.flags_ok (Pipeline.is_dual recipe)) (Recipe.p_tasks p)
  /\ Pipeline.slicer_configs p = Pipeline.expected_configs recipe.
Proof.
  destruct (process_of_well_formed _ _ _ _ _ _ _ Hp) as (_ & Hf & _ & Hc). now split.
Qed.

Lemma slice_tasks_settings_witness :
  let settings := Domain.mkSlicerConfiguration Domain.MIRACLEGRUE None "7" in
  let job := Domain.mkJob "z.thing" "z" settings "PLA" true false None "s3g" in
  let recipe := RecipeManager._DualThingRecipe job "/tmp/a/0.stl" "/tmp/a/1.stl" in
  exists p n',
    Recipe.process_of Os.tmpname "Replicator2" recipe
      (Recipe.print (Recipe.mkPrinterThread "COM1" "Replicator2")) 0%nat = (inr p, n')
    /\ Pipeline.slicer_configs p
       = [Domain.mkSlicerConfiguration Domain.MIRACLEGRUE None "0";
          Domain.mkSlicerConfiguration Domain.MIRACLEGRUE None "1"].
Proof.
  cbv zeta.
  destruct (Recipe.process_of Os.tmpname "Replicator2" _ _ 0%nat) as [[e|p] n'] eqn:E.
  - exfalso. cbn [Recipe.process_of] in E. now apply fmap_inr_not_inl in E.
  - exists p, n'. split; [reflexivity|].
    rewrite (proj2 (slice_tasks_settings _ _ _ _ _ _ _ E)). reflexivity.
Defined.

(** ** Processor selection: guarantees *)

Section ProcessorGuarantees.

Import Domain Recipe.

Lemma contains_true (x : string) (l : list string) : contains x l = true -> x ∈ l.
Proof. unfold contains. apply bool_decide_eq_true. Qed.

Lemma contains_true_2 (x : string) (l : list string) : x ∈ l -> contains x l = true.
Proof. unfold contains. apply bool_decide_eq_true. Qed.

Lemma getgcodeprocessors_keeps (profile : string) (job : Job) (x : string) :
  x ∈ default [] (gcodeprocessor job) -> x ∈ (getgcodeprocessors profile job).1.
Proof.
  intros H. rewrite getgcodeprocessors_eq. cbv zeta.
  apply elem_of_app. right. apply elem_of_app. now left.
Qed.

Lemma getgcodeprocessors_legacy (profile : string) (job : Job) :
  slicer (slicer_settings job) = SKEINFORGE ->
  "Skeinforge50Processor" ∈ (getgcodeprocessors profile job).1
  /\ (slicer_path (slicer_settings job) = None ->
      "AnchorProcessor" ∈ (getgcodeprocessors profile job).1)
  /\ (String.eqb profile "Replicator2" = true ->
      "FanProcessor" ∈ (getgcodeprocessors profile job).1).
Proof.
  intros Hl. rewrite getgcodeprocessors_eq. cbv zeta.
  rewrite !(bool_decide_eq_true_2 (slicer (slicer_settings job) = SKEINFORGE)) by exact Hl.
  cbn [andb]. set (given := default [] (gcodeprocessor job)).
  repeat split.
  - destruct (contains "Skeinforge50Processor" given) eqn:E.
    + apply contains_true in E. apply elem_of_app. right. apply elem_of_app. now left.
    + cbn [negb]. rewrite !elem_of_app. right. right. left. apply list_elem_of_here.
  - intros Hp. rewrite (bool_decide_eq_true_2 _ Hp), andb_true_r.
    destruct (contains "AnchorProcessor" given) eqn:E.
    + apply contains_true in E. apply elem_of_app. right. apply elem_of_app. now left.
    + cbn [negb]. apply elem_of_app. left. apply list_elem_of_here.
  - intros Hf. rewrite Hf. cbn [andb].
    destruct (contains "FanProcessor" given) eqn:E.
    + apply contains_true in E. apply elem_of_app. right. apply elem_of_app. now left.
    + cbn [negb]. rewrite !elem_of_app. right. right. right. apply list_elem_of_here.
Qed.

Lemma getgcodeprocessors_job (profile : string) (job : Job) :
  (getgcodeprocessors profile job).2
  = mkJob (path job) (build_name job) (slicer_settings job) (material job)
      (with_start_end job) (skip_start_end job)
      ((fun _ => (getgcodeprocessors profile job).1) <$> gcodeprocessor job)
      (print_to_file_type job).
Proof. reflexivity. Qed.

(** A second reading of the list, after the first has changed it in place,
    adds nothing. *)
Lemma getgcodeprocessors_again (profile : string) (job : Job) :
  (getgcodeprocessors profile (getgcodeprocessors profile job).2).1
  = (getgcodeprocessors profile job).1.
Proof.
  set (r := (getgcodeprocessors profile job).1).
  rewrite getgcodeprocessors_eq. cbv zeta. rewrite getgcodeprocessors_job. fold r.
  cbn [gcodeprocessor slicer_settings].
  destruct (gcodeprocessor job) as [l|] eqn:Eg;
    cbn [fmap option_fmap option_map default from_option]; unfold id.
  - destruct (decide (slicer (slicer_settings job) = SKEINFORGE)) as [Hl|Hl].
    + destruct (getgcodeprocessors_legacy profile job Hl) as (Hs & Ha & Hf). fold r in Hs, Ha, Hf.
      rewrite !(bool_decide_eq_true_2 _ Hl). cbn [andb].
      rewrite (contains_true_2 _ _ Hs). cbn [negb app].
      assert (Ea : negb (contains "AnchorProcessor" r)
                   && bool_decide (slicer_path (slicer_settings job) = None) = false).
      { case_bool_decide as Hp; [|apply andb_false_r].
        rewrite (contains_true_2 _ _ (Ha Hp)). reflexivity. }
      assert (Ef : String.eqb profile "Replicator2" && negb (contains "FanProcessor" r) = false).
      { destruct (String.eqb profile "Replicator2") eqn:E; [|reflexivity].
        rewrite (contains_true_2 _ _ (Hf eq_refl)). reflexivity. }
      rewrite Ea, Ef. cbn [app]. now rewrite !app_nil_r.
    + rewrite !(bool_decide_eq_false_2 _ Hl). cbn [andb app]. now rewrite !app_nil_r.
  - unfold r. rewrite getgcodeprocessors_eq. cbv zeta. rewrite Eg. reflexivity.
Qed.

End ProcessorGuarantees.

(** X24: reading the processor list twice gives the same list and leaves the
    job as the first reading left it, although the first reading changes the
    job's own list in place: nothing is added a second time. *)
Theorem getgcodeprocessors_idempotent (profile : string) (job : Domain.Job) :
  Recipe.getgcodeprocessors profile (Recipe.getgcodeprocessors profile job).2
  = Recipe.getgcodeprocessors profile job.
Proof.
  apply injective_projections; [apply getgcodeprocessors_again|].
  rewrite (getgcodeprocessors_job profile (Recipe.getgcodeprocessors profile job).2).
  rewrite getgcodeprocessors_again.
  set (r := (Recipe.getgcodeprocessors profile job).1).
  set (J := (Recipe.getgcodeprocessors profile job).2).
  assert (HJ : J = Domain.mkJob (Domain.path job) (Domain.build_name job)
                     (Domain.slicer_settings job) (Domain.material job)
                     (Domain.with_start_end job) (Domain.skip_start_end job)
                     ((fun _ => r) <$> Domain.gcodeprocessor job)
                     (Domain.print_to_file_type job))
    by apply getgcodeprocessors_job.
  rewrite HJ.
  cbn [Domain.path Domain.build_name Domain.slicer_settings Domain.material
       Domain.with_start_end Domain.skip_start_end Domain.gcodeprocessor
       Domain.print_to_file_type].
  now destruct (Domain.gcodeprocessor job).
Qed.

(** X25: when the legacy slicer is selected the list always names the
    compatibility processor, names the anchor processor when no slicer path is
    preconfigured, and names the fan processor when the profile is
    Replicator2; and every processor the job asked for is still in the
    list. *)
Theorem legacy_slicer_processors (profile : string) (job : Domain.Job)
    (Hlegacy : Domain.slicer (Domain.slicer_settings job) = Domain.SKEINFORGE) :
  ("Skeinforge50Processor" ∈ (Recipe.getgcodeprocessors profile job).1)
  /\ (Domain.slicer_path (Domain.slicer_settings job) = None ->
      "AnchorProcessor" ∈ (Recipe.getgcodeprocessors profile job).1)
  /\ (profile = "Replicator2" -> "FanProcessor" ∈ (Recipe.getgcodeprocessors profile job).1)
  /\ (forall x, x ∈ default [] (Domain.gcodeprocessor job) ->
                x ∈ (Recipe.getgcodeprocessors profile job).1).
Proof.
  destruct (getgcodeprocessors_legacy profile job Hlegacy) as (Hs & Ha & Hf).
  repeat split; [exact Hs | exact Ha | | intros x; apply getgcodeprocessors_keeps].
  intros ->. now apply Hf.
Qed.

Lemma legacy_slicer_processors_witness :
  let settings := Domain.mkSlicerConfiguration Domain.SKEINFORGE (Some "/opt/skeinforge") "0" in
  let job := Domain.mkJob "y.stl" "y" settings "PLA" true false (Some ["MyProcessor"]) "s3g" in
  ("Skeinforge50Processor" ∈ (Recipe.getgcodeprocessors "Replicator2" job).1)
  /\ ("FanProcessor" ∈ (Recipe.getgcodeprocessors "Replicator2" job).1)
  /\ ("MyProcessor" ∈ (Recipe.getgcodeprocessors "Replicator2" job).1).
Proof.
  cbv zeta.
  destruct (legacy_slicer_processors "Replicator2"
              (Domain.mkJob "y.stl" "y"
                 (Domain.mkSlicerConfiguration Domain.SKEINFORGE (Some "/opt/skeinforge") "0")
                 "PLA" true false (Some ["MyProcessor"]) "s3g") eq_refl)
    as (Hs & _ & Hf & Hk).
  repeat split; [exact Hs | exact (Hf eq_refl) | apply Hk; apply list_elem_of_here].
Defined.

(** ** Cleanup: the loop over [os.unlink] *)

(** X26: the cleanup loop over [os.unlink] completes without raising exactly
    when the paths it names are pairwise distinct and each is an existing
    non-directory; it then removes exactly those paths and leaves every other
    path as it was. *)
Theorem unlink_all_completes (paths : list string) (fs : Os.FS) :
  ((Recipe.unlink_all paths fs).1 = None
   <-> NoDup paths /\ Forall (Os.unlinkable fs) paths)
  /\ ((Recipe.unlink_all paths fs).1 = None ->
      forall q, (Recipe.unlink_all paths fs).2 !! q
                = if decide (q ∈ paths) then None else fs !! q).
Proof.
  split; [apply unlink_all_ok|]. intros H q. now apply unlink_all_result.
Qed.

Lemma unlink_all_completes_witness :
  let fs : Os.FS :=
    <["/tmp/a.gcode" := Os.File ["G1"]]> (<["/tmp/b.gcode" := Os.File []]>
      (<["keep.stl" := Os.File ["solid"]]> ∅)) in
  (Recipe.unlink_all ["/tmp/a.gcode"; "/tmp/b.gcode"] fs).1 = None
  /\ (Recipe.unlink_all ["/tmp/a.gcode"; "/tmp/b.gcode"] fs).2 !! "keep.stl"
     = Some (Os.File ["solid"])
  /\ (Recipe.unlink_all ["/tmp/a.gcode"; "/tmp/a.gcode"] fs).1 <> None.
Proof.
  cbv zeta.
  set (fs := <["/tmp/a.gcode" := Os.File ["G1"]]> (<["/tmp/b.gcode" := Os.File []]>
               (<["keep.stl" := Os.File ["solid"]]> (∅ : Os.FS)))).
  assert (H : (Recipe.unlink_all ["/tmp/a.gcode"; "/tmp/b.gcode"] fs).1 = None)
    by (vm_compute; reflexivity).
  split; [exact H|]. split.
  - rewrite (proj2 (unlink_all_completes _ fs) H). vm_compute. reflexivity.
  - intros Hn. apply (proj1 (unlink_all_completes _ fs)) in Hn as [Hd _].
    apply NoDup_cons in Hd as [Hd _]. apply Hd, list_elem_of_here.
Defined.

(** ** Task bodies: what a run leaves behind *)

Section BodyFacts.

Import Run.

Lemma process_all_world (gcodeprocessors : list RecipeTask.Processor) (output : list string)
    (w : World) :
  (RecipeTask.process_all gcodeprocessors output w).2 = w.
Proof.
  revert output. induction gcodeprocessors as [|g l IH]; intros output; cbn.
  - reflexivity.
  - destruct (g output); [reflexivity | apply IH].
Qed.

Variable mktemp : nat -> string -> string.
Variable popen : list string -> Os.FS -> option (Z * Os.FS).

Lemma sequence_file_inv (profile : MiracleGrue.Profile) (key : string) (b : bool)
    (w w' : World) (name : string) :
  MiracleGrue.sequence_file mktemp profile key b w = (inr name, w') ->
  name = mktemp (w_tmp w) ".gcode" /\ w_tmp w' = S (w_tmp w).
Proof.
  unfold MiracleGrue.sequence_file. destruct b.
  - destruct (MiracleGrue.values profile !! key); intros H; inversion H; split; reflexivity.
  - intros H; inversion H; split; reflexivity.
Qed.

Lemma run_slicer_inv (arguments : list string) (w w' : World) (code : Z) :
  MiracleGrue.run_slicer popen arguments w = (inr code, w') -> w_tmp w' = w_tmp w.
Proof.
  unfold MiracleGrue.run_slicer. destruct (popen arguments (w_fs w)) as [[c fs]|];
    intros H; inversion H; reflexivity.
Qed.

Lemma unlink_inv (path : string) (w w' : World) :
  unlink path w = (inr tt, w') ->
  w_fs w' = delete path (w_fs w) /\ w_tmp w' = w_tmp w.
Proof.
  unfold unlink. destruct (Os.unlink path (w_fs w)) as [e|fs] eqn:E;
    intros H; inversion H; subst. cbn [w_fs w_tmp].
  apply unlink_inr in E as [_ ->]. split; reflexivity.
Qed.

(** What a successful slicer run leaves: two names drawn, and neither
    sequence file left. *)
Lemma slice_body_inr (configuration : MiracleGrue.MiracleGrueConfiguration)
    (profile : MiracleGrue.Profile) (inputpath outputpath : string) (b : bool)
    (w w' : World) :
  MiracleGrue.slice_body mktemp popen configuration profile inputpath outputpath b w
  = (inr tt, w') ->
  w_fs w' !! mktemp (w_tmp w) ".gcode" = None
  /\ w_fs w' !! mktemp (S (w_tmp w)) ".gcode" = None
  /\ w_tmp w' = S (S (w_tmp w)).
Proof.
  unfold MiracleGrue.slice_body, mbind, M_bind.
  destruct (MiracleGrue.sequence_file mktemp profile _ b w) as [[e|startpath] w1] eqn:E1;
    [discriminate|].
  destruct (MiracleGrue.sequence_file mktemp profile _ b w1) as [[e|endpath] w2] eqn:E2;
    [discriminate|].
  destruct (MiracleGrue.run_slicer popen _ w2) as [[e|code] w3] eqn:E3; [discriminate|].
  destruct (code =? 0); [|discriminate].
  destruct (unlink startpath w3) as [[e|[]] w4] eqn:E4; [discriminate|].
  intros E5.
  apply sequence_file_inv in E1 as [-> T1]. apply sequence_file_inv in E2 as [-> T2].
  apply run_slicer_inv in E3. apply unlink_inv in E4 as [F4 T4].
  apply unlink_inv in E5 as [F5 T5].
  rewrite T1 in *. repeat split.
  - rewrite F5, F4. destruct (decide (mktemp (S (w_tmp w)) ".gcode" = mktemp (w_tmp w) ".gcode"))
      as [Eq|Ne].
    + rewrite Eq. apply lookup_delete_eq.
    + rewrite lookup_delete_ne by exact Ne. apply lookup_delete_eq.
  - rewrite F5. apply lookup_delete_eq.
  - lia.
Qed.

End BodyFacts.

(** X27: the post-process task on a readable input, with processors that all
    succeed and an output path that is not a directory, writes the lines the
    processors produce, applied in order, to the output path and ends the
    task with no result; nothing else in the file system changes. *)
Theorem gcodeprocessor_task_writes_output (inputpath outputpath : string)
    (gcodeprocessors : list RecipeTask.Processor) (w : Run.World)
    (lines output : list string)
    (Hrunning : Task.state (Run.w_task w) = Task.RUNNING)
    (Hinput : Run.w_fs w !! inputpath = Some (Os.File lines))
    (Hprocessed : (RecipeTask.process_all gcodeprocessors lines w).1 = inr output)
    (Houtput : Run.w_fs w !! outputpath <> Some Os.Dir) :
  RecipeTask.gcodeprocessor_runningcallback inputpath outputpath gcodeprocessors w
  = (inr tt,
     Run.mkWorld (<[outputpath := Os.File output]> (Run.w_fs w))
       (Task.fire (Run.w_task w) Task.ENDED
          [Task.endevent Recipe.VNone; Task.stoppedevent])
       (Run.w_tmp w)).
Proof.
  unfold RecipeTask.gcodeprocessor_runningcallback, Run.try_except,
    RecipeTask.gcodeprocessor_body, mbind, Run.M_bind.
  unfold Run.readlines, Run.on_fs, Os.readlines. rewrite Hinput.
  destruct w as [fs task tmp]. cbn [Run.w_fs Run.w_task Run.w_tmp] in *.
  pose proof (process_all_world gcodeprocessors lines (Run.mkWorld fs task tmp)) as Hw.
  destruct (RecipeTask.process_all gcodeprocessors lines (Run.mkWorld fs task tmp))
    as [r w1].
  cbn [fst snd] in *. subst r w1.
  unfold Run.writelines, Os.writelines. cbn [Run.w_fs Run.w_task Run.w_tmp].
  assert (Hw : match fs !! outputpath with
               | Some Os.Dir => inl (Py.IOError outputpath)
               | _ => inr (<[outputpath := Os.File output]> fs)
               end = (inr (<[outputpath := Os.File output]> fs) : Py.exception + Os.FS)).
  { destruct (fs !! outputpath) as [[]|]; try reflexivity. contradiction. }
  rewrite Hw. unfold Run.task_end, Task.end_. cbn [Run.w_fs Run.w_task Run.w_tmp].
  now rewrite Hrunning.
Qed.

Lemma gcodeprocessor_task_writes_output_witness :
  let upper : RecipeTask.Processor := fun lines => inr (("; processed" : string) :: lines) in
  let w := Run.mkWorld {[ "in.gcode" := Os.File ["G1 X0"] ]} (Task.start Task.new) 0 in
  (RecipeTask.gcodeprocessor_runningcallback "in.gcode" "out.gcode" [upper] w).1 = inr tt
  /\ Run.w_fs (RecipeTask.gcodeprocessor_runningcallback "in.gcode" "out.gcode" [upper] w).2
     !! "out.gcode" = Some (Os.File ["; processed"; "G1 X0"]).
Proof.
  cbv zeta.
  rewrite (gcodeprocessor_task_writes_output "in.gcode" "out.gcode" _ _
             ["G1 X0"] ["; processed"; "G1 X0"]).
  - split; [reflexivity|]. cbn [snd Run.w_fs]. apply lookup_insert_eq.
  - reflexivity.
  - cbn [Run.w_fs]. apply lookup_singleton_eq.
  - reflexivity.
  - cbn [Run.w_fs]. rewrite lookup_singleton_ne; discriminate.
Defined.

(** X28: how the verify task ends: on a readable artifact that the reader
    accepts it ends with True; on an [S3gStreamError] it fails with the error's
    message; any other exception, an unreadable artifact included, escapes the
    callback and leaves the task RUNNING. *)
Theorem verify_outcomes (ReadFile : list string -> list Z * option Py.exception)
    (s3gpath : string) (fs : Os.FS) :
  let result := RecipeTask.verifys3gtask_started ReadFile s3gpath fs in
  let fired := Task.fired (RecipeTask.task result.1) in
  let state := Task.state (RecipeTask.task result.1) in
  match Os.readlines s3gpath fs with
  | inl e => state = Task.RUNNING /\ fired = [Task.runningevent] /\ result.2 = Some e
  | inr content =>
      match (ReadFile content).2 with
      | None =>
          state = Task.ENDED /\ result.2 = None
          /\ fired = [Task.runningevent; Task.endevent (Recipe.VBool true); Task.stoppedevent]
      | Some (Py.S3gStreamError message) =>
          state = Task.FAILED /\ result.2 = None
          /\ fired = [Task.runningevent; Task.failevent (Recipe.VStr message);
                      Task.stoppedevent]
      | Some e => state = Task.RUNNING /\ fired = [Task.runningevent] /\ result.2 = Some e
      end
  end.
Proof.
  cbv zeta. unfold RecipeTask.verifys3gtask_started, RecipeTask.verify_runningcallback.
  destruct (Os.readlines s3gpath fs) as [e|content]; [repeat split|].
  destruct (ReadFile content) as [percents raised].
  destruct raised as [[]|]; cbn [fst snd RecipeTask.task]; rewrite updates_task;
    repeat split.
Qed.

(** X29: when the slicer's [slice] returns normally, it has ended the task
    with no result, and neither of the two temporary sequence files it made is
    left in the file system. *)
Theorem slice_success_cleans_up (mktemp : nat -> string -> string)
    (popen : list string -> Os.FS -> option (Z * Os.FS))
    (configuration : MiracleGrue.MiracleGrueConfiguration) (profile : MiracleGrue.Profile)
    (inputpath outputpath : string) (with_start_end : bool) (w w' : Run.World)
    (Hrunning : Task.state (Run.w_task w) = Task.RUNNING)
    (Hreturns : MiracleGrue.slice mktemp popen configuration profile inputpath outputpath
                  with_start_end w = (inr tt, w')) :
  Task.state (Run.w_task w') = Task.ENDED
  /\ Task.fired (Run.w_task w')
     = Task.fired (Run.w_task w) ++ [Task.endevent Recipe.VNone; Task.stoppedevent]
  /\ Run.w_fs w' !! mktemp (Run.w_tmp w) ".gcode" = None
  /\ Run.w_fs w' !! mktemp (S (Run.w_tmp w)) ".gcode" = None.
Proof.
  unfold MiracleGrue.slice, Run.try_except in Hreturns.
  destruct (MiracleGrue.slice_body mktemp popen configuration profile inputpath outputpath
              with_start_end w) as [[e|[]] w1] eqn:E.
  - unfold mbind, Run.M_bind, Run.task_fail, Run.raise in Hreturns. discriminate.
  - pose proof (slice_body_task _ _ _ _ _ _ _ _ _ _ E) as T.
    apply slice_body_inr in E as (F1 & F2 & _).
    unfold Run.task_end in Hreturns. inversion Hreturns; subst w'.
    cbn [Run.w_task Run.w_fs]. unfold Task.end_. rewrite T, Hrunning.
    cbn [Task.fire Task.state Task.fired]. repeat split; assumption.
Qed.

Lemma slice_success_cleans_up_witness :
  let configuration := MiracleGrue.mkConfiguration "/usr/bin/miracle_grue" "miracle.config" in
  let profile := MiracleGrue.mkProfile {[ "print_start_sequence" := ["G28"];
                                          "print_end_sequence" := ["M18"] ]} in
  let popen := fun (_ : list string) (fs : Os.FS) =>
                 Some (0, <["model.gcode" := Os.File ["G1 X0"]]> fs) in
  let w := Run.mkWorld ∅ (Task.start Task.new) 0 in
  let r := MiracleGrue.slice Os.tmpname popen configuration profile
             "model.stl" "model.gcode" true w in
  r.1 = inr tt /\ Task.state (Run.w_task r.2) = Task.ENDED
  /\ Run.w_fs r.2 !! Os.tmpname 0 ".gcode" = None.
Proof.
  cbv zeta.
  match goal with
  | |- ?r.1 = _ /\ _ =>
      assert (H : r = (inr tt, r.2)) by (vm_compute; reflexivity);
        assert (Hr : Task.state (Run.w_task (Run.mkWorld ∅ (Task.start Task.new) 0))
                     = Task.RUNNING) by reflexivity;
        destruct (slice_success_cleans_up _ _ _ _ _ _ _ _ _ Hr H) as (Hs & _ & Hf & _)
  end.
  split; [vm_compute; reflexivity|]. split; [exact Hs | exact Hf].
Defined.

(** ** Composite extraction *)

(** X30: the composite planner returns a recipe only when the mesh splitter
    exited with status 0, and the recipe says which meshes it left in the
    scratch directory: a dual recipe on the two well-known files when both
    exist, and otherwise a single recipe on the one that exists. *)
Theorem thing_recipe_meshes (mkdtemp : Os.FS -> string)
    (unified_mesh_hack : string -> string -> Os.FS -> option (Z * Os.FS))
    (fs fs' : Os.FS) (job : Domain.Job) (recipe : RecipeManager.Recipe)
    (H : RecipeManager._getrecipe_thing mkdtemp unified_mesh_hack fs job = (inr recipe, fs')) :
  let thing_dir := mkdtemp fs in
  let stl_0_path := Os.join thing_dir "UNIFIED_MESH_HACK_0.stl" in
  let stl_1_path := Os.join thing_dir "UNIFIED_MESH_HACK_1.stl" in
  Os.exists_ fs (Domain.path job) = true
  /\ unified_mesh_hack (Domain.path job) thing_dir (<[thing_dir := Os.Dir]> fs) = Some (0, fs')
  /\ match recipe with
     | RecipeManager._DualThingRecipe job' a b =>
         job' = job /\ a = stl_0_path /\ b = stl_1_path
         /\ Os.exists_ fs' stl_0_path = true /\ Os.exists_ fs' stl_1_path = true
     | RecipeManager._SingleThingRecipe job' a =>
         job' = job
         /\ ((a = stl_0_path /\ Os.exists_ fs' stl_0_path = true
              /\ Os.exists_ fs' stl_1_path = false)
             \/ (a = stl_1_path /\ Os.exists_ fs' stl_0_path = false
                 /\ Os.exists_ fs' stl_1_path = true))
     | _ => False
     end.
Proof.
  cbv zeta. unfold RecipeManager._getrecipe_thing in H.
  destruct (Os.exists_ fs (Domain.path job)) eqn:Ee; cbn [negb] in H; [|discriminate].
  split; [reflexivity|].
  destruct (unified_mesh_hack _ _ _) as [[code fs1]|] eqn:Eh; [|discriminate].
  destruct (code =? 0) eqn:Ec; cbn [negb] in H; [|discriminate].
  apply Z.eqb_eq in Ec. subst code.
  destruct (Os.exists_ fs1 (Os.join (mkdtemp fs) "UNIFIED_MESH_HACK_0.stl")) eqn:E0;
    destruct (Os.exists_ fs1 (Os.join (mkdtemp fs) "UNIFIED_MESH_HACK_1.stl")) eqn:E1;
    cbn [andb] in H; inversion H; subst; (split; [reflexivity|]);
    rewrite ?E0, ?E1; auto 10.
Qed.

Lemma thing_recipe_meshes_witness :
  let settings := Domain.mkSlicerConfiguration Domain.MIRACLEGRUE None "0" in
  let job := Domain.mkJob "z.thing" "z" settings "PLA" true false None "s3g" in
  let fs : Os.FS := {[ "z.thing" := Os.File ["zip"] ]} in
  let splitter := fun (_ thing_dir : string) (fs : Os.FS) =>
                    Some (0, <[Os.join thing_dir "UNIFIED_MESH_HACK_1.stl" := Os.File ["solid"]]> fs) in
  let result := RecipeManager._getrecipe_thing (fun _ => "/tmp/tmpA.thing") splitter fs job in
  result.1 = inr (RecipeManager._SingleThingRecipe job "/tmp/tmpA.thing/UNIFIED_MESH_HACK_1.stl")
  /\ Os.exists_ result.2 "/tmp/tmpA.thing/UNIFIED_MESH_HACK_0.stl" = false.
Proof.
  cbv zeta.
  match goal with
  | |- ?r.1 = inr ?recipe /\ _ =>
      assert (H : r = (inr recipe, r.2)) by (vm_compute; reflexivity);
        destruct (thing_recipe_meshes _ _ _ _ _ _ H) as (_ & _ & _ & [(Ha & _)|(_ & H0 & _)])
  end.
  - discriminate Ha.
  - split; [vm_compute; reflexivity | exact H0].
Defined.
